(** * autosuspend: the suspend decision engine of [autosuspend/__init__.py]

    A shallow embedding of the probe aggregators ([execute_checks],
    [execute_wakeups]), of the command dispatchers ([execute_suspend],
    [notify_suspend], [notify_and_suspend], [schedule_wakeup]) and of
    [Processor.iteration], followed by the properties of the decision engine.

    Instants ([datetime.datetime]) and durations ([timedelta], the seconds of
    the configuration) are integers counting one common unit of time.

    The functions come first as they behave while their library calls
    succeed ([datetime] arithmetic within its range, templates [str.format]
    accepts); the module [Partial] then gives the same functions with the
    failures of those calls. *)

From Stdlib Require Import ZArith List Ascii String Bool Lia.
Import ListNotations.
Open Scope string_scope.
Open Scope list_scope.
Open Scope Z_scope.

Set Implicit Arguments.

(** ** Observable effects *)

(** What a probe call produces: an answer, or a [TemporaryCheckError]. *)
Inductive ProbeResult (A : Type) : Type :=
| Answer (a : A)
| Transient.
Arguments Transient {A}.

Inductive Level := DEBUG | INFO | WARNING.

(** [_logger] of the module and [self._logger] of the [Processor]. *)
Inductive Logger := module_logger | processor_logger.

(** The arguments a log record is formatted with. *)
Inductive LogArg :=
| AStr (s : string)
| AObj (name : string)
| ABool (b : bool)
| ANum (n : Z)
| ATime (t : option Z).

(** The effects of a run, in the order they happen. *)
Inductive Event :=
| Log (logger : Logger) (level : Level) (fmt : string) (args : list LogArg)
| CheckCalled (name : string) (result : ProbeResult (option string))
| WakeupCalled (name : string) (timestamp : Z) (result : ProbeResult (option Z))
| SetIdleSince (v : option Z)
| CallWakeupFn (wakeup_at : Z)
| CallSleepFn (wakeup_at : option Z)
| CheckCall (command : string) (returncode : Z).

(** ** Exceptions, and the monad of effectful code *)

Inductive exn :=
| TemporaryCheckError
| CalledProcessError (command : string) (returncode : Z)
| Builtin (class_name : string).

(** The built-in exceptions the library calls of the module raise. *)
Definition OverflowError : exn := Builtin "OverflowError".
Definition KeyError : exn := Builtin "KeyError".
Definition sleep_ValueError : exn := Builtin "ValueError".

Inductive Outcome (A : Type) : Type :=
| Returned (a : A)
| Raised (e : exn).
Arguments Raised {A}.

(** A computation over a store [S]: how it ends, the store it leaves, and the
    events it emitted. *)
Definition M (S A : Type) : Type := S -> Outcome A * S * list Event.

Definition ret {S A} (a : A) : M S A := fun s => (Returned a, s, []).

Definition bind {S A B} (m : M S A) (f : A -> M S B) : M S B :=
  fun s =>
    match m s with
    | (Returned a, s1, l1) =>
        let '(o, s2, l2) := f a s1 in (o, s2, l1 ++ l2)
    | (Raised e, s1, l1) => (Raised e, s1, l1)
    end.

Definition emit {S} (e : Event) : M S unit := fun s => (Returned tt, s, [e]).

(** [raise e] *)
Definition raise {S A} (e : exn) : M S A := fun s => (Raised e, s, []).

(** [try: body except <handles>: handler] *)
Definition try_except {S A} (body : M S A) (handles : exn -> bool)
    (handler : M S A) : M S A :=
  fun s =>
    match body s with
    | (Returned a, s1, l1) => (Returned a, s1, l1)
    | (Raised e, s1, l1) =>
        if handles e
        then let '(o, s2, l2) := handler s1 in (o, s2, l1 ++ l2)
        else (Raised e, s1, l1)
    end.

Declare Scope monad_scope.
Delimit Scope monad_scope with monad.
Notation "x <- c ;; k" := (bind c (fun x => k))
  (at level 100, c at next level, right associativity) : monad_scope.
Notation "' p <- c ;; k" := (bind c (fun x => let p := x in k))
  (at level 100, p pattern, c at next level, right associativity,
   only parsing) : monad_scope.
Notation "c ;; k" := (bind c (fun _ => k))
  (at level 100, right associativity) : monad_scope.
Open Scope monad_scope.

Definition outcome {S A} (r : Outcome A * S * list Event) : Outcome A :=
  fst (fst r).
Definition store {S A} (r : Outcome A * S * list Event) : S :=
  snd (fst r).
Definition events {S A} (r : Outcome A * S * list Event) : list Event :=
  snd r.

Definition is_TemporaryCheckError (e : exn) : bool :=
  match e with TemporaryCheckError => true | _ => false end.

Definition is_CalledProcessError (e : exn) : bool :=
  match e with CalledProcessError _ _ => true | _ => false end.

Definition log {S} (logger : Logger) (level : Level) (fmt : string)
    (args : list LogArg) : M S unit :=
  emit (Log logger level fmt args).

Section Autosuspend.

(** The live system the probes read and the commands act on. *)
Variable Env : Type.

(** The shell: the exit status of a command line and the system it leaves. *)
Variable run_shell : string -> Env -> Z * Env.

(** [template.format(timestamp=wakeup_at.timestamp(), iso=wakeup_at.isoformat())],
    the template being one [str.format] accepts. *)
Variable format_command : string -> Z -> string.

(** Modelled from the spec: the [Activity] class of [autosuspend.checks], which
    is not part of the sources at hand.  An activity probe has a name and one
    operation without arguments that reads the live system and returns a reason
    (the system is active), returns nothing, or fails transiently. *)
Record Activity := {
  activity_name : string;
  activity_check : Env -> ProbeResult (option string) * Env
}.

(** Modelled from the spec: the [Wakeup] class of [autosuspend.checks], which
    is not part of the sources at hand.  A wake probe has a name and one
    operation that, given the current instant, returns the next instant the
    system must be awake, returns nothing, or fails transiently. *)
Record Wakeup := {
  wakeup_name : string;
  wakeup_check : Z -> Env -> ProbeResult (option Z) * Env
}.

(** [check.check()] *)
Definition call_check (check : Activity) : M Env (option string) :=
  fun env =>
    let '(r, env') := activity_check check env in
    (match r with
     | Answer a => Returned a
     | Transient => Raised TemporaryCheckError
     end, env', [CheckCalled (activity_name check) r]).

(** [wakeup.check(timestamp)] *)
Definition call_wakeup (wakeup : Wakeup) (timestamp : Z) : M Env (option Z) :=
  fun env =>
    let '(r, env') := wakeup_check wakeup timestamp env in
    (match r with
     | Answer a => Returned a
     | Transient => Raised TemporaryCheckError
     end, env', [WakeupCalled (wakeup_name wakeup) timestamp r]).

(** [subprocess.check_call(command, shell=True)] *)
Definition check_call (command : string) : M Env unit :=
  fun env =>
    let '(code, env') := run_shell command env in
    (if code =? 0 then Returned tt
     else Raised (CalledProcessError command code),
     env', [CheckCall command code]).

(** ** The dispatchers *)

Definition execute_suspend (command : string) (wakeup_at : option Z)
    : M Env unit :=
  log module_logger INFO "Suspending using command: %s" [AStr command] ;;
  try_except
    (check_call command)
    is_CalledProcessError
    (log module_logger WARNING "Unable to execute suspend command: %s"
       [AStr command]).

Definition safe_exec (command : string) : M Env unit :=
  log module_logger INFO "Notifying using command: %s" [AStr command] ;;
  try_except
    (check_call command)
    is_CalledProcessError
    (log module_logger WARNING "Unable to execute notification command: %s"
       [AStr command]).

(** An [Optional[str]] under [if]: [None] and the empty string are false. *)
Definition truthy (o : option string) : option string :=
  match o with
  | Some s => if (s =? "")%string then None else Some s
  | None => None
  end.

(** [wakeup_at] is a [datetime] or [None]; a [datetime] is always true. *)
Definition notify_suspend (command_wakeup_template : option string)
    (command_no_wakeup : option string) (wakeup_at : option Z) : M Env unit :=
  match wakeup_at, truthy command_wakeup_template,
        truthy command_no_wakeup with
  | Some at_, Some template, _ => safe_exec (format_command template at_)
  | None, _, Some command => safe_exec command
  | _, _, _ =>
      log module_logger INFO "No suitable notification command configured." []
  end.

Definition notify_and_suspend (suspend_cmd : string)
    (notify_cmd_wakeup_template : option string)
    (notify_cmd_no_wakeup : option string) (wakeup_at : option Z)
    : M Env unit :=
  notify_suspend notify_cmd_wakeup_template notify_cmd_no_wakeup wakeup_at ;;
  execute_suspend suspend_cmd wakeup_at.

Definition schedule_wakeup (command_template : string) (wakeup_at : Z)
    : M Env unit :=
  let command := format_command command_template wakeup_at in
  log module_logger INFO "Scheduling wakeup using command: %s"
    [AStr command] ;;
  try_except
    (check_call command)
    is_CalledProcessError
    (log module_logger WARNING
       "Unable to execute wakeup scheduling command: %s" [AStr command]).

(** ** The aggregators *)

(** How one turn of a [for] loop ends. *)
Inductive Flow := Next | Break.

(** The loop of [execute_checks] over the checks still to run, [matched]
    being the local variable of that name. *)
Fixpoint execute_checks_loop (checks : list Activity) (all_checks : bool)
    (logger : Logger) (matched : bool) : M Env bool :=
  match checks with
  | [] => ret matched
  | check :: rest =>
      log logger DEBUG "Executing check %s" [AStr (activity_name check)] ;;
      ' (matched', flow) <-
        try_except
          (result <- call_check check ;;
           match result with
           | Some reason =>
               log logger INFO "Check %s matched. Reason: %s"
                 [AStr (activity_name check); AStr reason] ;;
               if negb all_checks
               then log logger DEBUG "Skipping further checks" [] ;;
                    ret (true, Break)
               else ret (true, Next)
           | None => ret (matched, Next)
           end)
          is_TemporaryCheckError
          (log logger WARNING "Check %s failed. Ignoring..."
             [AObj (activity_name check)] ;;
           ret (matched, Next)) ;;
      match flow with
      | Break => ret matched'
      | Next => execute_checks_loop rest all_checks logger matched'
      end
  end.

Definition execute_checks (checks : list Activity) (all_checks : bool)
    (logger : Logger) : M Env bool :=
  execute_checks_loop checks all_checks logger false.

(** The loop of [execute_wakeups] over the wake probes still to run,
    [wakeup_at] being the local variable of that name. *)
Fixpoint execute_wakeups_loop (wakeups : list Wakeup) (timestamp : Z)
    (logger : Logger) (wakeup_at : option Z) : M Env (option Z) :=
  match wakeups with
  | [] => ret wakeup_at
  | wakeup :: rest =>
      wakeup_at' <-
        try_except
          (this_at <- call_wakeup wakeup timestamp ;;
           match this_at with
           | None => ret wakeup_at
           | Some this_at =>
               if this_at <=? timestamp
               then
                 log logger WARNING
                   ("Wakeup %s returned a scheduled wakeup at %s, " ++
                    "which is earlier than the current time %s. " ++
                    "Ignoring.")%string
                   [AObj (wakeup_name wakeup); ATime (Some this_at);
                    ATime (Some timestamp)] ;;
                 ret wakeup_at
               else
                 match wakeup_at with
                 | None => ret (Some this_at)
                 | Some current => ret (Some (Z.min this_at current))
                 end
           end)
          is_TemporaryCheckError
          (log logger WARNING "Wakeup %s failed. Ignoring..."
             [AObj (wakeup_name wakeup)] ;;
           ret wakeup_at) ;;
      execute_wakeups_loop rest timestamp logger wakeup_at'
  end.

Definition execute_wakeups (wakeups : list Wakeup) (timestamp : Z)
    (logger : Logger) : M Env (option Z) :=
  execute_wakeups_loop wakeups timestamp logger None.

(** ** The processor *)

(** The arguments a [Processor] is built from; they are never reassigned. *)
Record Processor := {
  _activities : list Activity;
  _wakeups : list Wakeup;
  _idle_time : Z;
  _min_sleep_time : Z;
  _wakeup_delta : Z;
  _sleep_fn : option Z -> M Env unit;
  _wakeup_fn : Z -> M Env unit;
  _all_activities : bool
}.

(** What a running processor works on: its one mutable attribute, which
    [__init__] sets to [None], and the live system. *)
Record Store := {
  _idle_since : option Z;
  system : Env
}.

(** A function of the module, called from a method of the processor: it acts
    on the system and cannot reach the attributes of the processor. *)
Definition lift {A} (m : M Env A) : M Store A :=
  fun s =>
    let '(o, env', l) := m (system s) in
    (o, {| _idle_since := _idle_since s; system := env' |}, l).

Definition get_idle_since : M Store (option Z) :=
  fun s => (Returned (_idle_since s), s, []).

(** [self._idle_since = v] *)
Definition set_idle_since (v : option Z) : M Store unit :=
  fun s =>
    (Returned tt, {| _idle_since := v; system := system s |}, [SetIdleSince v]).

Definition _reset_state (reason : string) : M Store unit :=
  log processor_logger INFO "%s. Resetting state" [AStr reason] ;;
  set_idle_since None.

(** [Processor.iteration] on a time line without ends, where taking the
    delta off always gives an instant; [Partial.iteration] below has the
    range of [datetime]. *)
Definition iteration (self : Processor) (timestamp : Z) (just_woke_up : bool)
    : M Store unit :=
  log processor_logger INFO "Starting new check iteration" [] ;;
  (* determine system activity *)
  active <- lift (execute_checks (_activities self) (_all_activities self)
                    processor_logger) ;;
  log processor_logger DEBUG
    "All activity checks have been executed. Active: %s" [ABool active] ;;
  (* determine potential wake ups *)
  wakeup_at <- lift (execute_wakeups (_wakeups self) timestamp
                       processor_logger) ;;
  log processor_logger DEBUG "Checks report, system should wake up at %s"
    [ATime wakeup_at] ;;
  let wakeup_at :=
    match wakeup_at with
    | Some at_ => Some (at_ - _wakeup_delta self)
    | None => None
    end in
  log processor_logger DEBUG "With delta, system should wake up at %s"
    [ATime wakeup_at] ;;
  (* exit in case something prevents suspension *)
  if just_woke_up then _reset_state "Just woke up from suspension"
  else if active then _reset_state "System is active"
  else
    (* set idle timestamp if required *)
    idle_since <-
      (current <- get_idle_since ;;
       match current with
       | None => set_idle_since (Some timestamp) ;; ret timestamp
       | Some since => ret since
       end) ;;
    log processor_logger INFO "System is idle since %s"
      [ATime (Some idle_since)] ;;
    (* determine if systems is idle long enough *)
    log processor_logger DEBUG "Idle seconds: %s"
      [ANum (timestamp - idle_since)] ;;
    if timestamp - idle_since >? _idle_time self
    then
      log processor_logger INFO "System is idle long enough." [] ;;
      let suspend :=
        _reset_state "Going to suspend" ;;
        emit (CallSleepFn wakeup_at) ;;
        lift (_sleep_fn self wakeup_at) in
      (* idle time would be reached, handle wake up *)
      match wakeup_at with
      | Some at_ =>
          let wakeup_in := at_ - timestamp in
          if wakeup_in <? _min_sleep_time self
          then
            log processor_logger INFO
              ("Would wake up in %s seconds, which is " ++
               "below the minimum amount of %s s. " ++
               "Not suspending.")%string
              [ANum wakeup_in; ANum (_min_sleep_time self)]
          else
            (* schedule wakeup *)
            log processor_logger INFO "Scheduling wakeup at %s"
              [ATime (Some at_)] ;;
            emit (CallWakeupFn at_) ;;
            lift (_wakeup_fn self at_) ;;
            suspend
      | None => suspend
      end
    else
      log processor_logger INFO "Desired idle time of %s s not reached yet."
        [ANum (_idle_time self)].

(** The processor [main] builds from the configuration. *)
Record Config := {
  idle_time : Z;
  min_sleep_time : Z;
  wakeup_delta : Z;
  suspend_cmd : string;
  notify_cmd_wakeup : option string;
  notify_cmd_no_wakeup : option string;
  wakeup_cmd : string
}.

Definition main_processor (config : Config) (checks : list Activity)
    (wakeups : list Wakeup) (all_checks : bool) : Processor :=
  {| _activities := checks;
     _wakeups := wakeups;
     _idle_time := idle_time config;
     _min_sleep_time := min_sleep_time config;
     _wakeup_delta := wakeup_delta config;
     _sleep_fn := notify_and_suspend (suspend_cmd config)
                    (notify_cmd_wakeup config) (notify_cmd_no_wakeup config);
     _wakeup_fn := schedule_wakeup (wakeup_cmd config);
     _all_activities := all_checks |}.

End Autosuspend.

Arguments get_idle_since {Env}.
Arguments set_idle_since {Env} v.
Arguments _reset_state {Env} reason.

(** ** Reading a trace *)

Definition is_match (r : ProbeResult (option string)) : bool :=
  match r with Answer (Some _) => true | _ => false end.

(** The activity probes a trace invoked, with what each produced. *)
Fixpoint checks_called (evs : list Event)
    : list (string * ProbeResult (option string)) :=
  match evs with
  | [] => []
  | CheckCalled name r :: rest => (name, r) :: checks_called rest
  | _ :: rest => checks_called rest
  end.

(** The wake probes a trace invoked, with the instant each was given and what
    it produced. *)
Fixpoint wakeups_called (evs : list Event)
    : list (string * Z * ProbeResult (option Z)) :=
  match evs with
  | [] => []
  | WakeupCalled name t r :: rest => (name, t, r) :: wakeups_called rest
  | _ :: rest => wakeups_called rest
  end.

(** The instants the wake probes of a trace returned that lie strictly after
    [timestamp]. *)
Fixpoint candidates (timestamp : Z)
    (called : list (string * Z * ProbeResult (option Z))) : list Z :=
  match called with
  | [] => []
  | (_, _, Answer (Some at_)) :: rest =>
      if timestamp <? at_ then at_ :: candidates timestamp rest
      else candidates timestamp rest
  | _ :: rest => candidates timestamp rest
  end.

(** An action handed to the outside: a callback of the processor or a shell
    command. *)
Definition is_action (e : Event) : bool :=
  match e with
  | CallWakeupFn _ | CallSleepFn _ | CheckCall _ _ => true
  | _ => false
  end.

Definition is_probe_call (e : Event) : bool :=
  match e with
  | CheckCalled _ _ | WakeupCalled _ _ _ => true
  | _ => false
  end.

Definition is_assignment (e : Event) : bool :=
  match e with SetIdleSince _ => true | _ => false end.

Definition is_sleep_call (e : Event) : bool :=
  match e with CallSleepFn _ => true | _ => false end.

Definition actions (evs : list Event) : list Event := filter is_action evs.
Definition probe_calls (evs : list Event) : list Event :=
  filter is_probe_call evs.
Definition assignments (evs : list Event) : list Event :=
  filter is_assignment evs.

(** Some probe of [called] answered with a reason. *)
Definition matched_in (called : list (string * ProbeResult (option string)))
    : bool :=
  existsb (fun c => is_match (snd c)) called.

(** What one wake probe's result makes of the local [wakeup_at]. *)
Definition wakeup_step (timestamp : Z) (wakeup_at : option Z)
    (r : ProbeResult (option Z)) : option Z :=
  match r with
  | Answer (Some this_at) =>
      if this_at <=? timestamp then wakeup_at
      else match wakeup_at with
           | None => Some this_at
           | Some current => Some (Z.min this_at current)
           end
  | _ => wakeup_at
  end.

(** The records [execute_wakeups] logs for one wake probe's result. *)
Definition wakeup_logs (logger : Logger) (name : string) (timestamp : Z)
    (r : ProbeResult (option Z)) : list Event :=
  match r with
  | Answer (Some this_at) =>
      if this_at <=? timestamp
      then [Log logger WARNING
              ("Wakeup %s returned a scheduled wakeup at %s, " ++
               "which is earlier than the current time %s. " ++
               "Ignoring.")%string
              [AObj name; ATime (Some this_at); ATime (Some timestamp)]]
      else []
  | Answer None => []
  | Transient =>
      [Log logger WARNING "Wakeup %s failed. Ignoring..." [AObj name]]
  end.

(** The earlier of two optional instants. *)
Definition earlier (a b : option Z) : option Z :=
  match a, b with
  | Some x, Some y => Some (Z.min x y)
  | Some x, None => Some x
  | None, _ => b
  end.

(** [o] is the least element of [l], or nothing when [l] is empty. *)
Definition is_earliest (l : list Z) (o : option Z) : Prop :=
  match o with
  | None => l = []
  | Some m => In m l /\ forall c, In c l -> m <= c
  end.

Definition is_reset (e : Event) : bool :=
  match e with SetIdleSince None => true | _ => false end.

Definition is_log (e : Event) : bool :=
  match e with Log _ _ _ _ => true | _ => false end.

Definition is_log_or_probe_call (e : Event) : bool :=
  is_log e || is_probe_call e.




(** The actions and the assignments of a trace, in order. *)
Definition milestones (evs : list Event) : list Event :=
  filter (fun e => is_action e || is_assignment e) evs.

(** The trace of one guarded command: the record announcing it, the call, and
    the warning when its exit status is not zero. *)
Definition command_trace (announce failure command : string) (code : Z)
    : list Event :=
  [Log module_logger INFO announce [AStr command]; CheckCall command code]
  ++ (if code =? 0 then []
      else [Log module_logger WARNING failure [AStr command]]).

(** The commands a trace ran, each with its exit status, in order. *)
Fixpoint check_calls (evs : list Event) : list (string * Z) :=
  match evs with
  | [] => []
  | CheckCall command code :: rest => (command, code) :: check_calls rest
  | _ :: rest => check_calls rest
  end.

(** ** The probes on their own *)

Section Probes.

Variable Env : Type.

(** What the activity probes of [checks] give when each is invoked once, in
    order, from [env], each on the system its predecessor left. *)
Fixpoint activity_results (checks : list (Activity Env)) (env : Env)
    : list (string * ProbeResult (option string)) :=
  match checks with
  | [] => []
  | check :: rest =>
      (activity_name check, fst (activity_check check env))
      :: activity_results rest (snd (activity_check check env))
  end.

(** The system those invocations leave. *)
Fixpoint after_activities (checks : list (Activity Env)) (env : Env) : Env :=
  match checks with
  | [] => env
  | check :: rest => after_activities rest (snd (activity_check check env))
  end.

(** What the wake probes of [wakeups] give when each is invoked once with
    [timestamp], in order, from [env], each on the system its predecessor
    left. *)
Fixpoint wakeup_results (wakeups : list (Wakeup Env)) (timestamp : Z)
    (env : Env) : list (string * Z * ProbeResult (option Z)) :=
  match wakeups with
  | [] => []
  | wakeup :: rest =>
      (wakeup_name wakeup, timestamp, fst (wakeup_check wakeup timestamp env))
      :: wakeup_results rest timestamp
           (snd (wakeup_check wakeup timestamp env))
  end.

(** The system those invocations leave. *)
Fixpoint after_wakeups (wakeups : list (Wakeup Env)) (timestamp : Z)
    (env : Env) : Env :=
  match wakeups with
  | [] => env
  | wakeup :: rest =>
      after_wakeups rest timestamp (snd (wakeup_check wakeup timestamp env))
  end.

(** Running command lines through the shell one after the other: each with
    its exit status, and the system the last one leaves. *)
Fixpoint run_commands (run_shell : string -> Env -> Z * Env)
    (commands : list string) (env : Env) : list (string * Z) * Env :=
  match commands with
  | [] => ([], env)
  | command :: rest =>
      let '(code, env') := run_shell command env in
      let '(ran, env'') := run_commands run_shell rest env' in
      ((command, code) :: ran, env'')
  end.

End Probes.

(** The results up to the first that signals activity, that one included. *)
Fixpoint upto_match (results : list (string * ProbeResult (option string)))
    : list (string * ProbeResult (option string)) :=
  match results with
  | [] => []
  | c :: rest => if is_match (snd c) then [c] else c :: upto_match rest
  end.

Section Dispatch.

Variable format_command : string -> Z -> string.
Variable config : Config.

(** The notification command [notify_suspend] runs for [wakeup_at], if it
    runs one. *)
Definition notification (wakeup_at : option Z) : option string :=
  match wakeup_at, truthy (notify_cmd_wakeup config),
        truthy (notify_cmd_no_wakeup config) with
  | Some at_, Some template, _ => Some (format_command template at_)
  | None, _, Some command => Some command
  | _, _, _ => None
  end.


(** Whether the state machine, as the specification words it, suspends: no
    resume, no activity, idle for strictly more than [idle_time], and no
    wake-up closer than [min_sleep_time] once the delta is taken off. *)
Definition suspends (idle_since : option Z) (timestamp : Z)
    (just_woke_up active : bool) (wakeup_at : option Z) : bool :=
  negb just_woke_up && negb active &&
  (let since := match idle_since with Some i => i | None => timestamp end in
   idle_time config <? timestamp - since) &&
  match wakeup_at with
  | Some at_ =>
      negb (at_ - wakeup_delta config - timestamp <? min_sleep_time config)
  | None => true
  end.

End Dispatch.

(** ** The phases of one iteration *)

Section Phases.

Variable Env : Type.
Variable self : Processor Env.

(** The call of [execute_checks] that opens [iteration]. *)
Definition activity_phase (s : Store Env) :=
  execute_checks (_activities self) (_all_activities self) processor_logger
    (system s).

(** The call of [execute_wakeups] that follows it, on the system the activity
    probes left. *)
Definition wakeup_phase (timestamp : Z) (s : Store Env) :=
  execute_wakeups (_wakeups self) timestamp processor_logger
    (store (activity_phase s)).

(** [wakeup_at -= datetime.timedelta(seconds=self._wakeup_delta)], on a time
    line without ends. *)
Definition adjusted (wakeup_at : option Z) : option Z :=
  match wakeup_at with
  | Some at_ => Some (at_ - _wakeup_delta self)
  | None => None
  end.

(** The instant idleness is counted from in an iteration at [timestamp]. *)
Definition anchor (timestamp : Z) (s : Store Env) : Z :=
  match _idle_since s with
  | Some since => since
  | None => timestamp
  end.

(** What [iteration] does once the probes are aggregated and the delta is
    taken off, from "exit in case something prevents suspension" on. *)
Definition decide (timestamp : Z) (just_woke_up active : bool)
    (wakeup_at : option Z) : M (Store Env) unit :=
  if just_woke_up then _reset_state "Just woke up from suspension"
  else if active then _reset_state "System is active"
  else
    idle_since <-
      (current <- get_idle_since ;;
       match current with
       | None => set_idle_since (Some timestamp) ;; ret timestamp
       | Some since => ret since
       end) ;;
    log processor_logger INFO "System is idle since %s"
      [ATime (Some idle_since)] ;;
    log processor_logger DEBUG "Idle seconds: %s"
      [ANum (timestamp - idle_since)] ;;
    if timestamp - idle_since >? _idle_time self
    then
      log processor_logger INFO "System is idle long enough." [] ;;
      let suspend :=
        _reset_state "Going to suspend" ;;
        emit (CallSleepFn wakeup_at) ;;
        lift (_sleep_fn self wakeup_at) in
      match wakeup_at with
      | Some at_ =>
          let wakeup_in := at_ - timestamp in
          if wakeup_in <? _min_sleep_time self
          then
            log processor_logger INFO
              ("Would wake up in %s seconds, which is " ++
               "below the minimum amount of %s s. " ++
               "Not suspending.")%string
              [ANum wakeup_in; ANum (_min_sleep_time self)]
          else
            log processor_logger INFO "Scheduling wakeup at %s"
              [ATime (Some at_)] ;;
            emit (CallWakeupFn at_) ;;
            lift (_wakeup_fn self at_) ;;
            suspend
      | None => suspend
      end
    else
      log processor_logger INFO "Desired idle time of %s s not reached yet."
        [ANum (_idle_time self)].

(** The events with which an iteration at [timestamp] anchors idleness. *)
Definition anchoring (timestamp : Z) (s : Store Env) : list Event :=
  match _idle_since s with
  | Some _ => []
  | None => [SetIdleSince (Some timestamp)]
  end.

(** The store the decision is taken on: the processor as the iteration found
    it, the system as the probes left it. *)
Definition probed (timestamp : Z) (s : Store Env)
    : Store Env :=
  {| _idle_since := _idle_since s;
     system := store (wakeup_phase timestamp s) |}.

(** The two records [iteration] logs once idleness is anchored. *)
Definition idle_logs (timestamp since : Z)
    : list Event :=
  [Log processor_logger INFO "System is idle since %s" [ATime (Some since)];
   Log processor_logger DEBUG "Idle seconds: %s" [ANum (timestamp - since)]].

(** [self._reset_state('Going to suspend')] and [self._sleep_fn(wakeup_at)] *)
Definition suspending (wakeup_at : option Z)
    (env : Env) : Outcome unit * Store Env * list Event :=
  let rs := _sleep_fn self wakeup_at env in
  (outcome rs, {| _idle_since := None; system := store rs |},
   [Log processor_logger INFO "%s. Resetting state" [AStr "Going to suspend"];
    SetIdleSince None; CallSleepFn wakeup_at] ++ events rs).

(** The state machine as the specification words it: the [idleSince] a tick
    leaves, from the one it found, the flag, the aggregated activity and the
    aggregated (raw) wake-up instant. *)
Definition transition (idle_since : option Z) (timestamp : Z)
    (just_woke_up active : bool) (wakeup_at : option Z) : option Z :=
  if just_woke_up then None
  else if active then None
  else
    let since := match idle_since with Some i => i | None => timestamp end in
    if timestamp - since <=? _idle_time self then Some since
    else
      match wakeup_at with
      | Some at_ =>
          if at_ - _wakeup_delta self - timestamp <? _min_sleep_time self
          then Some since
          else None
      | None => None
      end.

(** One poll of [loop]: the instant, whether the marker file of a resume was
    found, and the system as it is at that moment. *)
Record Tick := {
  tick_timestamp : Z;
  tick_just_woke_up : bool;
  tick_system : Env
}.

(** [processor.iteration(timestamp, just_woke_up)] for one poll, the processor
    holding [idle_since]. *)
Definition poll (idle_since : option Z) (tk : Tick) :=
  iteration self (tick_timestamp tk) (tick_just_woke_up tk)
    {| _idle_since := idle_since; system := tick_system tk |}.

(** Successive polls, as [loop] makes them; an exception ends the run.  The
    result is the [_idle_since] left and the trace of each poll made. *)
Fixpoint polls (idle_since : option Z) (ticks : list Tick)
    : option Z * list (list Event) :=
  match ticks with
  | [] => (idle_since, [])
  | tk :: rest =>
      let r := poll idle_since tk in
      match outcome r with
      | Returned _ =>
          let '(final, traces) := polls (_idle_since (store r)) rest in
          (final, events r :: traces)
      | Raised _ => (_idle_since (store r), [events r])
      end
  end.

(** A poll that returns, having seen no resume and no activity and not having
    called [sleep_fn]. *)
Definition quiet (idle_since : option Z) (tk : Tick) : Prop :=
  outcome (poll idle_since tk) = Returned tt /\
  tick_just_woke_up tk = false /\
  outcome (activity_phase
             {| _idle_since := idle_since; system := tick_system tk |})
    = Returned false /\
  filter is_sleep_call (events (poll idle_since tk)) = [].

(** Every poll of a run is quiet. *)
Fixpoint quiet_run (idle_since : option Z) (ticks : list Tick) : Prop :=
  match ticks with
  | [] => True
  | tk :: rest =>
      quiet idle_since tk /\
      quiet_run (_idle_since (store (poll idle_since tk))) rest
  end.

End Phases.

(** ** The library calls that can fail *)

(** The functions above are the code while its library calls succeed.  Three
    of those calls can fail on values the program can be given: the
    arithmetic of [datetime] and [timedelta], which raises [OverflowError]
    outside of their range; [str.format], which raises on a template it
    rejects; and [time.sleep], which raises [ValueError] on a negative
    length.  The module [Partial] has [iteration] and the dispatchers with
    those failures, and [loop] below is built on it. *)

(** The ends of [datetime] and of [timedelta], in the unit of the model:
    [datetime.min], [datetime.max], [timedelta.min] and [timedelta.max]. *)
Record Limits := {
  datetime_min : Z;
  datetime_max : Z;
  timedelta_min : Z;
  timedelta_max : Z
}.

Module Partial.

Section Partial.

Variable Env : Type.
Variable run_shell : string -> Env -> Z * Env.

(** [template.format(timestamp=wakeup_at.timestamp(), iso=wakeup_at.isoformat())]:
    the command, or the exception [str.format] raises on a template it
    rejects (a [KeyError] for a field it has no value for, for one). *)
Variable str_format : string -> Z -> Outcome string.

Variable limits : Limits.

(** [datetime.timedelta(seconds=seconds)] *)
Definition timedelta {S} (seconds : Z) : M S Z :=
  if (timedelta_min limits <=? seconds) && (seconds <=? timedelta_max limits)
  then ret seconds
  else raise OverflowError.

(** [d - delta], for a [datetime] and a [timedelta] *)
Definition datetime_sub {S} (d delta : Z) : M S Z :=
  if (datetime_min limits <=? d - delta) && (d - delta <=? datetime_max limits)
  then ret (d - delta)
  else raise OverflowError.

(** [d + delta], for a [datetime] and a [timedelta] *)
Definition datetime_add {S} (d delta : Z) : M S Z :=
  if (datetime_min limits <=? d + delta) && (d + delta <=? datetime_max limits)
  then ret (d + delta)
  else raise OverflowError.

Definition format (template : string) (wakeup_at : Z) : M Env string :=
  fun env => (str_format template wakeup_at, env, []).

Definition notify_suspend (command_wakeup_template : option string)
    (command_no_wakeup : option string) (wakeup_at : option Z) : M Env unit :=
  match wakeup_at, truthy command_wakeup_template,
        truthy command_no_wakeup with
  | Some at_, Some template, _ =>
      command <- format template at_ ;;
      safe_exec run_shell command
  | None, _, Some command => safe_exec run_shell command
  | _, _, _ =>
      log module_logger INFO "No suitable notification command configured." []
  end.

Definition notify_and_suspend (suspend_cmd : string)
    (notify_cmd_wakeup_template : option string)
    (notify_cmd_no_wakeup : option string) (wakeup_at : option Z)
    : M Env unit :=
  notify_suspend notify_cmd_wakeup_template notify_cmd_no_wakeup wakeup_at ;;
  execute_suspend run_shell suspend_cmd wakeup_at.

Definition schedule_wakeup (command_template : string) (wakeup_at : Z)
    : M Env unit :=
  command <- format command_template wakeup_at ;;
  log module_logger INFO "Scheduling wakeup using command: %s"
    [AStr command] ;;
  try_except
    (check_call run_shell command)
    is_CalledProcessError
    (log module_logger WARNING
       "Unable to execute wakeup scheduling command: %s" [AStr command]).

(** [iteration]: the probes are aggregated, the delta is taken off, and the
    decision follows, [decide] being the code from "exit in case something
    prevents suspension" on. *)
Definition iteration (self : Processor Env) (timestamp : Z)
    (just_woke_up : bool) : M (Store Env) unit :=
  log processor_logger INFO "Starting new check iteration" [] ;;
  (* determine system activity *)
  active <- lift (execute_checks (_activities self) (_all_activities self)
                    processor_logger) ;;
  log processor_logger DEBUG
    "All activity checks have been executed. Active: %s" [ABool active] ;;
  (* determine potential wake ups *)
  wakeup_at <- lift (execute_wakeups (_wakeups self) timestamp
                       processor_logger) ;;
  log processor_logger DEBUG "Checks report, system should wake up at %s"
    [ATime wakeup_at] ;;
  wakeup_at <-
    match wakeup_at with
    | Some at_ =>
        delta <- timedelta (_wakeup_delta self) ;;
        at_ <- datetime_sub at_ delta ;;
        ret (Some at_)
    | None => ret None
    end ;;
  log processor_logger DEBUG "With delta, system should wake up at %s"
    [ATime wakeup_at] ;;
  decide self timestamp just_woke_up active wakeup_at.

(** The processor [main] builds from the configuration. *)
Definition main_processor (config : Config) (checks : list (Activity Env))
    (wakeups : list (Wakeup Env)) (all_checks : bool) : Processor Env :=
  {| _activities := checks;
     _wakeups := wakeups;
     _idle_time := idle_time config;
     _min_sleep_time := min_sleep_time config;
     _wakeup_delta := wakeup_delta config;
     _sleep_fn := notify_and_suspend (suspend_cmd config)
                    (notify_cmd_wakeup config) (notify_cmd_no_wakeup config);
     _wakeup_fn := schedule_wakeup (wakeup_cmd config);
     _all_activities := all_checks |}.

(** *** Reading a partial run *)

(** What [wakeup_at -= datetime.timedelta(seconds=self._wakeup_delta)] makes
    of the aggregated wake-up: the adjusted instant, or the [OverflowError]
    of a delta that is no [timedelta] or of a difference that is no
    [datetime]. *)
Definition adjust (self : Processor Env) (wakeup_at : option Z)
    : Outcome (option Z) :=
  match wakeup_at with
  | Some at_ =>
      if (timedelta_min limits <=? _wakeup_delta self)
         && (_wakeup_delta self <=? timedelta_max limits)
         && (datetime_min limits <=? at_ - _wakeup_delta self)
         && (at_ - _wakeup_delta self <=? datetime_max limits)
      then Returned (Some (at_ - _wakeup_delta self))
      else Raised OverflowError
  | None => Returned None
  end.

(** The notification command [notify_suspend] runs for [wakeup_at], if it
    runs one, or the exception of its template. *)
Definition notification (config : Config) (wakeup_at : option Z)
    : Outcome (option string) :=
  match wakeup_at, truthy (notify_cmd_wakeup config),
        truthy (notify_cmd_no_wakeup config) with
  | Some at_, Some template, _ =>
      match str_format template at_ with
      | Returned command => Returned (Some command)
      | Raised e => Raised e
      end
  | None, _, Some command => Returned (Some command)
  | _, _, _ => Returned None
  end.

(** The commands of a tick that suspends with [wakeup_at] scheduled, when
    every template of the tick is accepted. *)
Definition suspend_commands (config : Config) (wakeup_at : option Z)
    : option (list string) :=
  match
    match wakeup_at with
    | Some at_ =>
        match str_format (wakeup_cmd config) at_ with
        | Returned command => Some [command]
        | Raised _ => None
        end
    | None => Some []
    end,
    notification config wakeup_at
  with
  | Some scheduling, Returned (Some command) =>
      Some (scheduling ++ [command; suspend_cmd config])
  | Some scheduling, Returned None => Some (scheduling ++ [suspend_cmd config])
  | _, _ => None
  end.

End Partial.

End Partial.

(** ** The polling loop *)

Section Loop.

Variable Env : Type.

Variable limits : Limits.

(** [datetime.datetime.now(datetime.timezone.utc)]: the instant read, and the
    system once it is read. *)
Variable now : Env -> Z * Env.

(** [os.path.isfile(path)] *)
Variable isfile : string -> Env -> bool.

(** [os.remove(path)], for a file [os.path.isfile] has just found; it is taken
    to succeed. *)
Variable remove : string -> Env -> Env.

(** What [time.sleep(seconds)] makes of the system, for a length that is not
    negative. *)
Variable sleep : Z -> Env -> Env.

Definition os_now : M Env Z :=
  fun env => let '(t, env') := now env in (Returned t, env', []).

Definition os_isfile (path : string) : M Env bool :=
  fun env => (Returned (isfile path env), env, []).

Definition os_remove (path : string) : M Env unit :=
  fun env => (Returned tt, remove path env, []).

(** [time.sleep(seconds)]; a negative length is a [ValueError]. *)
Definition time_sleep (seconds : Z) : M Env unit :=
  if seconds <? 0 then raise sleep_ValueError
  else fun env => (Returned tt, sleep seconds env, []).

(** The body of the [while] of [loop]. *)
Definition loop_body (processor : Processor Env) (interval : Z)
    (woke_up_file : string) : M (Store Env) unit :=
  just_woke_up <- lift (os_isfile woke_up_file) ;;
  (if just_woke_up then lift (os_remove woke_up_file) else ret tt) ;;
  timestamp <- lift os_now ;;
  Partial.iteration limits processor timestamp just_woke_up ;;
  lift (time_sleep interval).

(** The [while] of [loop], for at most [fuel] turns: [Some tt] when the
    condition was found false and [loop] returns, [None] when the turns are
    used up and it is still running. *)
Fixpoint loop_while (fuel : nat) (processor : Processor Env) (interval : Z)
    (run_for : option Z) (woke_up_file : string) (start_time : Z)
    : M (Store Env) (option unit) :=
  match fuel with
  | O => ret None
  | S fuel' =>
      continue <-
        match run_for with
        | None => ret true
        | Some seconds =>
            t <- lift os_now ;;
            delta <- Partial.timedelta limits seconds ;;
            end_time <- Partial.datetime_add limits start_time delta ;;
            ret (t <? end_time)
        end ;;
      if continue
      then
        loop_body processor interval woke_up_file ;;
        loop_while fuel' processor interval run_for woke_up_file start_time
      else ret (Some tt)
  end.

Definition loop (fuel : nat) (processor : Processor Env) (interval : Z)
    (run_for : option Z) (woke_up_file : string)
    : M (Store Env) (option unit) :=
  start_time <- lift os_now ;;
  loop_while fuel processor interval run_for woke_up_file start_time.

End Loop.

(** ** Setting the checks up *)

(** [s.startswith(p)] *)
Fixpoint startswith (s p : string) : bool :=
  match p with
  | EmptyString => true
  | String c p' =>
      match s with
      | EmptyString => false
      | String d s' => Ascii.eqb c d && startswith s' p'
      end
  end.

(** [s[n:]] *)
Fixpoint drop (n : nat) (s : string) : string :=
  match n, s with
  | O, _ => s
  | S n', String _ s' => drop n' s'
  | S _, EmptyString => EmptyString
  end.

(** ['.' in s] *)
Fixpoint has_dot (s : string) : bool :=
  match s with
  | EmptyString => false
  | String c s' => Ascii.eqb c "."%char || has_dot s'
  end.

(** [s.rsplit('.', maxsplit=1)] for an [s] with a dot in it: what stands
    before the last dot and what stands after it; nothing for an [s] without
    dot. *)
Fixpoint rsplit_dot (s : string) : option (string * string) :=
  match s with
  | EmptyString => None
  | String c s' =>
      match rsplit_dot s' with
      | Some (before, after) => Some (String c before, after)
      | None => if Ascii.eqb c "."%char then Some (EmptyString, s') else None
      end
  end.

(** The classes [set_up_checks] is asked for: [Activity] and [Wakeup]. *)
Inductive CheckClass := ActivityClass | WakeupClass.

(** [target_class.__name__] *)
Definition class_name_of (target_class : CheckClass) : string :=
  match target_class with
  | ActivityClass => "Activity"
  | WakeupClass => "Wakeup"
  end.

Section SetUp.

Variable Env : Type.

(** Modelled from the spec: what the [create] of a check class returns.  A
    probe has one capability or the other, never both; whatever else a
    foreign class may return has neither. *)
Inductive Check :=
| ActivityCheck (a : Activity Env)
| WakeupCheck (w : Wakeup Env)
| ForeignObject (repr : string).

Definition isinstance (check : Check) (target_class : CheckClass) : bool :=
  match check, target_class with
  | ActivityCheck _, ActivityClass => true
  | WakeupCheck _, WakeupClass => true
  | _, _ => false
  end.

(** What a message of this part is formatted with. *)
Inductive SetupArg :=
| SText (s : string)
| SItems (items : list (string * string))
| SCheck (check : Check)
| SOptions (check : Check).

(** The exceptions of the start-up. *)
Inductive setup_exn :=
| ConfigurationError (fmt : string) (args : list SetupArg)
| ValueError (section key : string)
| ImportError (module : string)
| NoOptionError (section key : string).

Inductive Result (A : Type) : Type :=
| Ok (a : A)
| Fail (e : setup_exn).
Arguments Fail {A}.

(** The effects of the start-up, in order: the records logged, the classes
    looked up, the checks created. *)
Inductive SetupEvent :=
| SetupLog (level : Level) (fmt : string) (args : list SetupArg)
| Import (import_module import_class : string)
| Create (import_class name section : string).

(** A computation of the start-up: how it ends and what it emitted. *)
Definition W (A : Type) : Type := Result A * list SetupEvent.

Definition wret {A} (a : A) : W A := (Ok a, []).

Definition wbind {A B} (m : W A) (f : A -> W B) : W B :=
  match m with
  | (Ok a, l1) => let '(r, l2) := f a in (r, l1 ++ l2)
  | (Fail e, l1) => (Fail e, l1)
  end.

Definition wraise {A} (e : setup_exn) : W A := (Fail e, []).

Definition wemit (e : SetupEvent) : W unit := (Ok tt, [e]).

Definition wlog (level : Level) (fmt : string) (args : list SetupArg)
    : W unit :=
  wemit (SetupLog level fmt args).

(** The parsed configuration, a [configparser.ConfigParser]. *)
Variable Cfg : Type.

(** [config.sections()] *)
Variable sections : Cfg -> list string.

(** [option in config[section]] *)
Variable has_option : Cfg -> string -> string -> bool.

(** [config[section][option]], for an option that is there *)
Variable get : Cfg -> string -> string -> string.

(** [config.getboolean(section, option, fallback=...)]; nothing when the
    value is not a boolean and [ValueError] is raised. *)
Variable getboolean : Cfg -> string -> string -> bool -> option bool.

(** [dict(config[section].items())] *)
Variable items : Cfg -> string -> list (string * string).

(** What [getattr(__import__(module, fromlist=[name]), name)] gives: no such
    module ([ImportError]), no such attribute ([AttributeError]), or a class,
    here its [create(name, config[section])]. *)
Inductive Imported :=
| NoModule
| NoAttribute
| Class (create : string -> Cfg -> string -> Result Check).

Variable import_ : string -> string -> Imported.

(** The module and the class a class name stands for. *)
Definition resolve (class_name internal_module : string) : string * string :=
  if has_dot class_name
  then
    (* dot in class name means external class *)
    match rsplit_dot class_name with
    | Some (import_module, import_class) => (import_module, import_class)
    | None => (EmptyString, class_name)
    end
  else
    (* no dot means internal class *)
    ("autosuspend.checks." ++ internal_module, class_name)%string.

(** The [for] loop of [set_up_checks] over the sections still to handle. *)
Fixpoint set_up_checks_loop (config : Cfg) (prefix internal_module : string)
    (target_class : CheckClass) (check_section : list string)
    (configured_checks : list Check) : W (list Check) :=
  match check_section with
  | [] => wret configured_checks
  | section :: rest =>
      let name := drop (String.length (prefix ++ ".")) section in
      (* legacy method to determine the check name from the section header;
         if there is an explicit class, use that one with higher priority *)
      let class_name :=
        if has_option config section "class"
        then get config section "class"
        else name in
      wbind
        match getboolean config section "enabled" false with
        | Some b => wret b
        | None => wraise (ValueError section "enabled")
        end
        (fun enabled =>
      if negb enabled
      then
        wbind (wlog DEBUG "Skipping disabled check {}" [SText name])
          (fun _ =>
        set_up_checks_loop config prefix internal_module target_class rest
          configured_checks)
      else
        let '(import_module, import_class) :=
          resolve class_name internal_module in
        wbind
          (wlog INFO
             ("Configuring check {} with class {} from module {} " ++
              "using config section items {}")
             [SText name; SText import_class; SText import_module;
              SItems (items config section)])
          (fun _ =>
        wbind (wemit (Import import_module import_class)) (fun _ =>
        wbind
          match import_ import_module import_class with
          | Class create => wret create
          | NoModule => wraise (ImportError import_module)
          | NoAttribute =>
              wraise
                (ConfigurationError
                   ("Cannot create built-in check named {}: " ++
                    "Class does not exist")
                   [SText class_name])
          end
          (fun create =>
        wbind (wemit (Create import_class name section)) (fun _ =>
        wbind
          match create name config section with
          | Ok check => wret check
          | Fail e => wraise e
          end
          (fun check =>
        if negb (isinstance check target_class)
        then
          wraise
            (ConfigurationError "Check {} is not a correct {} instance"
               [SCheck check; SText (class_name_of target_class)])
        else
          wbind
            (wlog DEBUG "Created check instance {} with options {}"
               [SCheck check; SOptions check])
            (fun _ =>
          set_up_checks_loop config prefix internal_module target_class rest
            (configured_checks ++ [check]))))))))
  end.

Definition set_up_checks (config : Cfg) (prefix internal_module : string)
    (target_class : CheckClass) (error_none : bool) : W (list Check) :=
  let check_section :=
    filter (fun s => startswith s (prefix ++ ".")) (sections config) in
  wbind
    (set_up_checks_loop config prefix internal_module target_class
       check_section [])
    (fun configured_checks =>
  match configured_checks with
  | [] =>
      if error_none
      then wraise (ConfigurationError "No checks enabled" [])
      else wret configured_checks
  | _ :: _ => wret configured_checks
  end).

(** *** Reading a start-up *)

(** The sections [set_up_checks] handles. *)
Definition check_sections (config : Cfg) (prefix : string) : list string :=
  filter (fun s => startswith s (prefix ++ ".")) (sections config).

(** The name of the check of a section. *)
Definition section_name (prefix section : string) : string :=
  drop (String.length (prefix ++ ".")) section.

(** The class name of the check of a section. *)
Definition section_class (config : Cfg) (prefix section : string) : string :=
  if has_option config section "class"
  then get config section "class"
  else section_name prefix section.

(** The section is enabled. *)
Definition enabled (config : Cfg) (section : string) : bool :=
  match getboolean config section "enabled" false with
  | Some b => b
  | None => false
  end.

(** The check is the one the class of the section creates. *)
Definition made_from (config : Cfg) (prefix internal_module section : string)
    (check : Check) : Prop :=
  exists create,
    import_ (fst (resolve (section_class config prefix section)
                    internal_module))
      (snd (resolve (section_class config prefix section) internal_module))
    = Class create /\
    create (section_name prefix section) config section = Ok check.

(** The record logged for a disabled section. *)
Definition skipped (prefix section : string) : SetupEvent :=
  SetupLog DEBUG "Skipping disabled check {}"
    [SText (section_name prefix section)].

Definition is_setup_log (e : SetupEvent) : bool :=
  match e with SetupLog _ _ _ => true | _ => false end.

End SetUp.

Arguments Ok {Env A}.
Arguments Fail {Env A}.
Arguments ForeignObject {Env}.
Arguments NoModule {Env Cfg}.
Arguments NoAttribute {Env Cfg}.
Arguments SText {Env}.
Arguments SItems {Env}.
Arguments ConfigurationError {Env}.
Arguments ValueError {Env}.
Arguments ImportError {Env}.
Arguments NoOptionError {Env}.
Arguments SetupLog {Env}.
Arguments Import {Env}.
Arguments Create {Env}.
Arguments wret {Env A}.
Arguments wraise {Env A}.
Arguments wemit {Env}.
Arguments wlog {Env}.
Arguments skipped {Env}.

(** ** The start-up *)

Section Main.

Variable Env : Type.
Variable run_shell : string -> Env -> Z * Env.
Variable format_command : string -> Z -> string.

Variable Cfg : Type.
Variable sections : Cfg -> list string.
Variable has_option : Cfg -> string -> string -> bool.
Variable get : Cfg -> string -> string -> string.
Variable getboolean : Cfg -> string -> string -> bool -> option bool.
Variable items : Cfg -> string -> list (string * string).
Variable import_ : string -> string -> Imported Env Cfg.

(** [config.getfloat(section, option, fallback=...)]; nothing when the value
    is not a number and [ValueError] is raised. *)
Variable getfloat : Cfg -> string -> string -> Z -> option Z.

(** [config.get(section, option)]; nothing when the section or the option is
    missing and [NoSectionError] or [NoOptionError] is raised. *)
Variable get_required : Cfg -> string -> string -> option string.

(** [config.get(section, option, fallback=None)] *)
Variable get_or_none : Cfg -> string -> string -> option string.

(** [config.get(section, option, fallback=...)] with a string to fall back
    on. *)
Variable get_or : Cfg -> string -> string -> string -> string.

(** The activity probes among checks; [set_up_checks] asked for [Activity]
    returns nothing else. *)
Fixpoint activities_of (checks : list (Check Env)) : list (Activity Env) :=
  match checks with
  | [] => []
  | ActivityCheck a :: rest => a :: activities_of rest
  | _ :: rest => activities_of rest
  end.

(** The wake probes among checks. *)
Fixpoint wakeups_of (checks : list (Check Env)) : list (Wakeup Env) :=
  match checks with
  | [] => []
  | WakeupCheck w :: rest => w :: wakeups_of rest
  | _ :: rest => wakeups_of rest
  end.

(** What [main] hands to [loop]. *)
Record Daemon := {
  daemon_processor : Processor Env;
  daemon_interval : Z;
  daemon_run_for : option Z;
  daemon_woke_up_file : string
}.

Definition config_getfloat (config : Cfg) (section key : string)
    (fallback : Z) : W Env Z :=
  match getfloat config section key fallback with
  | Some v => wret v
  | None => wraise (ValueError section key)
  end.

Definition config_get (config : Cfg) (section key : string)
    : W Env string :=
  match get_required config section key with
  | Some v => wret v
  | None => wraise (NoOptionError section key)
  end.

(** [main], from the parsed arguments ([args.all_checks], [args.run_for])
    and the parsed configuration to the call of [loop]: the checks are set
    up, then the arguments of [Processor] and of [loop] are read, in the
    order Python evaluates them. *)
Definition main_setup (all_checks : bool) (run_for : option Z)
    (config : Cfg) : W Env Daemon :=
  wbind (set_up_checks sections has_option get getboolean items import_
           config "check" "activity" ActivityClass true) (fun checks =>
  wbind (set_up_checks sections has_option get getboolean items import_
           config "wakeup" "wakeup" WakeupClass false) (fun wakeups =>
  wbind (config_getfloat config "general" "idle_time" 300) (fun idle =>
  wbind (config_getfloat config "general" "min_sleep_time" 1200)
    (fun min_sleep =>
  wbind (config_getfloat config "general" "wakeup_delta" 30) (fun delta =>
  wbind (config_get config "general" "suspend_cmd") (fun suspend =>
  let notify_wakeup := get_or_none config "general" "notify_cmd_wakeup" in
  let notify_no_wakeup :=
    get_or_none config "general" "notify_cmd_no_wakeup" in
  wbind (config_get config "general" "wakeup_cmd") (fun wakeup =>
  let processor :=
    main_processor run_shell format_command
      {| idle_time := idle;
         min_sleep_time := min_sleep;
         wakeup_delta := delta;
         suspend_cmd := suspend;
         notify_cmd_wakeup := notify_wakeup;
         notify_cmd_no_wakeup := notify_no_wakeup;
         wakeup_cmd := wakeup |}
      (activities_of checks) (wakeups_of wakeups) all_checks in
  wbind (config_getfloat config "general" "interval" 60) (fun interval =>
  wret
    {| daemon_processor := processor;
       daemon_interval := interval;
       daemon_run_for := run_for;
       daemon_woke_up_file :=
         get_or config "general" "woke_up_file"
           "/var/run/autosuspend-just-woke-up" |})))))))).

End Main.

(** ** A small installation, for concrete runs *)

Module Example.

(** The system: how many users are logged in. *)
Definition System := nat.

Definition users : Activity System :=
  {| activity_name := "Users";
     activity_check := fun n =>
       (Answer (if Nat.eqb n 0 then None else Some "users logged in"), n) |}.

Definition broken : Activity System :=
  {| activity_name := "Broken";
     activity_check := fun n => (Transient, n) |}.

Definition silent : Activity System :=
  {| activity_name := "Silent";
     activity_check := fun n => (Answer None, n) |}.

(** A wake probe asking for a wake-up [after] units after the instant it is
    given. *)
Definition timer (name : string) (after : Z) : Wakeup System :=
  {| wakeup_name := name;
     wakeup_check := fun t n => (Answer (Some (t + after)), n) |}.

Definition no_timer : Wakeup System :=
  {| wakeup_name := "None";
     wakeup_check := fun _ n => (Answer None, n) |}.

Definition broken_timer : Wakeup System :=
  {| wakeup_name := "BrokenTimer";
     wakeup_check := fun _ n => (Transient, n) |}.

(** A shell in which every command fails, and one in which every command
    succeeds. *)
Definition failing_shell (command : string) (n : System) : Z * System :=
  (1, n).
Definition working_shell (command : string) (n : System) : Z * System :=
  (0, n).

(** Templates without placeholders. *)
Definition plain_format (template : string) (wakeup_at : Z) : string :=
  template.

Definition config (idle min_sleep delta : Z) : Config :=
  {| idle_time := idle;
     min_sleep_time := min_sleep;
     wakeup_delta := delta;
     suspend_cmd := "systemctl suspend";
     notify_cmd_wakeup := Some "notify wakeup";
     notify_cmd_no_wakeup := Some "notify";
     wakeup_cmd := "rtcwake" |}.

Definition processor (shell : string -> System -> Z * System)
    (idle min_sleep delta : Z) (checks : list (Activity System))
    (wakeups : list (Wakeup System)) : Processor System :=
  main_processor shell plain_format (config idle min_sleep delta)
    checks wakeups false.

(** The ends of [datetime] and of [timedelta] in seconds, the instants being
    counted from the epoch. *)
Definition limits : Limits :=
  {| datetime_min := -62135596800;
     datetime_max := 253402300799;
     timedelta_min := -86399999913600;
     timedelta_max := 86399999999999 |}.

(** [str.format] on templates without fields, which it leaves as they are;
    and on templates with a field [when], which it has no value for. *)
Definition accepting (template : string) (wakeup_at : Z) : Outcome string :=
  Returned template.
Definition rejecting (template : string) (wakeup_at : Z) : Outcome string :=
  if orb (template =? "rtcwake {when}")%string
         (template =? "notify {when}")%string
  then Raised KeyError
  else Returned template.

Definition partial_processor (shell : string -> System -> Z * System)
    (idle min_sleep delta : Z) (checks : list (Activity System))
    (wakeups : list (Wakeup System)) : Processor System :=
  Partial.main_processor shell accepting (config idle min_sleep delta)
    checks wakeups false.

(** A system nobody is logged in to, idle since [since]. *)
Definition idle_store (since : Z) : Store System :=
  {| _idle_since := Some since; system := 0%nat |}.

(** A poll at [timestamp], without resume, nobody being logged in. *)
Definition tick_at (timestamp : Z) : Tick System :=
  {| tick_timestamp := timestamp;
     tick_just_woke_up := false;
     tick_system := 0%nat |}.

End Example.

(** ** A small daemon, for concrete start-ups and polls *)

Module ExampleDaemon.

(** The machine: its clock, whether the marker file of a resume is there, and
    how many users are logged in. *)
Record Machine := {
  clock : Z;
  marker : bool;
  sessions : nat
}.

Definition marker_file : string := "/var/run/autosuspend-just-woke-up".

(** Reading the clock takes one unit of time. *)
Definition now (m : Machine) : Z * Machine :=
  (clock m,
   {| clock := clock m + 1; marker := marker m; sessions := sessions m |}).

Definition isfile (path : string) (m : Machine) : bool :=
  (path =? marker_file)%string && marker m.

Definition remove (path : string) (m : Machine) : Machine :=
  {| clock := clock m;
     marker := if (path =? marker_file)%string then false else marker m;
     sessions := sessions m |}.

Definition sleep (seconds : Z) (m : Machine) : Machine :=
  {| clock := clock m + seconds; marker := marker m;
     sessions := sessions m |}.

Definition shell (command : string) (m : Machine) : Z * Machine := (0, m).

Definition users : Activity Machine :=
  {| activity_name := "Users";
     activity_check := fun m =>
       (Answer (if Nat.eqb (sessions m) 0 then None
                else Some "users logged in"), m) |}.

(** A wake probe asking for a wake-up an hour after the instant it is
    given. *)
Definition hourly : Wakeup Machine :=
  {| wakeup_name := "Hourly";
     wakeup_check := fun t m => (Answer (Some (t + 3600)), m) |}.

(** A processor whose [wakeup_fn] raises. *)
Definition raising : Processor Machine :=
  {| _activities := [users];
     _wakeups := [hourly];
     _idle_time := 300;
     _min_sleep_time := 1200;
     _wakeup_delta := 30;
     _sleep_fn := fun _ => ret tt;
     _wakeup_fn := fun _ m =>
       (Raised (CalledProcessError "rtcwake" 1), m, []);
     _all_activities := false |}.

(** A parsed configuration: its sections in order, each with its options. *)
Definition Conf := list (string * list (string * string)).

Fixpoint lookup {A} (key : string) (l : list (string * A)) : option A :=
  match l with
  | [] => None
  | (k, v) :: rest => if (k =? key)%string then Some v else lookup key rest
  end.

Definition option_of (config : Conf) (section key : string)
    : option string :=
  match lookup section config with
  | Some options => lookup key options
  | None => None
  end.

Definition sections (config : Conf) : list string := map fst config.

Definition has_option (config : Conf) (section key : string) : bool :=
  match option_of config section key with Some _ => true | None => false end.

Definition get (config : Conf) (section key : string) : string :=
  match option_of config section key with Some v => v | None => "" end.

Definition getboolean (config : Conf) (section key : string)
    (fallback : bool) : option bool :=
  match option_of config section key with
  | None => Some fallback
  | Some v =>
      if (v =? "true")%string then Some true
      else if (v =? "false")%string then Some false
      else None
  end.

Definition items (config : Conf) (section : string)
    : list (string * string) :=
  match lookup section config with Some options => options | None => [] end.

(** The number a string of digits writes. *)
Fixpoint digits (s : string) (acc : Z) : option Z :=
  match s with
  | EmptyString => Some acc
  | String c rest =>
      let n := Z.of_nat (nat_of_ascii c) in
      if (48 <=? n) && (n <=? 57) then digits rest (10 * acc + (n - 48))
      else None
  end.

Definition getfloat (config : Conf) (section key : string) (fallback : Z)
    : option Z :=
  match option_of config section key with
  | None => Some fallback
  | Some v => digits v 0
  end.

Definition get_required (config : Conf) (section key : string)
    : option string :=
  option_of config section key.

Definition get_or_none (config : Conf) (section key : string)
    : option string :=
  option_of config section key.

Definition get_or (config : Conf) (section key fallback : string) : string :=
  match option_of config section key with Some v => v | None => fallback end.

(** The classes there are: [Users] among the activity checks, [Hourly] among
    the wake-up checks, and [Hourly] again in a module of its own. *)
Definition import_ (import_module import_class : string)
    : Imported Machine Conf :=
  if (import_module =? "autosuspend.checks.activity")%string
  then
    if (import_class =? "Users")%string
    then Class (fun _ _ _ => Ok (ActivityCheck users))
    else NoAttribute
  else if (import_module =? "autosuspend.checks.wakeup")%string
  then
    if (import_class =? "Hourly")%string
    then Class (fun _ _ _ => Ok (WakeupCheck hourly))
    else NoAttribute
  else if (import_module =? "site.timers")%string
  then
    if (import_class =? "Hourly")%string
    then Class (fun _ _ _ => Ok (WakeupCheck hourly))
    else NoAttribute
  else NoModule.

(** One enabled activity check, one disabled, one enabled wake-up check of an
    external class, and the commands. *)
Definition conf : Conf :=
  [("general",
    [("idle_time", "600"); ("suspend_cmd", "systemctl suspend");
     ("wakeup_cmd", "rtcwake")]);
   ("check.Users", [("enabled", "true")]);
   ("check.Ping", [("enabled", "false")]);
   ("wakeup.Timer", [("enabled", "true"); ("class", "site.timers.Hourly")])].

(** The same with the activity check disabled. *)
Definition conf_disabled : Conf :=
  [("general",
    [("suspend_cmd", "systemctl suspend"); ("wakeup_cmd", "rtcwake")]);
   ("check.Users", [("enabled", "false")]);
   ("wakeup.Timer", [("enabled", "true"); ("class", "site.timers.Hourly")])].

Definition set_up :=
  set_up_checks sections has_option get getboolean items import_.

Definition start_up :=
  main_setup shell Example.plain_format sections has_option get getboolean
    items import_ getfloat get_required get_or_none get_or.

(** A machine just resumed, at noon, nobody logged in. *)
Definition resumed : Machine :=
  {| clock := 43200; marker := true; sessions := 0 |}.

End ExampleDaemon.

(** * Properties *)

Unset Implicit Arguments.

Section Properties.

Variable Env : Type.
Variable run_shell : string -> Env -> Z * Env.
Variable format_command : string -> Z -> string.

Lemma checks_called_app (l1 l2 : list Event) :
  checks_called (l1 ++ l2) = checks_called l1 ++ checks_called l2.
Proof.
  induction l1 as [|e l1 IH]; simpl; [reflexivity|].
  destruct e; simpl; rewrite IH; reflexivity.
Qed.

Lemma wakeups_called_app (l1 l2 : list Event) :
  wakeups_called (l1 ++ l2) = wakeups_called l1 ++ wakeups_called l2.
Proof.
  induction l1 as [|e l1 IH]; simpl; [reflexivity|].
  destruct e; simpl; rewrite IH; reflexivity.
Qed.

(** *** One turn of the loop of [execute_checks] *)

Lemma execute_checks_loop_match (check : Activity Env) rest all_checks logger
    matched env reason env' :
  activity_check check env = (Answer (Some reason), env') ->
  execute_checks_loop (check :: rest) all_checks logger matched env =
  if all_checks
  then
    let r := execute_checks_loop rest all_checks logger true env' in
    (outcome r, store r,
     [Log logger DEBUG "Executing check %s" [AStr (activity_name check)];
      CheckCalled (activity_name check) (Answer (Some reason));
      Log logger INFO "Check %s matched. Reason: %s"
        [AStr (activity_name check); AStr reason]] ++ events r)
  else
    (Returned true, env',
     [Log logger DEBUG "Executing check %s" [AStr (activity_name check)];
      CheckCalled (activity_name check) (Answer (Some reason));
      Log logger INFO "Check %s matched. Reason: %s"
        [AStr (activity_name check); AStr reason];
      Log logger DEBUG "Skipping further checks" []]).
Proof.
  intros H.
  cbn [execute_checks_loop].
  unfold bind, try_except, call_check, log, emit, ret, outcome, store, events.
  rewrite H. destruct all_checks; cbn.
  - destruct (execute_checks_loop rest true logger true env') as [[o s] l].
    reflexivity.
  - reflexivity.
Qed.

Lemma execute_checks_loop_quiet (check : Activity Env) rest all_checks logger
    matched env env' :
  activity_check check env = (Answer None, env') ->
  execute_checks_loop (check :: rest) all_checks logger matched env =
  let r := execute_checks_loop rest all_checks logger matched env' in
  (outcome r, store r,
   [Log logger DEBUG "Executing check %s" [AStr (activity_name check)];
    CheckCalled (activity_name check) (Answer None)] ++ events r).
Proof.
  intros H.
  cbn [execute_checks_loop].
  unfold bind, try_except, call_check, log, emit, ret, outcome, store, events.
  rewrite H. cbn.
  destruct (execute_checks_loop rest all_checks logger matched env')
    as [[o s] l].
  reflexivity.
Qed.

Lemma execute_checks_loop_failed (check : Activity Env) rest all_checks logger
    matched env env' :
  activity_check check env = (Transient, env') ->
  execute_checks_loop (check :: rest) all_checks logger matched env =
  let r := execute_checks_loop rest all_checks logger matched env' in
  (outcome r, store r,
   [Log logger DEBUG "Executing check %s" [AStr (activity_name check)];
    CheckCalled (activity_name check) Transient;
    Log logger WARNING "Check %s failed. Ignoring..."
      [AObj (activity_name check)]] ++ events r).
Proof.
  intros H.
  cbn [execute_checks_loop].
  unfold bind, try_except, call_check, log, emit, ret, outcome, store, events.
  rewrite H. cbn.
  destruct (execute_checks_loop rest all_checks logger matched env')
    as [[o s] l].
  reflexivity.
Qed.

Lemma execute_checks_loop_spec (checks : list (Activity Env)) all_checks
    logger :
  forall matched env,
    let r := execute_checks_loop checks all_checks logger matched env in
    let called := checks_called (events r) in
    outcome r = Returned (matched || matched_in called) /\
    (exists k, map fst called = firstn k (map (@activity_name Env) checks)) /\
    (all_checks = true ->
     map fst called = map (@activity_name Env) checks) /\
    (all_checks = false ->
     (forall l1 c l2,
        called = l1 ++ c :: l2 -> is_match (snd c) = true -> l2 = []) /\
     (matched_in called = false ->
      map fst called = map (@activity_name Env) checks)).
Proof.
  induction checks as [|check rest IH]; intros matched env.
  - cbn. split; [|split; [|split]].
    + rewrite orb_false_r. reflexivity.
    + exists 0%nat. reflexivity.
    + reflexivity.
    + intros _. split; [|reflexivity].
      intros l1 c l2 H. destruct l1; discriminate H.
  - destruct (activity_check check env) as [[[reason|]|] env'] eqn:Hc.
    + rewrite execute_checks_loop_match with (1 := Hc).
      destruct all_checks.
      * specialize (IH true env').
        cbv zeta in IH |- *. cbn [events snd outcome fst].
        destruct IH as (Ho & [k Hk] & Hall & _).
        rewrite checks_called_app. cbn.
        split; [|split; [|split]].
        -- rewrite Ho. rewrite orb_true_r. reflexivity.
        -- exists (S k). cbn. f_equal. exact Hk.
        -- intros _. f_equal. auto.
        -- discriminate.
      * cbn. split; [|split; [|split]].
        -- rewrite orb_true_r. reflexivity.
        -- exists 1%nat. reflexivity.
        -- discriminate.
        -- intros _. split; [|discriminate].
           intros l1 c l2 H _.
           destruct l1 as [|x [|y l1]]; cbn in H; try discriminate H.
           injection H as _ H. symmetry. exact H.
    + rewrite execute_checks_loop_quiet with (1 := Hc).
      specialize (IH matched env').
      cbv zeta in IH |- *. cbn [events snd outcome fst].
      destruct IH as (Ho & [k Hk] & Hall & Hstop).
      rewrite checks_called_app. cbn.
      split; [|split; [|split]].
      * exact Ho.
      * exists (S k). cbn. f_equal. exact Hk.
      * intros H. f_equal. auto.
      * intros H. destruct (Hstop H) as [Hs Hn]. split.
        -- intros l1 c l2 E Hm.
           destruct l1 as [|x l1]; cbn in E.
           ++ injection E as <- _. discriminate Hm.
           ++ injection E as _ E. eapply Hs; eauto.
        -- intros Hq. f_equal. auto.
    + rewrite execute_checks_loop_failed with (1 := Hc).
      specialize (IH matched env').
      cbv zeta in IH |- *. cbn [events snd outcome fst].
      destruct IH as (Ho & [k Hk] & Hall & Hstop).
      rewrite checks_called_app. cbn.
      split; [|split; [|split]].
      * exact Ho.
      * exists (S k). cbn. f_equal. exact Hk.
      * intros H. f_equal. auto.
      * intros H. destruct (Hstop H) as [Hs Hn]. split.
        -- intros l1 c l2 E Hm.
           destruct l1 as [|x l1]; cbn in E.
           ++ injection E as <- _. discriminate Hm.
           ++ injection E as _ E. eapply Hs; eauto.
        -- intros Hq. f_equal. auto.
Qed.

Lemma matched_in_true called :
  matched_in called = true <->
  exists name reason, In (name, Answer (Some reason)) called.
Proof.
  unfold matched_in. rewrite existsb_exists. split.
  - intros [[name r] [Hin Hm]]. cbn in Hm.
    destruct r as [[reason|]|]; try discriminate Hm.
    exists name, reason. exact Hin.
  - intros (name & reason & Hin).
    exists (name, Answer (Some reason)). split; [exact Hin|reflexivity].
Qed.

Lemma only_logs_wakeups_called (l : list Event) :
  forallb is_log l = true -> wakeups_called l = [].
Proof.
  induction l as [|e l IH]; cbn; [reflexivity|].
  destruct e; cbn; try discriminate; exact IH.
Qed.

(** *** One turn of the loop of [execute_wakeups] *)

Lemma execute_wakeups_loop_cons (wakeup : Wakeup Env) rest timestamp logger
    wakeup_at env r env' :
  wakeup_check wakeup timestamp env = (r, env') ->
  exists logs,
    forallb is_log logs = true /\
    execute_wakeups_loop (wakeup :: rest) timestamp logger wakeup_at env =
    let r' := execute_wakeups_loop rest timestamp logger
                (wakeup_step timestamp wakeup_at r) env' in
    (outcome r', store r',
     WakeupCalled (wakeup_name wakeup) timestamp r :: logs ++ events r').
Proof.
  intros H.
  cbn [execute_wakeups_loop].
  unfold bind, try_except, call_wakeup, log, emit, ret, outcome, store, events.
  rewrite H.
  destruct r as [[this_at|]|]; cbn.
  - destruct (this_at <=? timestamp) eqn:Hle; cbn.
    + destruct (execute_wakeups_loop rest timestamp logger wakeup_at env')
        as [[o s] l].
      eexists [_]; split; [|reflexivity]; reflexivity.
    + destruct wakeup_at as [current|]; cbn;
        match goal with
        | |- context [execute_wakeups_loop rest timestamp logger ?a env'] =>
            destruct (execute_wakeups_loop rest timestamp logger a env')
              as [[o s] l]
        end; exists []; split; reflexivity.
  - destruct (execute_wakeups_loop rest timestamp logger wakeup_at env')
      as [[o s] l].
    exists []. split; reflexivity.
  - destruct (execute_wakeups_loop rest timestamp logger wakeup_at env')
      as [[o s] l].
    eexists [_]; split; [|reflexivity]; reflexivity.
Qed.

Lemma is_earliest_step timestamp pre wakeup_at name r :
  is_earliest pre wakeup_at ->
  is_earliest (pre ++ candidates timestamp [(name, timestamp, r)])
    (wakeup_step timestamp wakeup_at r).
Proof.
  intros H. destruct r as [[this_at|]|]; cbn; rewrite ?app_nil_r; auto.
  rewrite Z.leb_antisym. destruct (timestamp <? this_at); cbn;
    rewrite ?app_nil_r; auto.
  destruct wakeup_at as [current|]; cbn in *.
  - destruct H as [Hin Hle]. split.
    + apply in_or_app.
      destruct (Z.min_spec this_at current) as [[_ ->]|[_ ->]];
        [right; left; reflexivity | left; exact Hin].
    + intros c Hc. apply in_app_or in Hc. destruct Hc as [Hc|[<-|[]]].
      * specialize (Hle c Hc). lia.
      * lia.
  - subst pre. cbn. split; [left; reflexivity|].
    intros c [<-|[]]. lia.
Qed.

Lemma candidates_app timestamp l1 l2 :
  candidates timestamp (l1 ++ l2) =
  candidates timestamp l1 ++ candidates timestamp l2.
Proof.
  induction l1 as [|[[name t] r] l1 IH]; cbn; [reflexivity|].
  destruct r as [[this_at|]|]; auto.
  destruct (timestamp <? this_at); cbn; rewrite IH; reflexivity.
Qed.

Lemma execute_wakeups_loop_spec (wakeups : list (Wakeup Env)) timestamp
    logger :
  forall wakeup_at env pre,
    is_earliest pre wakeup_at ->
    let r := execute_wakeups_loop wakeups timestamp logger wakeup_at env in
    let called := wakeups_called (events r) in
    (exists result,
       outcome r = Returned result /\
       is_earliest (pre ++ candidates timestamp called) result) /\
    map fst called = map (fun w => (wakeup_name w, timestamp)) wakeups.
Proof.
  induction wakeups as [|wakeup rest IH]; intros wakeup_at env pre Hpre.
  - cbn. split; [|reflexivity].
    exists wakeup_at. rewrite app_nil_r. auto.
  - destruct (wakeup_check wakeup timestamp env) as [r env'] eqn:Hc.
    destruct (execute_wakeups_loop_cons wakeup rest timestamp logger
                wakeup_at env r env' Hc) as (logs & Hlogs & ->).
    specialize (IH (wakeup_step timestamp wakeup_at r) env' _
                  (is_earliest_step timestamp pre wakeup_at
                     (wakeup_name wakeup) r Hpre)).
    cbv zeta in IH |- *. cbn [events snd outcome fst].
    destruct IH as ((result & Ho & He) & Hnames).
    change (WakeupCalled (wakeup_name wakeup) timestamp r
              :: logs ++ events (execute_wakeups_loop rest timestamp logger
                   (wakeup_step timestamp wakeup_at r) env'))
      with ([WakeupCalled (wakeup_name wakeup) timestamp r] ++
              logs ++ events (execute_wakeups_loop rest timestamp logger
                   (wakeup_step timestamp wakeup_at r) env')).
    rewrite !wakeups_called_app, (only_logs_wakeups_called logs Hlogs).
    cbn [wakeups_called app].
    split.
    + exists result. split; [exact Ho|].
      change ((wakeup_name wakeup, timestamp, r) :: ?l)
        with ([(wakeup_name wakeup, timestamp, r)] ++ l).
      rewrite candidates_app, app_assoc. exact He.
    + cbn. f_equal. exact Hnames.
Qed.

Lemma in_candidates timestamp called x :
  In x (candidates timestamp called) <->
  timestamp < x /\ exists name t, In (name, t, Answer (Some x)) called.
Proof.
  induction called as [|[[name t] r] called IH]; cbn.
  - split; [intros []|intros [_ (? & ? & [])]].
  - assert (Hskip :
      (forall y, r <> Answer (Some y) \/ (timestamp <? y) = false) ->
      (In x (candidates timestamp called) <->
       timestamp < x /\
       exists name0 t0,
         (name, t, r) = (name0, t0, Answer (Some x)) \/
         In (name0, t0, Answer (Some x)) called)).
    { intros Hr. rewrite IH. split.
      - intros [Hlt (n & t0 & Hin)]. split; [exact Hlt|]. eauto.
      - intros [Hlt (n & t0 & [Heq|Hin])]; [|eauto].
        injection Heq as _ _ Heq.
        destruct (Hr x) as [Hne|Hf]; [congruence|].
        apply Z.ltb_ge in Hf. lia. }
    destruct r as [[this_at|]|];
      [|apply Hskip; left; discriminate|apply Hskip; left; discriminate].
    destruct (timestamp <? this_at) eqn:Hlt.
    + cbn. rewrite IH. apply Z.ltb_lt in Hlt. split.
      * intros [<-|[Hx (n & t0 & Hin)]]; split; eauto; lia.
      * intros [Hx (n & t0 & [Heq|Hin])]; [left; congruence|right; eauto].
    + apply Hskip. intros y.
      destruct (Z.eq_dec y this_at) as [->|Hne]; [right; exact Hlt|].
      left. congruence.
Qed.

(** *** What the aggregators emit *)

Lemma filter_none (p q : Event -> bool) (l : list Event) :
  (forall e, q e = true -> p e = false) ->
  forallb q l = true -> filter p l = [].
Proof.
  intros Hpq. induction l as [|e l IH]; cbn; [reflexivity|].
  intros H. apply andb_prop in H. destruct H as [He Hl].
  rewrite (Hpq e He). auto.
Qed.

Lemma execute_checks_loop_events (checks : list (Activity Env)) all_checks
    logger :
  forall matched env,
    forallb is_log_or_probe_call
      (events (execute_checks_loop checks all_checks logger matched env))
    = true.
Proof.
  induction checks as [|check rest IH]; intros matched env; [reflexivity|].
  destruct (activity_check check env) as [[[reason|]|] env'] eqn:Hc.
  - rewrite execute_checks_loop_match with (1 := Hc).
    destruct all_checks; [|reflexivity].
    cbn [events snd]. rewrite forallb_app, IH. reflexivity.
  - rewrite execute_checks_loop_quiet with (1 := Hc).
    cbn [events snd]. rewrite forallb_app, IH. reflexivity.
  - rewrite execute_checks_loop_failed with (1 := Hc).
    cbn [events snd]. rewrite forallb_app, IH. reflexivity.
Qed.

Lemma execute_wakeups_loop_events (wakeups : list (Wakeup Env)) timestamp
    logger :
  forall wakeup_at env,
    forallb is_log_or_probe_call
      (events (execute_wakeups_loop wakeups timestamp logger wakeup_at env))
    = true.
Proof.
  induction wakeups as [|wakeup rest IH]; intros wakeup_at env;
    [reflexivity|].
  destruct (wakeup_check wakeup timestamp env) as [r env'] eqn:Hc.
  destruct (execute_wakeups_loop_cons wakeup rest timestamp logger
              wakeup_at env r env' Hc) as (logs & Hlogs & ->).
  cbn [events snd forallb]. rewrite forallb_app, IH, andb_true_r.
  cbn. apply forallb_forall. intros e He.
  rewrite forallb_forall in Hlogs. unfold is_log_or_probe_call.
  rewrite (Hlogs e He). reflexivity.
Qed.

(** *** The aggregators *)

Lemma matched_in_upto_match results :
  matched_in (upto_match results) = matched_in results.
Proof.
  unfold matched_in.
  induction results as [|c rest IH]; [reflexivity|].
  cbn. destruct (is_match (snd c)) eqn:Hm; cbn; rewrite Hm; [reflexivity|].
  exact IH.
Qed.

Lemma execute_checks_loop_results (checks : list (Activity Env)) all_checks
    logger :
  forall matched env,
    let r := execute_checks_loop checks all_checks logger matched env in
    let results := activity_results checks env in
    checks_called (events r)
    = (if all_checks then results else upto_match results) /\
    store r
    = after_activities (firstn (List.length (checks_called (events r))) checks)
        env.
Proof.
  induction checks as [|check rest IH]; intros matched env.
  - cbn. destruct all_checks; split; reflexivity.
  - cbv zeta. cbn [activity_results].
    destruct (activity_check check env) as [[[reason|]|] env'] eqn:Hc;
      cbn [fst snd].
    + rewrite execute_checks_loop_match with (1 := Hc).
      destruct all_checks.
      * specialize (IH true env'). cbv zeta in IH. destruct IH as [IHc IHs].
        cbn [events store fst snd]. rewrite checks_called_app.
        cbn [checks_called app List.length firstn after_activities].
        rewrite Hc. cbn [snd]. rewrite IHc. split; [reflexivity|].
        rewrite IHs, IHc. reflexivity.
      * cbn. rewrite Hc. split; reflexivity.
    + rewrite execute_checks_loop_quiet with (1 := Hc).
      specialize (IH matched env'). cbv zeta in IH |- *.
      destruct IH as [IHc IHs].
      cbn [events store fst snd]. rewrite checks_called_app.
      cbn [checks_called app List.length firstn after_activities upto_match snd
           is_match].
      rewrite Hc. cbn [snd]. rewrite IHs, IHc.
      destruct all_checks; split; reflexivity.
    + rewrite execute_checks_loop_failed with (1 := Hc).
      specialize (IH matched env'). cbv zeta in IH |- *.
      destruct IH as [IHc IHs].
      cbn [events store fst snd]. rewrite checks_called_app.
      cbn [checks_called app List.length firstn after_activities upto_match snd
           is_match].
      rewrite Hc. cbn [snd]. rewrite IHs, IHc.
      destruct all_checks; split; reflexivity.
Qed.

(** C1. [execute_checks] is a logical OR over the probes.  It returns, and
    what it returns is whether some probe of [checks], each invoked once, in
    order, on the system its predecessor left, answers with a reason; a probe
    that answers [None] or raises [TemporaryCheckError] counts as no activity.
    The probes it has invoked are those very probes, with those very results:
    all of them with [all_checks], and without it those up to the first that
    signals activity, which is the last one invoked, so that an answer [None]
    or a [TemporaryCheckError] never ends the loop.  The system is left as
    the probes invoked leave it. *)
Theorem execute_checks_is_or (checks : list (Activity Env))
    (all_checks : bool) (logger : Logger) (env : Env) :
  let r := execute_checks checks all_checks logger env in
  let results := activity_results checks env in
  let called := checks_called (events r) in
  outcome r = Returned (matched_in results) /\
  (matched_in results = true <->
   exists name reason, In (name, Answer (Some reason)) called) /\
  called = (if all_checks then results else upto_match results) /\
  store r = after_activities (firstn (List.length called) checks) env /\
  (exists k, map fst called = firstn k (map (@activity_name Env) checks)) /\
  (all_checks = true ->
   map fst called = map (@activity_name Env) checks) /\
  (all_checks = false ->
   (forall l1 c l2,
      called = l1 ++ c :: l2 -> is_match (snd c) = true -> l2 = []) /\
   ((forall c, In c called -> is_match (snd c) = false) ->
    map fst called = map (@activity_name Env) checks)).
Proof.
  cbv zeta. unfold execute_checks.
  destruct (execute_checks_loop_spec checks all_checks logger false env)
    as (Ho & Hk & Hall & Hstop).
  destruct (execute_checks_loop_results checks all_checks logger false env)
    as (Hres & Hst).
  cbv zeta in Hres, Hst.
  set (called := checks_called _) in *.
  assert (Hm : matched_in called = matched_in (activity_results checks env)).
  { rewrite Hres. destruct all_checks; [reflexivity|].
    apply matched_in_upto_match. }
  split; [rewrite Ho, Hm; reflexivity|].
  split; [rewrite <- Hm; apply matched_in_true|].
  split; [exact Hres|]. split; [exact Hst|].
  split; [exact Hk|]. split; [exact Hall|].
  intros Hf. destruct (Hstop Hf) as [Hs Hn]. split; [exact Hs|].
  intros Hnone. apply Hn.
  destruct (matched_in called) eqn:Hmc; [|reflexivity].
  apply matched_in_true in Hmc. destruct Hmc as (name & reason & Hin).
  specialize (Hnone _ Hin). discriminate Hnone.
Qed.

Lemma execute_wakeups_loop_results (wakeups : list (Wakeup Env)) timestamp
    logger :
  forall wakeup_at env,
    let r := execute_wakeups_loop wakeups timestamp logger wakeup_at env in
    wakeups_called (events r) = wakeup_results wakeups timestamp env /\
    store r = after_wakeups wakeups timestamp env.
Proof.
  induction wakeups as [|wakeup rest IH]; intros wakeup_at env.
  - split; reflexivity.
  - cbv zeta. cbn [wakeup_results after_wakeups].
    destruct (wakeup_check wakeup timestamp env) as [r env'] eqn:Hc.
    destruct (execute_wakeups_loop_cons wakeup rest timestamp logger
                wakeup_at env r env' Hc) as (logs & Hlogs & ->).
    specialize (IH (wakeup_step timestamp wakeup_at r) env').
    cbv zeta in IH |- *. destruct IH as [IHc IHs].
    cbn [events store fst snd wakeups_called].
    rewrite wakeups_called_app, (only_logs_wakeups_called logs Hlogs).
    cbn [app]. rewrite IHc, IHs. split; reflexivity.
Qed.

(** C2. [execute_wakeups] is a minimum over the valid candidates.  It
    returns; it invokes every wake probe of [wakeups] once, in order, with
    the query instant, each on the system its predecessor left, and leaves
    the system as they leave it.  Its result is the least of the candidates,
    and [None] when there is none, the candidates being exactly the instants
    some probe answers with that lie strictly after the query instant: a
    probe that answers [None], raises [TemporaryCheckError], or answers with
    an instant at or before the query instant has no part in the result. *)
Theorem execute_wakeups_is_min (wakeups : list (Wakeup Env)) (timestamp : Z)
    (logger : Logger) (env : Env) :
  let r := execute_wakeups wakeups timestamp logger env in
  let results := wakeup_results wakeups timestamp env in
  wakeups_called (events r) = results /\
  store r = after_wakeups wakeups timestamp env /\
  map fst results = map (fun w => (wakeup_name w, timestamp)) wakeups /\
  (forall x,
     In x (candidates timestamp results) <->
     timestamp < x /\ exists name t, In (name, t, Answer (Some x)) results) /\
  exists result,
    outcome r = Returned result /\
    (result = None <-> candidates timestamp results = []) /\
    (forall m,
       result = Some m ->
       In m (candidates timestamp results) /\
       forall c, In c (candidates timestamp results) -> m <= c).
Proof.
  cbv zeta. unfold execute_wakeups.
  destruct (execute_wakeups_loop_spec wakeups timestamp logger None env []
              eq_refl) as ((result & Ho & He) & Hnames).
  destruct (execute_wakeups_loop_results wakeups timestamp logger None env)
    as (Hres & Hst).
  cbv zeta in Hres, Hst. rewrite Hres in He, Hnames. cbn [app] in He.
  split; [exact Hres|]. split; [exact Hst|]. split; [exact Hnames|].
  split; [intros x; apply in_candidates|].
  exists result. split; [exact Ho|]. split.
  - destruct result as [m|]; cbn in He.
    + split; [discriminate|]. intros E. rewrite E in He.
      destruct He as [[] _].
    + split; auto.
  - intros m ->. exact He.
Qed.

(** *** One iteration, phase by phase *)

Lemma activity_phase_returns (self : Processor Env) (s : Store Env) :
  exists active, outcome (activity_phase self s) = Returned active.
Proof.
  unfold activity_phase, execute_checks.
  destruct (execute_checks_loop_spec (_activities self)
              (_all_activities self) processor_logger false (system s))
    as [Ho _].
  eexists. exact Ho.
Qed.

Lemma wakeup_phase_returns (self : Processor Env) (timestamp : Z)
    (s : Store Env) :
  exists wakeup_at, outcome (wakeup_phase self timestamp s) = Returned wakeup_at.
Proof.
  unfold wakeup_phase, execute_wakeups.
  destruct (execute_wakeups_loop_spec (_wakeups self) timestamp
              processor_logger None (store (activity_phase self s)) []
              eq_refl) as [(result & Ho & _) _].
  eexists. exact Ho.
Qed.

Lemma iteration_decide (self : Processor Env) (timestamp : Z)
    (just_woke_up : bool) :
  iteration self timestamp just_woke_up =
  (log processor_logger INFO "Starting new check iteration" [] ;;
   active <- lift (execute_checks (_activities self) (_all_activities self)
                     processor_logger) ;;
   log processor_logger DEBUG
     "All activity checks have been executed. Active: %s" [ABool active] ;;
   wakeup_at <- lift (execute_wakeups (_wakeups self) timestamp
                        processor_logger) ;;
   log processor_logger DEBUG "Checks report, system should wake up at %s"
     [ATime wakeup_at] ;;
   log processor_logger DEBUG "With delta, system should wake up at %s"
     [ATime (adjusted self wakeup_at)] ;;
   decide self timestamp just_woke_up active (adjusted self wakeup_at)).
Proof. reflexivity. Qed.

Lemma iteration_phases (self : Processor Env) (timestamp : Z)
    (just_woke_up : bool) (s : Store Env) (active : bool)
    (wakeup_at : option Z) :
  outcome (activity_phase self s) = Returned active ->
  outcome (wakeup_phase self timestamp s) = Returned wakeup_at ->
  iteration self timestamp just_woke_up s =
  let d := decide self timestamp just_woke_up active
             (adjusted self wakeup_at) (probed self timestamp s) in
  (outcome d, store d,
   Log processor_logger INFO "Starting new check iteration" []
   :: events (activity_phase self s)
   ++ Log processor_logger DEBUG
        "All activity checks have been executed. Active: %s" [ABool active]
   :: events (wakeup_phase self timestamp s)
   ++ Log processor_logger DEBUG
        "Checks report, system should wake up at %s" [ATime wakeup_at]
   :: Log processor_logger DEBUG
        "With delta, system should wake up at %s"
        [ATime (adjusted self wakeup_at)]
   :: events d).
Proof.
  unfold probed, wakeup_phase, activity_phase, outcome, store, events.
  intros Ha Hw.
  rewrite iteration_decide.
  unfold bind, lift, log, emit.
  destruct (execute_checks (_activities self) (_all_activities self)
              processor_logger (system s)) as [[oa ea] la].
  cbn in Ha, Hw |- *. subst oa. cbn.
  destruct (execute_wakeups (_wakeups self) timestamp processor_logger ea)
    as [[ow ew] lw].
  cbn in Hw |- *. subst ow. cbn.
  destruct (decide self timestamp just_woke_up active
              (adjusted self wakeup_at)
              {| _idle_since := _idle_since s; system := ew |})
    as [[od sd] ld].
  reflexivity.
Qed.

(** *** The decision, case by case *)

Lemma decide_woke (self : Processor Env) timestamp active wakeup_at s :
  decide self timestamp true active wakeup_at s =
  (Returned tt, {| _idle_since := None; system := system s |},
   [Log processor_logger INFO "%s. Resetting state"
      [AStr "Just woke up from suspension"];
    SetIdleSince None]).
Proof. reflexivity. Qed.

Lemma decide_active (self : Processor Env) timestamp wakeup_at s :
  decide self timestamp false true wakeup_at s =
  (Returned tt, {| _idle_since := None; system := system s |},
   [Log processor_logger INFO "%s. Resetting state"
      [AStr "System is active"];
    SetIdleSince None]).
Proof. reflexivity. Qed.

Lemma decide_wait (self : Processor Env) timestamp wakeup_at s :
  timestamp - anchor timestamp s <= _idle_time self ->
  decide self timestamp false false wakeup_at s =
  (Returned tt,
   {| _idle_since := Some (anchor timestamp s); system := system s |},
   anchoring timestamp s
   ++ idle_logs timestamp (anchor timestamp s)
   ++ [Log processor_logger INFO
         "Desired idle time of %s s not reached yet."
         [ANum (_idle_time self)]]).
Proof.
  intros H. unfold decide, anchor, anchoring, idle_logs in *.
  destruct s as [[since|] env]; cbn in *;
    unfold bind, get_idle_since, set_idle_since, ret, log, emit; cbn;
    match goal with
    | |- context [?a >? ?b] =>
        replace (a >? b) with false
          by (symmetry; rewrite Z.gtb_ltb; apply Z.ltb_ge; lia)
    end; reflexivity.
Qed.

Lemma decide_too_close (self : Processor Env) timestamp at_ s :
  _idle_time self < timestamp - anchor timestamp s ->
  at_ - timestamp < _min_sleep_time self ->
  decide self timestamp false false (Some at_) s =
  (Returned tt,
   {| _idle_since := Some (anchor timestamp s); system := system s |},
   anchoring timestamp s
   ++ idle_logs timestamp (anchor timestamp s)
   ++ [Log processor_logger INFO "System is idle long enough." [];
       Log processor_logger INFO
         ("Would wake up in %s seconds, which is " ++
          "below the minimum amount of %s s. " ++
          "Not suspending.")%string
         [ANum (at_ - timestamp); ANum (_min_sleep_time self)]]).
Proof.
  intros H Hmin. unfold decide, anchor, anchoring, idle_logs in *.
  apply Z.ltb_lt in Hmin.
  destruct s as [[since|] env]; cbn in *;
    unfold bind, get_idle_since, set_idle_since, ret, log, emit; cbn;
    match goal with
    | |- context [?a >? ?b] =>
        replace (a >? b) with true
          by (symmetry; rewrite Z.gtb_ltb; apply Z.ltb_lt; lia)
    end; rewrite Hmin; reflexivity.
Qed.

Lemma decide_suspend_plain (self : Processor Env) timestamp s :
  _idle_time self < timestamp - anchor timestamp s ->
  decide self timestamp false false None s =
  let r := suspending self None (system s) in
  (outcome r, store r,
   anchoring timestamp s
   ++ idle_logs timestamp (anchor timestamp s)
   ++ Log processor_logger INFO "System is idle long enough." []
   :: events r).
Proof.
  intros H. unfold decide, anchor, anchoring, idle_logs, suspending in *.
  destruct s as [[since|] env]; cbn in *;
    unfold bind, get_idle_since, set_idle_since, _reset_state, bind, lift,
      ret, log, emit, outcome, store, events; cbn;
    match goal with
    | |- context [?a >? ?b] =>
        replace (a >? b) with true
          by (symmetry; rewrite Z.gtb_ltb; apply Z.ltb_lt; lia)
    end; cbn; destruct (_sleep_fn self None env) as [[o e] l]; reflexivity.
Qed.

Lemma decide_suspend_wakeup (self : Processor Env) timestamp at_ s :
  _idle_time self < timestamp - anchor timestamp s ->
  _min_sleep_time self <= at_ - timestamp ->
  decide self timestamp false false (Some at_) s =
  let rw := _wakeup_fn self at_ (system s) in
  let scheduling :=
    anchoring timestamp s
    ++ idle_logs timestamp (anchor timestamp s)
    ++ Log processor_logger INFO "System is idle long enough." []
    :: Log processor_logger INFO "Scheduling wakeup at %s" [ATime (Some at_)]
    :: CallWakeupFn at_
    :: events rw in
  match outcome rw with
  | Returned _ =>
      let r := suspending self (Some at_) (store rw) in
      (outcome r, store r, scheduling ++ events r)
  | Raised e =>
      (Raised e,
       {| _idle_since := Some (anchor timestamp s); system := store rw |},
       scheduling)
  end.
Proof.
  intros H Hmin. unfold decide, anchor, anchoring, idle_logs, suspending in *.
  apply Z.ltb_ge in Hmin.
  destruct s as [[since|] env]; cbn in *;
    unfold bind, get_idle_since, set_idle_since, _reset_state, bind, lift,
      ret, log, emit, outcome, store, events; cbn;
    match goal with
    | |- context [?a >? ?b] =>
        replace (a >? b) with true
          by (symmetry; rewrite Z.gtb_ltb; apply Z.ltb_lt; lia)
    end; rewrite Hmin; cbn;
    destruct (_wakeup_fn self at_ env) as [[[[]|e] e1] l1]; cbn;
    try reflexivity;
    destruct (_sleep_fn self (Some at_) e1) as [[o2 e2] l2]; cbn;
    rewrite <- ?app_assoc; reflexivity.
Qed.

(** *** One iteration: what is left of its trace under a filter *)

Lemma activity_phase_events (self : Processor Env) (s : Store Env) :
  forallb is_log_or_probe_call (events (activity_phase self s)) = true.
Proof. apply execute_checks_loop_events. Qed.

Lemma wakeup_phase_events (self : Processor Env) timestamp (s : Store Env) :
  forallb is_log_or_probe_call (events (wakeup_phase self timestamp s))
  = true.
Proof. apply execute_wakeups_loop_events. Qed.

Lemma iteration_filter (self : Processor Env) (timestamp : Z)
    (just_woke_up : bool) (s : Store Env) (active : bool)
    (wakeup_at : option Z) (p : Event -> bool) :
  outcome (activity_phase self s) = Returned active ->
  outcome (wakeup_phase self timestamp s) = Returned wakeup_at ->
  (forall e, is_log_or_probe_call e = true -> p e = false) ->
  let r := iteration self timestamp just_woke_up s in
  let d := decide self timestamp just_woke_up active
             (adjusted self wakeup_at) (probed self timestamp s) in
  outcome r = outcome d /\ store r = store d /\
  filter p (events r) = filter p (events d).
Proof.
  intros Ha Hw Hp.
  rewrite (iteration_phases self timestamp just_woke_up s active wakeup_at
             Ha Hw).
  cbv zeta. split; [reflexivity|]. split; [reflexivity|].
  cbn [events snd filter].
  rewrite Hp by reflexivity.
  rewrite filter_app.
  rewrite (filter_none p is_log_or_probe_call _ Hp
             (activity_phase_events self s)).
  cbn [app filter].
  rewrite Hp by reflexivity.
  rewrite filter_app.
  rewrite (filter_none p is_log_or_probe_call _ Hp
             (wakeup_phase_events self timestamp s)).
  cbn [app filter].
  rewrite !Hp by reflexivity.
  reflexivity.
Qed.

Lemma no_action_in_probes e : is_log_or_probe_call e = true -> is_action e = false.
Proof. destruct e; cbn; congruence. Qed.

Lemma no_assignment_in_probes e :
  is_log_or_probe_call e = true -> is_assignment e = false.
Proof. destruct e; cbn; congruence. Qed.

Lemma no_reset_in_probes e :
  is_log_or_probe_call e = true -> is_reset e = false.
Proof. destruct e as [| | |[]| | |]; cbn; congruence. Qed.

Lemma no_sleep_call_in_probes e :
  is_log_or_probe_call e = true -> is_sleep_call e = false.
Proof. destruct e; cbn; congruence. Qed.

Lemma anchoring_quiet timestamp (s : Store Env) :
  actions (anchoring timestamp s) = [] /\
  filter is_reset (anchoring timestamp s) = [] /\
  filter is_sleep_call (anchoring timestamp s) = [].
Proof. unfold anchoring. destruct (_idle_since s); auto. Qed.

Lemma anchor_probed (self : Processor Env) timestamp s :
  anchor timestamp (probed self timestamp s) = anchor timestamp s.
Proof. reflexivity. Qed.

(** Once the threshold is passed, idleness was anchored before the tick:
    always when [idle_time] is not negative. *)
Lemma anchored_when_reached timestamp (s : Store Env) (idle : Z) :
  idle < timestamp - anchor timestamp s ->
  _idle_since s <> None \/ 0 <= idle ->
  exists since, _idle_since s = Some since.
Proof.
  unfold anchor. destruct (_idle_since s) as [since|]; [eauto|].
  intros H [Hset|Hsane]; [congruence|lia].
Qed.

(** *** The state machine *)

Lemma reset_on_wake_state (self : Processor Env) (timestamp : Z)
    (s : Store Env) :
  outcome (iteration self timestamp true s) = Returned tt /\
  _idle_since (store (iteration self timestamp true s)) = None /\
  actions (events (iteration self timestamp true s)) = [].
Proof.
  destruct (activity_phase_returns self s) as [active Ha].
  destruct (wakeup_phase_returns self timestamp s) as [wakeup_at Hw].
  destruct (iteration_filter self timestamp true s active wakeup_at is_action
              Ha Hw no_action_in_probes) as (Ho & Hs & He).
  unfold actions. rewrite Ho, Hs, He, decide_woke. auto.
Qed.


(** *** The probes of one iteration *)

Lemma execute_checks_loop_no_wakeups (checks : list (Activity Env))
    all_checks logger :
  forall matched env,
    wakeups_called
      (events (execute_checks_loop checks all_checks logger matched env))
    = [].
Proof.
  induction checks as [|check rest IH]; intros matched env; [reflexivity|].
  destruct (activity_check check env) as [[[reason|]|] env'] eqn:Hc.
  - rewrite execute_checks_loop_match with (1 := Hc).
    destruct all_checks; [|reflexivity].
    cbn [events snd]. rewrite wakeups_called_app, IH. reflexivity.
  - rewrite execute_checks_loop_quiet with (1 := Hc).
    cbn [events snd]. rewrite wakeups_called_app, IH. reflexivity.
  - rewrite execute_checks_loop_failed with (1 := Hc).
    cbn [events snd]. rewrite wakeups_called_app, IH. reflexivity.
Qed.

Lemma execute_checks_loop_first (check : Activity Env) rest all_checks logger
    matched env :
  exists result others,
    checks_called
      (events (execute_checks_loop (check :: rest) all_checks logger matched
                 env))
    = (activity_name check, result) :: others.
Proof.
  destruct (activity_check check env) as [[[reason|]|] env'] eqn:Hc.
  - rewrite execute_checks_loop_match with (1 := Hc).
    destruct all_checks; cbn; eauto.
  - rewrite execute_checks_loop_quiet with (1 := Hc). cbn. eauto.
  - rewrite execute_checks_loop_failed with (1 := Hc). cbn. eauto.
Qed.

Lemma only_logs_checks_called (l : list Event) :
  forallb is_log l = true -> checks_called l = [].
Proof.
  induction l as [|e l IH]; cbn; [reflexivity|].
  destruct e; cbn; try discriminate; exact IH.
Qed.

Lemma execute_wakeups_loop_no_checks (wakeups : list (Wakeup Env)) timestamp
    logger :
  forall wakeup_at env,
    checks_called
      (events (execute_wakeups_loop wakeups timestamp logger wakeup_at env))
    = [].
Proof.
  induction wakeups as [|wakeup rest IH]; intros wakeup_at env;
    [reflexivity|].
  destruct (wakeup_check wakeup timestamp env) as [r env'] eqn:Hc.
  destruct (execute_wakeups_loop_cons wakeup rest timestamp logger
              wakeup_at env r env' Hc) as (logs & Hlogs & ->).
  cbv zeta. cbn [events snd checks_called].
  rewrite checks_called_app, (only_logs_checks_called logs Hlogs), IH.
  reflexivity.
Qed.

Lemma wakeup_phase_future (self : Processor Env) (timestamp : Z)
    (s : Store Env) (raw : Z) :
  outcome (wakeup_phase self timestamp s) = Returned (Some raw) ->
  timestamp < raw.
Proof.
  unfold wakeup_phase, execute_wakeups. intros Hw.
  destruct (execute_wakeups_loop_spec (_wakeups self) timestamp
              processor_logger None (store (activity_phase self s)) []
              eq_refl) as [(result & Ho & He) _].
  rewrite Hw in Ho. injection Ho as <-. cbn in He.
  destruct He as [Hin _]. apply in_candidates in Hin. tauto.
Qed.

(** *** Runs of polls *)

(** How a tick without resume and activity can end: idleness kept at the
    anchor with [sleep_fn] not called, or [sleep_fn] called and the state
    reset, or an exception of [wakeup_fn]. *)
Lemma decide_cases (self : Processor Env) timestamp wakeup_at s :
  let d := decide self timestamp false false wakeup_at s in
  (outcome d = Returned tt /\
   _idle_since (store d) = Some (anchor timestamp s) /\
   filter is_sleep_call (events d) = [] /\
   assignments (events d) = anchoring timestamp s) \/
  (_idle_since (store d) = None /\ filter is_sleep_call (events d) <> []) \/
  (exists e, outcome d = Raised e).
Proof.
  cbv zeta.
  assert (Hanch : forall l,
            (forall e, In e l -> is_log e = true) ->
            filter is_sleep_call (anchoring timestamp s ++ l) = [] /\
            assignments (anchoring timestamp s ++ l) = anchoring timestamp s).
  { intros l Hl. unfold assignments. rewrite !filter_app.
    rewrite (filter_none is_sleep_call is_log l),
            (filter_none is_assignment is_log l).
    - unfold anchoring. destruct (_idle_since s); auto.
    - intros e; destruct e; cbn; congruence.
    - apply forallb_forall. exact Hl.
    - intros e; destruct e; cbn; congruence.
    - apply forallb_forall. exact Hl. }
  assert (Hcall : forall l1 w l2,
            filter is_sleep_call (l1 ++ CallSleepFn w :: l2) <> []).
  { intros l1 w l2. rewrite filter_app. cbn.
    destruct (filter is_sleep_call l1); discriminate. }
  destruct (Z_lt_le_dec (_idle_time self) (timestamp - anchor timestamp s))
    as [Hlt|Hle].
  - destruct wakeup_at as [at_|].
    + destruct (Z_lt_le_dec (at_ - timestamp) (_min_sleep_time self))
        as [Hmin|Hmin].
      * left. rewrite (decide_too_close self timestamp at_ s Hlt Hmin).
        cbn [outcome store events fst snd _idle_since].
        split; [reflexivity|]. split; [reflexivity|]. apply Hanch.
        intros e He. cbn in He. intuition (subst; reflexivity).
      * rewrite (decide_suspend_wakeup self timestamp at_ s Hlt Hmin).
        cbv zeta.
        destruct (outcome (_wakeup_fn self at_ (system s))) as [[]|e].
        -- right; left. unfold suspending.
           cbn [outcome store events fst snd _idle_since].
           split; [reflexivity|]. cbn [app].
           rewrite !app_assoc.
           match goal with
           | |- filter _ (?l1 ++ _ :: _ :: CallSleepFn ?w :: ?l2) <> [] =>
               change (filter is_sleep_call
                         (l1 ++ [Log processor_logger INFO
                                   "%s. Resetting state"
                                   [AStr "Going to suspend"];
                                 SetIdleSince None] ++ CallSleepFn w :: l2)
                       <> [])
           end.
           rewrite app_assoc. apply Hcall.
        -- right; right. exists e. reflexivity.
    + right; left. rewrite (decide_suspend_plain self timestamp s Hlt).
      cbv zeta. unfold suspending.
      cbn [outcome store events fst snd _idle_since].
      split; [reflexivity|]. cbn [app].
      rewrite app_assoc.
      match goal with
      | |- filter _ (?l1 ++ ?a :: ?b :: ?c :: CallSleepFn ?w :: ?l2) <> [] =>
          change (filter is_sleep_call
                    (l1 ++ [a; b; c] ++ CallSleepFn w :: l2) <> [])
      end.
      rewrite app_assoc. apply Hcall.
  - left. rewrite (decide_wait self timestamp wakeup_at s Hle).
    cbn [outcome store events fst snd _idle_since].
    split; [reflexivity|]. split; [reflexivity|]. apply Hanch.
    intros e He. cbn in He. intuition (subst; reflexivity).
Qed.

Lemma poll_quiet_iff (self : Processor Env) (idle_since : option Z)
    (tk : Tick Env) :
  outcome (poll self idle_since tk) = Returned tt ->
  (_idle_since (store (poll self idle_since tk)) <> None <->
   quiet self idle_since tk).
Proof.
  unfold quiet, poll.
  set (s := {| _idle_since := idle_since; system := tick_system tk |}).
  set (t := tick_timestamp tk). intros Hret.
  destruct (activity_phase_returns self s) as [active Ha].
  destruct (wakeup_phase_returns self t s) as [wakeup_at Hw].
  destruct (iteration_filter self t (tick_just_woke_up tk) s active
              wakeup_at is_sleep_call Ha Hw no_sleep_call_in_probes)
    as (Ho & Hs & He).
  cbv zeta in Ho, Hs, He. rewrite Hs, He, Ha, Ho.
  destruct (tick_just_woke_up tk).
  { rewrite decide_woke. cbn. split; [congruence|]. intros (_ & H & _).
    discriminate H. }
  destruct active.
  { rewrite decide_active. cbn. split; [congruence|]. intros (_ & _ & H & _).
    discriminate H. }
  destruct (decide_cases self t (adjusted self wakeup_at) (probed self t s))
    as [(H1 & H2 & H3 & _)|[(H1 & H2)|[e H1]]].
  - rewrite H2, H3. split; [auto|]. intros _. discriminate.
  - rewrite H1. split; [congruence|]. intros (_ & _ & _ & H). contradiction.
  - rewrite Ho, H1 in Hret. discriminate Hret.
Qed.

Lemma quiet_poll (self : Processor Env) (idle_since : option Z)
    (tk : Tick Env) :
  quiet self idle_since tk ->
  let r := poll self idle_since tk in
  outcome r = Returned tt /\
  _idle_since (store r) =
    Some (match idle_since with
          | Some since => since
          | None => tick_timestamp tk
          end) /\
  assignments (events r) =
    match idle_since with
    | Some _ => []
    | None => [SetIdleSince (Some (tick_timestamp tk))]
    end.
Proof.
  unfold quiet, poll.
  set (s := {| _idle_since := idle_since; system := tick_system tk |}).
  set (t := tick_timestamp tk). intros (Hret & Hj & Ha & Hq). cbv zeta.
  split; [exact Hret|]. rewrite Hj in *.
  destruct (wakeup_phase_returns self t s) as [wakeup_at Hw].
  pose proof (fun p Hp => iteration_filter self t false s false wakeup_at p
                Ha Hw Hp) as Hf. cbv zeta in Hf.
  destruct (Hf is_sleep_call no_sleep_call_in_probes) as (Ho & Hs & He).
  destruct (Hf is_assignment no_assignment_in_probes) as (_ & _ & Hasg).
  unfold assignments at 1. rewrite Hs, Hasg. rewrite He in Hq.
  rewrite Ho in Hret.
  destruct (decide_cases self t (adjusted self wakeup_at) (probed self t s))
    as [(H1 & H2 & H3 & H4)|[(H1 & H2)|[e H1]]].
  - unfold assignments in H4. rewrite H2, H4.
    unfold anchor, anchoring, probed, s. cbn.
    destruct idle_since; split; reflexivity.
  - contradiction.
  - rewrite H1 in Hret. discriminate Hret.
Qed.

Lemma quiet_run_anchored (self : Processor Env) (since : Z) :
  forall ticks,
    quiet_run self (Some since) ticks ->
    fst (polls self (Some since) ticks) = Some since /\
    map assignments (snd (polls self (Some since) ticks))
    = map (fun _ => []) ticks.
Proof.
  induction ticks as [|tk rest IH]; intros Hrun; [split; reflexivity|].
  destruct Hrun as [Hq Hrest].
  destruct (quiet_poll self (Some since) tk Hq) as (Ho & Hi & Hasg).
  rewrite Hi in Hrest. specialize (IH Hrest).
  cbn [polls]. rewrite Ho, Hi.
  destruct (polls self (Some since) rest) as [final traces].
  cbn [fst snd map] in *. rewrite Hasg. destruct IH as [-> ->].
  split; reflexivity.
Qed.

(** C5. Idleness is anchored at the first quiet tick.  A run of polls that
    starts with [_idle_since] at [None] and whose polls all return without
    resume, activity or call of [sleep_fn] makes every poll, ends with
    [_idle_since] at the instant of the first, and assigns [_idle_since] once,
    at that first poll: no later poll of the run assigns it.  And after any
    poll that returns, [_idle_since] is set exactly when that poll saw no
    resume and no activity and did not call [sleep_fn]. *)
Theorem idle_anchoring (self : Processor Env) :
  (forall first later,
     quiet_run self None (first :: later) ->
     fst (polls self None (first :: later)) = Some (tick_timestamp first) /\
     map assignments (snd (polls self None (first :: later)))
     = [SetIdleSince (Some (tick_timestamp first))]
       :: map (fun _ => []) later) /\
  (forall idle_since tk,
     outcome (poll self idle_since tk) = Returned tt ->
     (_idle_since (store (poll self idle_since tk)) <> None <->
      quiet self idle_since tk)).
Proof.
  split; [|exact (poll_quiet_iff self)].
  intros first later [Hq Hrest].
  destruct (quiet_poll self None first Hq) as (Ho & Hi & Hasg).
  rewrite Hi in Hrest.
  destruct (quiet_run_anchored self (tick_timestamp first) later Hrest)
    as [Hfinal Htraces].
  cbn [polls]. rewrite Ho, Hi.
  destruct (polls self (Some (tick_timestamp first)) later)
    as [final traces].
  cbn [fst snd map] in *. rewrite Hasg, Hfinal, Htraces.
  split; reflexivity.
Qed.

(** *** The dispatchers *)

Lemma guarded_call (announce failure command : string) (env : Env) :
  (log module_logger INFO announce [AStr command] ;;
   try_except (check_call run_shell command) is_CalledProcessError
     (log module_logger WARNING failure [AStr command])) env =
  (Returned tt, snd (run_shell command env),
   command_trace announce failure command (fst (run_shell command env))).
Proof.
  unfold bind, try_except, check_call, log, emit, command_trace.
  destruct (run_shell command env) as [code env']. cbn.
  destruct (code =? 0); reflexivity.
Qed.

Lemma execute_suspend_eq command wakeup_at env :
  execute_suspend run_shell command wakeup_at env =
  (Returned tt, snd (run_shell command env),
   command_trace "Suspending using command: %s"
     "Unable to execute suspend command: %s" command
     (fst (run_shell command env))).
Proof. apply guarded_call. Qed.

Lemma safe_exec_eq command env :
  safe_exec run_shell command env =
  (Returned tt, snd (run_shell command env),
   command_trace "Notifying using command: %s"
     "Unable to execute notification command: %s" command
     (fst (run_shell command env))).
Proof. apply guarded_call. Qed.

Lemma schedule_wakeup_eq template at_ env :
  schedule_wakeup run_shell format_command template at_ env =
  (Returned tt, snd (run_shell (format_command template at_) env),
   command_trace "Scheduling wakeup using command: %s"
     "Unable to execute wakeup scheduling command: %s"
     (format_command template at_)
     (fst (run_shell (format_command template at_) env))).
Proof. apply guarded_call. Qed.

Lemma notify_suspend_eq (config : Config) wakeup_at env :
  notify_suspend run_shell format_command (notify_cmd_wakeup config)
    (notify_cmd_no_wakeup config) wakeup_at env =
  match notification format_command config wakeup_at with
  | Some command => safe_exec run_shell command env
  | None =>
      (Returned tt, env,
       [Log module_logger INFO
          "No suitable notification command configured." []])
  end.
Proof.
  unfold notify_suspend, notification.
  destruct wakeup_at, (truthy (notify_cmd_wakeup config)),
    (truthy (notify_cmd_no_wakeup config)); reflexivity.
Qed.


Lemma milestones_command_trace announce failure command code :
  milestones (command_trace announce failure command code)
  = [CheckCall command code].
Proof. unfold command_trace. destruct (code =? 0); reflexivity. Qed.



(** The part of a trace the suspend command's call ends. *)
Lemma notify_and_suspend_eq (config : Config) wakeup_at env :
  let ns :=
    notify_suspend run_shell format_command (notify_cmd_wakeup config)
      (notify_cmd_no_wakeup config) wakeup_at env in
  notify_and_suspend run_shell format_command (suspend_cmd config)
    (notify_cmd_wakeup config) (notify_cmd_no_wakeup config) wakeup_at env =
  (Returned tt, snd (run_shell (suspend_cmd config) (store ns)),
   events ns
   ++ command_trace "Suspending using command: %s"
        "Unable to execute suspend command: %s" (suspend_cmd config)
        (fst (run_shell (suspend_cmd config) (store ns)))) /\
  outcome ns = Returned tt /\
  exists c2,
    milestones (events ns) =
    match notification format_command config wakeup_at with
    | Some command => [CheckCall command c2]
    | None => []
    end.
Proof.
  cbv zeta. unfold notify_and_suspend, bind.
  rewrite notify_suspend_eq.
  destruct (notification format_command config wakeup_at) as [command|].
  - rewrite safe_exec_eq, execute_suspend_eq. cbn [outcome store events fst snd].
    split; [reflexivity|]. split; [reflexivity|].
    eexists. apply milestones_command_trace.
  - rewrite execute_suspend_eq. cbn [outcome store events fst snd].
    split; [reflexivity|]. split; [reflexivity|]. exists 0. reflexivity.
Qed.

(** *** One iteration of the processor [main] builds *)





(** * The iteration with the range of [datetime] *)

Section PartialIteration.

Variable limits : Limits.

Lemma partial_adjust_computed (self : Processor Env) (raw w : option Z) :
  Partial.adjust limits self raw = Returned w -> w = adjusted self raw.
Proof.
  unfold Partial.adjust, adjusted. destruct raw as [at_|].
  - destruct (_ && _); [|discriminate]. congruence.
  - congruence.
Qed.

Lemma partial_adjust_raised (self : Processor Env) (raw : option Z) (e : exn) :
  Partial.adjust limits self raw = Raised e -> e = OverflowError.
Proof.
  unfold Partial.adjust. destruct raw as [at_|]; [|discriminate].
  destruct (_ && _); [discriminate|]. congruence.
Qed.

Lemma partial_iteration_phases (self : Processor Env) (timestamp : Z)
    (just_woke_up : bool) (s : Store Env) (active : bool) (raw : option Z) :
  outcome (activity_phase self s) = Returned active ->
  outcome (wakeup_phase self timestamp s) = Returned raw ->
  Partial.iteration limits self timestamp just_woke_up s =
  match Partial.adjust limits self raw with
  | Returned _ => iteration self timestamp just_woke_up s
  | Raised e =>
      (Raised e, probed self timestamp s,
       Log processor_logger INFO "Starting new check iteration" []
       :: events (activity_phase self s)
       ++ Log processor_logger DEBUG
            "All activity checks have been executed. Active: %s"
            [ABool active]
       :: events (wakeup_phase self timestamp s)
       ++ [Log processor_logger DEBUG
             "Checks report, system should wake up at %s" [ATime raw]])
  end.
Proof.
  unfold probed, wakeup_phase, activity_phase, outcome, store, events.
  intros Ha Hw.
  rewrite iteration_decide.
  unfold Partial.iteration, Partial.adjust, Partial.timedelta,
    Partial.datetime_sub, adjusted.
  unfold bind, lift, log, emit, ret, raise.
  destruct (execute_checks (_activities self) (_all_activities self)
              processor_logger (system s)) as [[oa ea] la].
  cbn in Ha, Hw |- *. subst oa. cbn.
  destruct (execute_wakeups (_wakeups self) timestamp processor_logger ea)
    as [[ow ew] lw].
  cbn in Hw |- *. subst ow. cbn.
  destruct raw as [at_|]; cbn.
  - destruct (timedelta_min limits <=? _wakeup_delta self);
      destruct (_wakeup_delta self <=? timedelta_max limits);
      cbn; try reflexivity.
    destruct (datetime_min limits <=? at_ - _wakeup_delta self);
      destruct (at_ - _wakeup_delta self <=? datetime_max limits);
      cbn; try reflexivity.
    destruct (decide self timestamp just_woke_up active
                (Some (at_ - _wakeup_delta self))
                {| _idle_since := _idle_since s; system := ew |})
      as [[od sd] ld].
    reflexivity.
  - destruct (decide self timestamp just_woke_up active None
                {| _idle_since := _idle_since s; system := ew |})
      as [[od sd] ld].
    reflexivity.
Qed.

(** While the delta can be taken off, the iteration is the one on a time
    line without ends. *)
Lemma partial_iteration_computed (self : Processor Env) (timestamp : Z)
    (just_woke_up : bool) (s : Store Env) (raw w : option Z) :
  outcome (wakeup_phase self timestamp s) = Returned raw ->
  Partial.adjust limits self raw = Returned w ->
  Partial.iteration limits self timestamp just_woke_up s
  = iteration self timestamp just_woke_up s.
Proof.
  intros Hw Hadj.
  destruct (activity_phase_returns self s) as [active Ha].
  rewrite (partial_iteration_phases self timestamp just_woke_up s active raw
             Ha Hw), Hadj.
  reflexivity.
Qed.

(** When it cannot, the iteration ends there: the probes have been polled,
    nothing else has happened. *)
Lemma partial_iteration_overflow (self : Processor Env) (timestamp : Z)
    (just_woke_up : bool) (s : Store Env) (raw : option Z) (e : exn) :
  outcome (wakeup_phase self timestamp s) = Returned raw ->
  Partial.adjust limits self raw = Raised e ->
  let r := Partial.iteration limits self timestamp just_woke_up s in
  outcome r = Raised OverflowError /\
  store r = probed self timestamp s /\
  forall p,
    (forall e, is_log_or_probe_call e = true -> p e = false) ->
    filter p (events r) = [].
Proof.
  intros Hw Hadj. cbv zeta.
  destruct (activity_phase_returns self s) as [active Ha].
  rewrite (partial_iteration_phases self timestamp just_woke_up s active raw
             Ha Hw), Hadj.
  rewrite (partial_adjust_raised self raw e Hadj).
  cbn [outcome store events fst snd].
  split; [reflexivity|]. split; [reflexivity|].
  intros p Hp. cbn [filter]. rewrite Hp by reflexivity.
  rewrite filter_app.
  rewrite (filter_none p is_log_or_probe_call _ Hp
             (activity_phase_events self s)).
  cbn [app filter]. rewrite Hp by reflexivity.
  rewrite filter_app.
  rewrite (filter_none p is_log_or_probe_call _ Hp
             (wakeup_phase_events self timestamp s)).
  cbn [app filter]. rewrite Hp by reflexivity. reflexivity.
Qed.

Lemma partial_adjust_cases (self : Processor Env) (raw : option Z) :
  Partial.adjust limits self raw = Returned (adjusted self raw) \/
  Partial.adjust limits self raw = Raised OverflowError.
Proof.
  unfold Partial.adjust, adjusted. destruct raw as [at_|]; [|auto].
  destruct (_ && _); auto.
Qed.

(** C6, as the code has it.  A tick with [just_woke_up] hands no action out,
    whatever the state, the instant and the probes: no callback is called and
    no command is run.  The delta is taken off the aggregated wake-up before
    the flag is looked at.  Whenever that can be done (always when the probes
    report no wake-up), the tick returns and leaves [_idle_since] at [None]
    whatever it was, and a second such tick leaves the same state.  When it
    cannot, the [OverflowError] ends the tick before the reset:
    [_idle_since] is not assigned and stays as it was. *)
Theorem reset_on_wake (self : Processor Env) (timestamp : Z) (s : Store Env) :
  let r := Partial.iteration limits self timestamp true s in
  actions (events r) = [] /\
  (forall raw w,
     outcome (wakeup_phase self timestamp s) = Returned raw ->
     Partial.adjust limits self raw = Returned w ->
     outcome r = Returned tt /\
     _idle_since (store r) = None /\
     forall timestamp' env' raw' w',
       let s' := {| _idle_since := _idle_since (store r); system := env' |} in
       outcome (wakeup_phase self timestamp' s') = Returned raw' ->
       Partial.adjust limits self raw' = Returned w' ->
       _idle_since (store (Partial.iteration limits self timestamp' true s'))
       = _idle_since (store r)) /\
  (forall raw e,
     outcome (wakeup_phase self timestamp s) = Returned raw ->
     Partial.adjust limits self raw = Raised e ->
     outcome r = Raised OverflowError /\
     assignments (events r) = [] /\
     _idle_since (store r) = _idle_since s).
Proof.
  cbv zeta. split; [|split].
  - destruct (wakeup_phase_returns self timestamp s) as [raw Hw].
    destruct (partial_adjust_cases self raw) as [Hadj|Hadj].
    + rewrite (partial_iteration_computed self timestamp true s raw _ Hw Hadj).
      apply reset_on_wake_state.
    + destruct (partial_iteration_overflow self timestamp true s raw _ Hw
                  Hadj) as (_ & _ & Hf).
      apply Hf. exact no_action_in_probes.
  - intros raw w Hw Hadj.
    rewrite (partial_iteration_computed self timestamp true s raw w Hw Hadj).
    destruct (reset_on_wake_state self timestamp s) as (Ho & Hi & _).
    split; [exact Ho|]. split; [exact Hi|].
    intros t' env' raw' w' Hw' Hadj'. rewrite Hi in Hw' |- *.
    rewrite (partial_iteration_computed self t' true _ raw' w' Hw' Hadj').
    apply reset_on_wake_state.
  - intros raw e Hw Hadj.
    destruct (partial_iteration_overflow self timestamp true s raw e Hw Hadj)
      as (Ho & Hs & Hf).
    split; [exact Ho|]. split.
    + apply Hf. exact no_assignment_in_probes.
    + rewrite Hs. reflexivity.
Qed.

(** C4, as the code has it.  The minimum-sleep guard.  On a tick without
    resume and activity, with idleness anchored for strictly more than
    [_idle_time], whose wake probes give [raw] and for which the delta-adjusted
    instant [w] was computed and is less than [_min_sleep_time] away: the
    iteration returns, hands no action out (no wake-up is scheduled, nothing
    is notified or suspended) and does not reset; [_idle_since] is left at the
    anchor the tick counted from, so that later ticks keep counting from it.
    An [_idle_since] that was set is not assigned and is left as it was, and
    it was set whenever [_idle_time] is not negative; one that was [None],
    which takes a negative [_idle_time], is assigned the instant of the
    tick. *)
Theorem minimum_sleep_guard (self : Processor Env) (timestamp : Z)
    (s : Store Env) (raw w : Z) :
  outcome (activity_phase self s) = Returned false ->
  outcome (wakeup_phase self timestamp s) = Returned (Some raw) ->
  Partial.adjust limits self (Some raw) = Returned (Some w) ->
  _idle_time self < timestamp - anchor timestamp s ->
  w - timestamp < _min_sleep_time self ->
  let r := Partial.iteration limits self timestamp false s in
  w = raw - _wakeup_delta self /\
  outcome r = Returned tt /\
  actions (events r) = [] /\
  filter is_reset (events r) = [] /\
  assignments (events r) = anchoring timestamp s /\
  _idle_since (store r) = Some (anchor timestamp s) /\
  (_idle_since s <> None \/ 0 <= _idle_time self ->
   assignments (events r) = [] /\ _idle_since (store r) = _idle_since s) /\
  (_idle_since s = None ->
   assignments (events r) = [SetIdleSince (Some timestamp)] /\
   _idle_since (store r) = Some timestamp) /\
  forall later, anchor later (store r) = anchor timestamp s.
Proof.
  intros Ha Hw Hadj Hidle Hmin. cbv zeta.
  rewrite (partial_iteration_computed self timestamp false s _ _ Hw Hadj).
  apply partial_adjust_computed in Hadj. cbn [adjusted] in Hadj.
  injection Hadj as ->. split; [reflexivity|].
  pose proof (fun p Hp => iteration_filter self timestamp false s false
                (Some raw) p Ha Hw Hp) as Hf.
  cbv zeta in Hf.
  destruct (Hf is_action no_action_in_probes) as (Ho & Hst & He).
  destruct (Hf is_assignment no_assignment_in_probes) as (_ & _ & Hasg).
  destruct (Hf is_reset no_reset_in_probes) as (_ & _ & Hr).
  unfold actions, assignments.
  rewrite Ho, Hst, He, Hasg, Hr. cbn [adjusted].
  rewrite decide_too_close by (rewrite ?anchor_probed; assumption).
  cbn [outcome store events fst snd _idle_since].
  rewrite !filter_app, anchor_probed.
  assert (Hanch : anchoring timestamp (probed self timestamp s)
                  = anchoring timestamp s) by reflexivity.
  rewrite Hanch.
  destruct (anchoring_quiet timestamp s) as (Hq1 & Hq2 & _).
  unfold actions in Hq1. rewrite Hq1, Hq2.
  assert (Hq3 : filter is_assignment (anchoring timestamp s)
                = anchoring timestamp s)
    by (unfold anchoring; destruct (_idle_since s); reflexivity).
  rewrite Hq3. cbn [filter app idle_logs is_action is_reset is_assignment].
  rewrite app_nil_r.
  do 5 (split; [reflexivity|]).
  split; [|split].
  - intros Hsane.
    destruct (anchored_when_reached timestamp s (_idle_time self) Hidle Hsane)
      as [since Hs].
    unfold anchoring, anchor. rewrite Hs. split; reflexivity.
  - intros Hnone. unfold anchoring, anchor. rewrite Hnone.
    split; reflexivity.
  - intros later. reflexivity.
Qed.

(** C8, as the code has it.  A tick with [just_woke_up] first runs both
    aggregations, as any other tick does: the activity probes are invoked,
    all of them with [all_checks] and up to the first that signals activity
    without it, and then every wake probe is invoked with the instant of the
    tick.  Then the delta is taken off, and only then, when that could be
    done, comes the reset, which ends the tick with [_idle_since] at [None].
    No action is handed out. *)
Theorem probes_run_before_reset (self : Processor Env) (timestamp : Z)
    (s : Store Env) :
  let r := Partial.iteration limits self timestamp true s in
  let results := activity_results (_activities self) (system s) in
  (exists active wakeup_at,
     outcome (activity_phase self s) = Returned active /\
     outcome (wakeup_phase self timestamp s) = Returned wakeup_at /\
     events r =
     Log processor_logger INFO "Starting new check iteration" []
     :: events (activity_phase self s)
     ++ Log processor_logger DEBUG
          "All activity checks have been executed. Active: %s" [ABool active]
     :: events (wakeup_phase self timestamp s)
     ++ Log processor_logger DEBUG
          "Checks report, system should wake up at %s" [ATime wakeup_at]
     :: match Partial.adjust limits self wakeup_at with
        | Returned w =>
            [Log processor_logger DEBUG
               "With delta, system should wake up at %s" [ATime w];
             Log processor_logger INFO "%s. Resetting state"
               [AStr "Just woke up from suspension"];
             SetIdleSince None]
        | Raised _ => []
        end) /\
  checks_called (events r)
  = (if _all_activities self then results else upto_match results) /\
  wakeups_called (events r)
  = wakeup_results (_wakeups self) timestamp (store (activity_phase self s)) /\
  (forall check rest,
     _activities self = check :: rest ->
     exists result others,
       checks_called (events r) = (activity_name check, result) :: others) /\
  map fst (wakeups_called (events r)) =
    map (fun w => (wakeup_name w, timestamp)) (_wakeups self) /\
  actions (events r) = [] /\
  (forall raw w,
     outcome (wakeup_phase self timestamp s) = Returned raw ->
     Partial.adjust limits self raw = Returned w ->
     outcome r = Returned tt /\ _idle_since (store r) = None).
Proof.
  cbv zeta.
  destruct (activity_phase_returns self s) as [active Ha].
  destruct (wakeup_phase_returns self timestamp s) as [wakeup_at Hw].
  pose proof (partial_iteration_phases self timestamp true s active wakeup_at
                Ha Hw) as Hit.
  rewrite (iteration_phases self timestamp true s active wakeup_at Ha Hw)
    in Hit.
  rewrite decide_woke in Hit. cbv zeta in Hit.
  cbn [outcome store events fst snd] in Hit.
  assert (Hev :
    events (Partial.iteration limits self timestamp true s) =
    Log processor_logger INFO "Starting new check iteration" []
    :: events (activity_phase self s)
    ++ Log processor_logger DEBUG
         "All activity checks have been executed. Active: %s" [ABool active]
    :: events (wakeup_phase self timestamp s)
    ++ Log processor_logger DEBUG
         "Checks report, system should wake up at %s" [ATime wakeup_at]
    :: match Partial.adjust limits self wakeup_at with
       | Returned w =>
           [Log processor_logger DEBUG
              "With delta, system should wake up at %s" [ATime w];
            Log processor_logger INFO "%s. Resetting state"
              [AStr "Just woke up from suspension"];
            SetIdleSince None]
       | Raised _ => []
       end).
  { rewrite Hit.
    destruct (Partial.adjust limits self wakeup_at) as [w|e] eqn:Hadj;
      [|reflexivity].
    rewrite (partial_adjust_computed self wakeup_at w Hadj). reflexivity. }
  assert (Hcalled :
    checks_called (events (Partial.iteration limits self timestamp true s))
    = checks_called (events (activity_phase self s)) /\
    wakeups_called (events (Partial.iteration limits self timestamp true s))
    = wakeups_called (events (wakeup_phase self timestamp s))).
  { rewrite Hev. cbn [checks_called wakeups_called].
    rewrite checks_called_app, wakeups_called_app.
    cbn [checks_called wakeups_called].
    rewrite checks_called_app, wakeups_called_app.
    cbn [checks_called wakeups_called].
    unfold activity_phase at 3, execute_checks.
    rewrite execute_checks_loop_no_wakeups.
    unfold wakeup_phase at 1, execute_wakeups.
    rewrite execute_wakeups_loop_no_checks.
    destruct (Partial.adjust limits self wakeup_at);
      cbn [checks_called wakeups_called app]; rewrite !app_nil_r;
      split; reflexivity. }
  destruct Hcalled as [Hcc Hwc].
  destruct (execute_checks_loop_results (_activities self)
              (_all_activities self) processor_logger false (system s))
    as [Hres _].
  destruct (execute_wakeups_loop_results (_wakeups self) timestamp
              processor_logger None (store (activity_phase self s)))
    as [Hwres _].
  cbv zeta in Hres, Hwres.
  split; [|split; [|split; [|split; [|split; [|split]]]]].
  - exists active, wakeup_at. auto.
  - rewrite Hcc. exact Hres.
  - rewrite Hwc. exact Hwres.
  - intros check rest Hc. rewrite Hcc.
    unfold activity_phase, execute_checks. rewrite Hc.
    apply execute_checks_loop_first.
  - rewrite Hwc. unfold wakeup_phase, execute_wakeups.
    apply (execute_wakeups_loop_spec (_wakeups self) timestamp
             processor_logger None _ [] eq_refl).
  - destruct (partial_adjust_cases self wakeup_at) as [Hadj|Hadj].
    + rewrite (partial_iteration_computed self timestamp true s wakeup_at _
                 Hw Hadj).
      apply reset_on_wake_state.
    + destruct (partial_iteration_overflow self timestamp true s wakeup_at _
                  Hw Hadj) as (_ & _ & Hf).
      apply Hf. exact no_action_in_probes.
  - intros raw w Hw' Hadj.
    rewrite (partial_iteration_computed self timestamp true s raw w Hw' Hadj).
    destruct (reset_on_wake_state self timestamp s) as (Ho & Hi & _).
    split; assumption.
Qed.

(** C10, as the code has it.  On a tick without resume and activity, whose
    idleness is anchored for strictly more than [_idle_time] and whose wake
    probes give [raw], the delta being taken off it to give [w]: [raw] is
    strictly after the tick, and the guard compares
    [raw - timestamp - _wakeup_delta] with [_min_sleep_time], the tick
    skipping the suspension (it returns, hands no action out, does not reset,
    and leaves [_idle_since] at the anchor it counted from, unchanged when it
    was set) exactly when the former is strictly less, and the first action
    being otherwise [wakeup_fn] at [raw - _wakeup_delta].  So the tick skips
    when [raw] is strictly less than [_wakeup_delta] away and
    [_min_sleep_time] is not negative, and when [raw] is at most
    [_wakeup_delta] away and [_min_sleep_time] is strictly positive. *)
Theorem delta_adjusted_guard (self : Processor Env) (timestamp : Z)
    (s : Store Env) (raw w : Z) :
  outcome (activity_phase self s) = Returned false ->
  outcome (wakeup_phase self timestamp s) = Returned (Some raw) ->
  Partial.adjust limits self (Some raw) = Returned (Some w) ->
  _idle_time self < timestamp - anchor timestamp s ->
  let r := Partial.iteration limits self timestamp false s in
  let skipped :=
    outcome r = Returned tt /\ actions (events r) = [] /\
    filter is_reset (events r) = [] /\
    _idle_since (store r) = Some (anchor timestamp s) /\
    (_idle_since s <> None -> _idle_since (store r) = _idle_since s) in
  w = raw - _wakeup_delta self /\
  timestamp < raw /\
  (actions (events r) = [] <->
   raw - timestamp - _wakeup_delta self < _min_sleep_time self) /\
  (raw - timestamp - _wakeup_delta self < _min_sleep_time self -> skipped) /\
  (_min_sleep_time self <= raw - timestamp - _wakeup_delta self ->
   exists rest,
     actions (events r) = CallWakeupFn (raw - _wakeup_delta self) :: rest) /\
  (raw - timestamp < _wakeup_delta self -> 0 <= _min_sleep_time self ->
   skipped) /\
  (raw - timestamp <= _wakeup_delta self -> 0 < _min_sleep_time self ->
   skipped).
Proof.
  intros Ha Hw Hadj Hidle. cbv zeta.
  rewrite (partial_iteration_computed self timestamp false s _ _ Hw Hadj).
  apply partial_adjust_computed in Hadj. cbn [adjusted] in Hadj.
  injection Hadj as ->. split; [reflexivity|].
  pose proof (fun p Hp => iteration_filter self timestamp false s false
                (Some raw) p Ha Hw Hp) as Hf.
  cbv zeta in Hf.
  destruct (Hf is_action no_action_in_probes) as (Ho & Hst & He).
  destruct (Hf is_reset no_reset_in_probes) as (_ & _ & Hr).
  unfold actions. rewrite Ho, Hst, He, Hr.
  cbn [adjusted].
  assert (Hskip :
    raw - timestamp - _wakeup_delta self < _min_sleep_time self ->
    let d := decide self timestamp false false
               (Some (raw - _wakeup_delta self)) (probed self timestamp s) in
    outcome d = Returned tt /\
    filter is_action (events d) = [] /\
    filter is_reset (events d) = [] /\
    _idle_since (store d) = Some (anchor timestamp s) /\
    (_idle_since s <> None -> _idle_since (store d) = _idle_since s)).
  { intros Hmin. cbv zeta.
    rewrite decide_too_close by (rewrite ?anchor_probed; lia).
    cbn [outcome store events fst snd _idle_since].
    rewrite !filter_app, anchor_probed.
    destruct (anchoring_quiet timestamp (probed self timestamp s))
      as (Hq1 & Hq2 & _).
    unfold actions in Hq1. rewrite Hq1, Hq2.
    do 4 (split; [reflexivity|]).
    unfold anchor. destruct (_idle_since s); [reflexivity|congruence]. }
  assert (Hgo :
    _min_sleep_time self <= raw - timestamp - _wakeup_delta self ->
    exists rest,
      filter is_action
        (events (decide self timestamp false false
                   (Some (raw - _wakeup_delta self))
                   (probed self timestamp s)))
      = CallWakeupFn (raw - _wakeup_delta self) :: rest).
  { intros Hmin.
    rewrite decide_suspend_wakeup by (rewrite ?anchor_probed; lia).
    cbv zeta.
    destruct (anchoring_quiet timestamp (probed self timestamp s))
      as (Hq1 & _ & _).
    unfold actions in Hq1.
    destruct (outcome (_wakeup_fn self (raw - _wakeup_delta self)
                         (system (probed self timestamp s))));
      cbn [events snd]; rewrite ?filter_app, Hq1; cbn; eauto. }
  cbv zeta in Hskip.
  split; [exact (wakeup_phase_future self timestamp s raw Hw)|].
  split; [|split; [exact Hskip|split; [exact Hgo|split]]].
  - split.
    + intros Hnone.
      destruct (Z_lt_le_dec (raw - timestamp - _wakeup_delta self)
                  (_min_sleep_time self)) as [Hlt|Hle]; [exact Hlt|].
      destruct (Hgo Hle) as [rest Hrest]. congruence.
    + intros Hmin. apply Hskip. exact Hmin.
  - intros H1 H2. apply Hskip. lia.
  - intros H1 H2. apply Hskip. lia.
Qed.

(** *** Further properties of one iteration *)

(** X4. Activity resets, and the wake probes are polled all the same.  On a
    tick without resume whose activity probes report activity, every wake
    probe is invoked, the delta is taken off the aggregated wake-up, and no
    action is handed out.  When the delta could be taken off, the iteration
    returns with [_idle_since] at [None] whatever it was, and its trace is
    the trace of [execute_checks], then the trace of [execute_wakeups], then
    the reset.  When it could not, the [OverflowError] ends the iteration
    with [_idle_since] as it was. *)
Theorem activity_resets (self : Processor Env) (timestamp : Z)
    (s : Store Env) :
  outcome (activity_phase self s) = Returned true ->
  let r := Partial.iteration limits self timestamp false s in
  actions (events r) = [] /\
  system (store r) = store (wakeup_phase self timestamp s) /\
  exists wakeup_at,
    outcome (wakeup_phase self timestamp s) = Returned wakeup_at /\
    match Partial.adjust limits self wakeup_at with
    | Returned w =>
        outcome r = Returned tt /\
        _idle_since (store r) = None /\
        events r =
        Log processor_logger INFO "Starting new check iteration" []
        :: events (activity_phase self s)
        ++ Log processor_logger DEBUG
             "All activity checks have been executed. Active: %s"
             [ABool true]
        :: events (wakeup_phase self timestamp s)
        ++ [Log processor_logger DEBUG
              "Checks report, system should wake up at %s" [ATime wakeup_at];
            Log processor_logger DEBUG
              "With delta, system should wake up at %s" [ATime w];
            Log processor_logger INFO "%s. Resetting state"
              [AStr "System is active"];
            SetIdleSince None]
    | Raised _ =>
        outcome r = Raised OverflowError /\
        _idle_since (store r) = _idle_since s /\
        assignments (events r) = []
    end.
Proof.
  intros Ha. cbv zeta.
  destruct (wakeup_phase_returns self timestamp s) as [wakeup_at Hw].
  destruct (Partial.adjust limits self wakeup_at) as [w|e] eqn:Hadj.
  - rewrite (partial_iteration_computed self timestamp false s wakeup_at w
               Hw Hadj).
    destruct (iteration_filter self timestamp false s true wakeup_at
                is_action Ha Hw no_action_in_probes) as (_ & _ & He).
    unfold actions. rewrite He.
    rewrite (iteration_phases self timestamp false s true wakeup_at Ha Hw).
    rewrite decide_active. cbv zeta.
    cbn [outcome store events fst snd _idle_since system filter is_action].
    split; [reflexivity|]. split; [reflexivity|].
    exists wakeup_at. split; [exact Hw|]. rewrite Hadj.
    rewrite (partial_adjust_computed self wakeup_at w Hadj).
    repeat split.
  - destruct (partial_iteration_overflow self timestamp false s wakeup_at e
                Hw Hadj) as (Ho & Hs & Hf).
    split; [apply Hf; exact no_action_in_probes|].
    split; [rewrite Hs; reflexivity|].
    exists wakeup_at. split; [exact Hw|]. rewrite Hadj.
    split; [exact Ho|]. split; [rewrite Hs; reflexivity|].
    apply Hf. exact no_assignment_in_probes.
Qed.

(** The trace of an iteration up to its decision hands no action out and
    assigns nothing. *)
Lemma probing_quiet (self : Processor Env) timestamp (s : Store Env) active
    raw w :
  let probing :=
    Log processor_logger INFO "Starting new check iteration" []
    :: events (activity_phase self s)
    ++ Log processor_logger DEBUG
         "All activity checks have been executed. Active: %s" [ABool active]
    :: events (wakeup_phase self timestamp s)
    ++ [Log processor_logger DEBUG
          "Checks report, system should wake up at %s" [ATime raw];
        Log processor_logger DEBUG
          "With delta, system should wake up at %s" [ATime w]] in
  forall p,
    (forall e, is_log_or_probe_call e = true -> p e = false) ->
    filter p probing = [].
Proof.
  cbv zeta. intros p Hp. cbn [filter]. rewrite Hp by reflexivity.
  rewrite filter_app.
  rewrite (filter_none p is_log_or_probe_call _ Hp
             (activity_phase_events self s)).
  cbn [app filter]. rewrite Hp by reflexivity.
  rewrite filter_app.
  rewrite (filter_none p is_log_or_probe_call _ Hp
             (wakeup_phase_events self timestamp s)).
  cbn [app filter]. rewrite !Hp by reflexivity. reflexivity.
Qed.

(** Both sides of an equation between traces, with [++] nested to the
    right. *)
Ltac flatten_lists :=
  repeat first [rewrite <- app_assoc | progress cbn [app]].

(** X5. The exceptions that leave [iteration], where each comes from, and
    the state each leaves.  Either the delta could not be taken off: the
    exception is the [OverflowError] of the subtraction, nothing has been
    dispatched or assigned, and [_idle_since] is as it was.  Or [wakeup_fn],
    called on the system the probes left with the adjusted wake-up, raised
    it: the trace ends with that call, so that [sleep_fn] is not reached, and
    the state has not been reset, [_idle_since] being the anchor of the tick.
    Or [sleep_fn] raised it: the trace ends with that call, the reset comes
    right before it, and [_idle_since] is [None].  A [TemporaryCheckError] of
    a probe never leaves the iteration. *)
Theorem iteration_raises_only_callbacks (self : Processor Env)
    (timestamp : Z) (just_woke_up : bool) (s : Store Env) (e : exn) :
  let r := Partial.iteration limits self timestamp just_woke_up s in
  let env := store (wakeup_phase self timestamp s) in
  outcome r = Raised e ->
  exists raw,
    outcome (wakeup_phase self timestamp s) = Returned raw /\
    ((Partial.adjust limits self raw = Raised e /\
      e = OverflowError /\
      store r = {| _idle_since := _idle_since s; system := env |} /\
      actions (events r) = [] /\
      assignments (events r) = []) \/
     (exists at_ before,
        Partial.adjust limits self raw = Returned (Some at_) /\
        outcome (_wakeup_fn self at_ env) = Raised e /\
        store r = {| _idle_since := Some (anchor timestamp s);
                     system := store (_wakeup_fn self at_ env) |} /\
        events r
        = before ++ CallWakeupFn at_ :: events (_wakeup_fn self at_ env) /\
        actions before = [] /\
        filter is_reset before = []) \/
     (exists w before,
        Partial.adjust limits self raw = Returned w /\
        let env' :=
          match w with
          | Some at_ => store (_wakeup_fn self at_ env)
          | None => env
          end in
        outcome (_sleep_fn self w env') = Raised e /\
        store r = {| _idle_since := None;
                     system := store (_sleep_fn self w env') |} /\
        events r
        = before ++ SetIdleSince None :: CallSleepFn w
                 :: events (_sleep_fn self w env'))).
Proof.
  cbv zeta.
  destruct (activity_phase_returns self s) as [active Ha].
  destruct (wakeup_phase_returns self timestamp s) as [raw Hw].
  intros Hr. exists raw. split; [exact Hw|].
  destruct (Partial.adjust limits self raw) as [w|e'] eqn:Hadj.
  2:{ left.
      destruct (partial_iteration_overflow self timestamp just_woke_up s raw
                  e' Hw Hadj) as (Ho & Hs & Hf).
      rewrite Ho in Hr. injection Hr as <-.
      rewrite (partial_adjust_raised self raw e' Hadj).
      split; [reflexivity|]. split; [reflexivity|].
      split; [exact Hs|].
      split; [apply Hf; exact no_action_in_probes|].
      apply Hf. exact no_assignment_in_probes. }
  right.
  rewrite (partial_iteration_computed self timestamp just_woke_up s raw w Hw
             Hadj) in Hr |- *.
  pose proof (partial_adjust_computed self raw w Hadj) as Hwa.
  rewrite (iteration_phases self timestamp just_woke_up s active raw Ha Hw)
    in Hr |- *.
  rewrite <- Hwa in Hr |- *. cbv zeta in Hr |- *.
  cbn [outcome store events fst snd] in Hr |- *.
  pose proof (probing_quiet self timestamp s active raw w) as Hq.
  cbv zeta in Hq.
  assert (Hanch : forall p,
            p (SetIdleSince (Some timestamp)) = false ->
            filter p (anchoring timestamp (probed self timestamp s)) = []).
  { intros p Hp. unfold anchoring. destruct (_idle_since _); cbn;
      rewrite ?Hp; reflexivity. }
  destruct just_woke_up; [rewrite decide_woke in Hr; discriminate Hr|].
  destruct active; [rewrite decide_active in Hr; discriminate Hr|].
  destruct (Z_lt_le_dec (_idle_time self)
              (timestamp - anchor timestamp (probed self timestamp s)))
    as [Hlt|Hle].
  2:{ rewrite decide_wait in Hr by assumption. discriminate Hr. }
  destruct w as [at_|].
  - destruct (Z_lt_le_dec (at_ - timestamp) (_min_sleep_time self))
      as [Hmin|Hmin].
    { rewrite decide_too_close in Hr by assumption. discriminate Hr. }
    rewrite decide_suspend_wakeup in Hr |- * by assumption.
    cbv zeta in Hr |- *. cbn [system probed] in Hr |- *.
    destruct (outcome (_wakeup_fn self at_
                         (store (wakeup_phase self timestamp s))))
      as [[]|e'] eqn:Hwf.
    + right. unfold suspending in Hr |- *.
      cbn [outcome store events fst snd] in Hr |- *.
      exists (Some at_).
      exists ((Log processor_logger INFO "Starting new check iteration" []
               :: events (activity_phase self s)
               ++ Log processor_logger DEBUG
                    "All activity checks have been executed. Active: %s"
                    [ABool false]
               :: events (wakeup_phase self timestamp s)
               ++ [Log processor_logger DEBUG
                     "Checks report, system should wake up at %s"
                     [ATime raw];
                   Log processor_logger DEBUG
                     "With delta, system should wake up at %s"
                     [ATime (Some at_)]])
              ++ anchoring timestamp (probed self timestamp s)
              ++ idle_logs timestamp
                   (anchor timestamp (probed self timestamp s))
              ++ [Log processor_logger INFO "System is idle long enough." [];
                  Log processor_logger INFO "Scheduling wakeup at %s"
                    [ATime (Some at_)];
                  CallWakeupFn at_]
              ++ events (_wakeup_fn self at_
                           (store (wakeup_phase self timestamp s)))
              ++ [Log processor_logger INFO "%s. Resetting state"
                    [AStr "Going to suspend"]]).
      split; [reflexivity|]. split; [exact Hr|]. split; [reflexivity|].
      unfold idle_logs. flatten_lists. reflexivity.
    + left. cbn [outcome store events fst snd] in Hr |- *.
      injection Hr as <-.
      exists at_.
      exists ((Log processor_logger INFO "Starting new check iteration" []
               :: events (activity_phase self s)
               ++ Log processor_logger DEBUG
                    "All activity checks have been executed. Active: %s"
                    [ABool false]
               :: events (wakeup_phase self timestamp s)
               ++ [Log processor_logger DEBUG
                     "Checks report, system should wake up at %s"
                     [ATime raw];
                   Log processor_logger DEBUG
                     "With delta, system should wake up at %s"
                     [ATime (Some at_)]])
              ++ anchoring timestamp (probed self timestamp s)
              ++ [Log processor_logger INFO "System is idle since %s"
                    [ATime (Some (anchor timestamp
                                    (probed self timestamp s)))];
                  Log processor_logger DEBUG "Idle seconds: %s"
                    [ANum (timestamp
                           - anchor timestamp (probed self timestamp s))];
                  Log processor_logger INFO "System is idle long enough." [];
                  Log processor_logger INFO "Scheduling wakeup at %s"
                    [ATime (Some at_)]]).
      split; [reflexivity|]. split; [exact Hwf|].
      split; [reflexivity|]. split.
      * unfold idle_logs. flatten_lists. reflexivity.
      * unfold actions. rewrite !filter_app.
        rewrite (Hq is_action no_action_in_probes),
          (Hq is_reset no_reset_in_probes),
          (Hanch is_action eq_refl), (Hanch is_reset eq_refl).
        split; reflexivity.
  - right. rewrite decide_suspend_plain in Hr |- * by assumption.
    cbv zeta in Hr |- *. unfold suspending in Hr |- *.
    cbn [outcome store events fst snd system probed] in Hr |- *.
    exists None.
    exists ((Log processor_logger INFO "Starting new check iteration" []
             :: events (activity_phase self s)
             ++ Log processor_logger DEBUG
                  "All activity checks have been executed. Active: %s"
                  [ABool false]
             :: events (wakeup_phase self timestamp s)
             ++ [Log processor_logger DEBUG
                   "Checks report, system should wake up at %s" [ATime raw];
                 Log processor_logger DEBUG
                   "With delta, system should wake up at %s" [ATime None]])
            ++ anchoring timestamp (probed self timestamp s)
            ++ idle_logs timestamp
                 (anchor timestamp (probed self timestamp s))
            ++ [Log processor_logger INFO "System is idle long enough." [];
                Log processor_logger INFO "%s. Resetting state"
                  [AStr "Going to suspend"]]).
    split; [reflexivity|]. split; [exact Hr|]. split; [reflexivity|].
    unfold idle_logs. flatten_lists. reflexivity.
Qed.

(** X6. After a tick that reset, the next tick dispatches nothing.  When
    [_idle_time] is not negative, a tick that finds [_idle_since] at [None]
    hands no action out, whatever its instant, its flag and the system it
    finds; and [_idle_since] is [None] after every tick that returns and has
    seen a resume or activity or has called [sleep_fn].  So a suspension is
    never followed by another one on the next tick. *)
Theorem no_action_after_reset (self : Processor Env) (timestamp : Z)
    (just_woke_up : bool) (s : Store Env) :
  0 <= _idle_time self ->
  let r := Partial.iteration limits self timestamp just_woke_up s in
  (_idle_since s = None -> actions (events r) = []) /\
  (outcome r = Returned tt ->
   just_woke_up = true \/
   outcome (activity_phase self s) = Returned true \/
   filter is_sleep_call (events r) <> [] ->
   _idle_since (store r) = None /\
   forall timestamp' just_woke_up' env',
     actions
       (events (Partial.iteration limits self timestamp' just_woke_up'
                  {| _idle_since := _idle_since (store r);
                     system := env' |})) = []).
Proof.
  intros Hsane. cbv zeta.
  assert (Hnone : forall t j s0,
            _idle_since s0 = None ->
            actions (events (Partial.iteration limits self t j s0)) = []).
  { intros t j s0 Hn.
    destruct (activity_phase_returns self s0) as [active Ha].
    destruct (wakeup_phase_returns self t s0) as [raw Hw].
    destruct (partial_adjust_cases self raw) as [Hadj|Hadj].
    - rewrite (partial_iteration_computed self t j s0 raw _ Hw Hadj).
      destruct (iteration_filter self t j s0 active raw is_action Ha Hw
                  no_action_in_probes) as (_ & _ & He).
      cbv zeta in He. unfold actions. rewrite He.
      destruct j; [rewrite decide_woke; reflexivity|].
      destruct active; [rewrite decide_active; reflexivity|].
      rewrite decide_wait
        by (unfold anchor, probed; cbn; rewrite Hn; lia).
      cbn [events snd]. rewrite filter_app.
      destruct (anchoring_quiet t (probed self t s0)) as (Hq & _ & _).
      unfold actions in Hq. rewrite Hq. reflexivity.
    - destruct (partial_iteration_overflow self t j s0 raw _ Hw Hadj)
        as (_ & _ & Hf).
      apply Hf. exact no_action_in_probes. }
  split; [apply Hnone|].
  intros Hret Hnq.
  assert (Hi : _idle_since
                 (store (Partial.iteration limits self timestamp
                           just_woke_up s)) = None).
  { destruct (wakeup_phase_returns self timestamp s) as [raw Hw].
    destruct (partial_adjust_cases self raw) as [Hadj|Hadj].
    2:{ destruct (partial_iteration_overflow self timestamp just_woke_up s
                    raw _ Hw Hadj) as (Ho & _).
        rewrite Ho in Hret. discriminate Hret. }
    rewrite (partial_iteration_computed self timestamp just_woke_up s raw _
               Hw Hadj) in Hret, Hnq |- *.
    pose proof (poll_quiet_iff self (_idle_since s)
                  {| tick_timestamp := timestamp;
                     tick_just_woke_up := just_woke_up;
                     tick_system := system s |}) as Hiff.
    unfold quiet, poll in Hiff.
    cbn [tick_timestamp tick_just_woke_up tick_system] in Hiff.
    replace {| _idle_since := _idle_since s; system := system s |} with s
      in Hiff by (destruct s; reflexivity).
    specialize (Hiff Hret).
    destruct (_idle_since (store (iteration self timestamp just_woke_up s)))
      as [i|]; [|reflexivity].
    exfalso.
    assert (Hset : Some i <> None) by discriminate.
    destruct (proj1 Hiff Hset) as (_ & Hj & Hact & Hsl).
    destruct Hnq as [Hq|[Hq|Hq]]; [congruence|congruence|contradiction]. }
  split; [exact Hi|].
  intros t' j' env'. apply Hnone. cbn. exact Hi.
Qed.

(** X19. [Partial.iteration] and [iteration].  While there is no wake-up, or
    the delta is a [timedelta] and the wake-up less the delta a [datetime],
    the two are one computation: the same outcome, the same store, the same
    trace.  Otherwise [Partial.iteration] ends with the [OverflowError] of
    the subtraction once the probes are polled and the aggregated wake-up is
    logged: nothing is decided, assigned or dispatched. *)
Theorem iteration_within_limits (self : Processor Env) (timestamp : Z)
    (just_woke_up : bool) (s : Store Env) (active : bool) (raw : option Z) :
  outcome (activity_phase self s) = Returned active ->
  outcome (wakeup_phase self timestamp s) = Returned raw ->
  let r := Partial.iteration limits self timestamp just_woke_up s in
  let in_range :=
    match raw with
    | Some at_ =>
        timedelta_min limits <= _wakeup_delta self <= timedelta_max limits /\
        datetime_min limits <= at_ - _wakeup_delta self
        <= datetime_max limits
    | None => True
    end in
  (in_range -> r = iteration self timestamp just_woke_up s) /\
  (~ in_range ->
   r =
   (Raised OverflowError, probed self timestamp s,
    Log processor_logger INFO "Starting new check iteration" []
    :: events (activity_phase self s)
    ++ Log processor_logger DEBUG
         "All activity checks have been executed. Active: %s" [ABool active]
    :: events (wakeup_phase self timestamp s)
    ++ [Log processor_logger DEBUG
          "Checks report, system should wake up at %s" [ATime raw]])).
Proof.
  intros Ha Hw. cbv zeta.
  rewrite (partial_iteration_phases self timestamp just_woke_up s active raw
             Ha Hw).
  unfold Partial.adjust. destruct raw as [at_|].
  - destruct ((timedelta_min limits <=? _wakeup_delta self)
              && (_wakeup_delta self <=? timedelta_max limits)
              && (datetime_min limits <=? at_ - _wakeup_delta self)
              && (at_ - _wakeup_delta self <=? datetime_max limits))
      eqn:Hb.
    + split; [reflexivity|]. intros Hn. exfalso. apply Hn.
      apply andb_prop in Hb. destruct Hb as [Hb H4].
      apply andb_prop in Hb. destruct Hb as [Hb H3].
      apply andb_prop in Hb. destruct Hb as [H1 H2].
      apply Z.leb_le in H1, H2, H3, H4. lia.
    + split; [|reflexivity]. intros [[H1 H2] [H3 H4]].
      apply Z.leb_le in H1, H2, H3, H4.
      rewrite H1, H2, H3, H4 in Hb. discriminate Hb.
  - split; [reflexivity|]. intros Hn. exfalso. apply Hn. exact I.
Qed.

(** *** The dispatchers, with the failures of [str.format] *)

Section PartialProcessor.

Variable str_format : string -> Z -> Outcome string.

Lemma partial_schedule_wakeup_eq template at_ env :
  Partial.schedule_wakeup run_shell str_format template at_ env =
  match str_format template at_ with
  | Returned command =>
      (Returned tt, snd (run_shell command env),
       command_trace "Scheduling wakeup using command: %s"
         "Unable to execute wakeup scheduling command: %s" command
         (fst (run_shell command env)))
  | Raised e => (Raised e, env, [])
  end.
Proof.
  unfold Partial.schedule_wakeup, Partial.format. unfold bind at 1.
  destruct (str_format template at_) as [command|e]; [|reflexivity].
  rewrite guarded_call. reflexivity.
Qed.

Lemma partial_notify_suspend_eq (config : Config) wakeup_at env :
  Partial.notify_suspend run_shell str_format (notify_cmd_wakeup config)
    (notify_cmd_no_wakeup config) wakeup_at env =
  match Partial.notification str_format config wakeup_at with
  | Returned (Some command) =>
      (Returned tt, snd (run_shell command env),
       command_trace "Notifying using command: %s"
         "Unable to execute notification command: %s" command
         (fst (run_shell command env)))
  | Returned None =>
      (Returned tt, env,
       [Log module_logger INFO
          "No suitable notification command configured." []])
  | Raised e => (Raised e, env, [])
  end.
Proof.
  unfold Partial.notify_suspend, Partial.notification, Partial.format.
  destruct wakeup_at as [at_|], (truthy (notify_cmd_wakeup config))
    as [template|], (truthy (notify_cmd_no_wakeup config)) as [command|];
    try reflexivity; try apply safe_exec_eq;
    unfold bind; destruct (str_format template at_) as [c|e];
    try reflexivity; rewrite safe_exec_eq; reflexivity.
Qed.

Lemma partial_notify_and_suspend_eq (config : Config) wakeup_at env :
  Partial.notify_and_suspend run_shell str_format (suspend_cmd config)
    (notify_cmd_wakeup config) (notify_cmd_no_wakeup config) wakeup_at env =
  match Partial.notification str_format config wakeup_at with
  | Returned (Some command) =>
      (Returned tt,
       snd (run_shell (suspend_cmd config) (snd (run_shell command env))),
       command_trace "Notifying using command: %s"
         "Unable to execute notification command: %s" command
         (fst (run_shell command env))
       ++ command_trace "Suspending using command: %s"
            "Unable to execute suspend command: %s" (suspend_cmd config)
            (fst (run_shell (suspend_cmd config)
                    (snd (run_shell command env)))))
  | Returned None =>
      (Returned tt, snd (run_shell (suspend_cmd config) env),
       Log module_logger INFO
         "No suitable notification command configured." []
       :: command_trace "Suspending using command: %s"
            "Unable to execute suspend command: %s" (suspend_cmd config)
            (fst (run_shell (suspend_cmd config) env)))
  | Raised e => (Raised e, env, [])
  end.
Proof.
  unfold Partial.notify_and_suspend, bind.
  rewrite partial_notify_suspend_eq.
  destruct (Partial.notification str_format config wakeup_at)
    as [[command|]|e]; rewrite ?execute_suspend_eq; reflexivity.
Qed.

Lemma check_calls_app l1 l2 :
  check_calls (l1 ++ l2) = check_calls l1 ++ check_calls l2.
Proof.
  induction l1 as [|e l1 IH]; [reflexivity|].
  destruct e; cbn; rewrite ?IH; reflexivity.
Qed.

Lemma check_calls_command_trace announce failure command code :
  check_calls (command_trace announce failure command code)
  = [(command, code)].
Proof. unfold command_trace. destruct (code =? 0); reflexivity. Qed.

Lemma check_calls_none (l : list Event) :
  forallb is_log_or_probe_call l = true -> check_calls l = [].
Proof.
  induction l as [|e l IH]; cbn; [reflexivity|].
  destruct e; cbn; try discriminate; exact IH.
Qed.

Lemma check_calls_anchoring timestamp (s : Store Env) :
  check_calls (anchoring timestamp s) = [].
Proof. unfold anchoring. destruct (_idle_since s); reflexivity. Qed.

Lemma run_commands_cons command rest (env : Env) :
  run_commands run_shell (command :: rest) env =
  ((command, fst (run_shell command env))
   :: fst (run_commands run_shell rest (snd (run_shell command env))),
   snd (run_commands run_shell rest (snd (run_shell command env)))).
Proof.
  cbn [run_commands]. destruct (run_shell command env) as [code env'].
  cbn [fst snd].
  destruct (run_commands run_shell rest env') as [ran env'']. reflexivity.
Qed.

(** What the processor [main] builds does once it has decided to suspend:
    the reset, then the commands of [sleep_fn]. *)
Lemma partial_main_suspending (config : Config) checks wakeups all_checks
    wakeup_at env :
  let self :=
    Partial.main_processor run_shell str_format config checks wakeups
      all_checks in
  forall commands,
    match Partial.notification str_format config wakeup_at with
    | Returned (Some command) => Some [command; suspend_cmd config]
    | Returned None => Some [suspend_cmd config]
    | Raised _ => None
    end = Some commands ->
    let r := suspending self wakeup_at env in
    outcome r = Returned tt /\
    _idle_since (store r) = None /\
    check_calls (events r) = fst (run_commands run_shell commands env) /\
    system (store r) = snd (run_commands run_shell commands env).
Proof.
  cbv zeta. intros commands Hc. unfold suspending.
  cbn [_sleep_fn Partial.main_processor].
  rewrite partial_notify_and_suspend_eq.
  destruct (Partial.notification str_format config wakeup_at)
    as [[command|]|e]; [| |discriminate Hc]; injection Hc as <-;
    rewrite !run_commands_cons; cbn [run_commands fst snd];
    cbn [outcome store events fst snd _idle_since system app check_calls];
    rewrite ?check_calls_app, !check_calls_command_trace;
    repeat split; reflexivity.
Qed.

Lemma partial_suspend_commands_plain (config : Config) commands :
  Partial.suspend_commands str_format config None = Some commands ->
  match Partial.notification str_format config None with
  | Returned (Some command) => Some [command; suspend_cmd config]
  | Returned None => Some [suspend_cmd config]
  | Raised _ => None
  end = Some commands.
Proof.
  unfold Partial.suspend_commands.
  destruct (Partial.notification str_format config None) as [[c|]|e];
    cbn [app]; congruence.
Qed.

Lemma partial_suspend_commands_wakeup (config : Config) at_ commands :
  Partial.suspend_commands str_format config (Some at_) = Some commands ->
  exists command rest,
    str_format (wakeup_cmd config) at_ = Returned command /\
    commands = command :: rest /\
    match Partial.notification str_format config (Some at_) with
    | Returned (Some command) => Some [command; suspend_cmd config]
    | Returned None => Some [suspend_cmd config]
    | Raised _ => None
    end = Some rest.
Proof.
  unfold Partial.suspend_commands.
  destruct (str_format (wakeup_cmd config) at_) as [command|e];
    [|discriminate].
  destruct (Partial.notification str_format config (Some at_))
    as [[c|]|e]; [| |discriminate]; intros H; injection H as <-;
    cbn [app]; eauto.
Qed.

(** The decision of the processor [main] builds, the templates of the tick
    being accepted: it returns, leaves the [_idle_since] the state machine
    prescribes, and has run the commands of the tick through the shell, one
    after the other. *)
Lemma partial_main_decide (config : Config) checks wakeups all_checks
    timestamp just_woke_up active raw (s : Store Env) commands :
  let self :=
    Partial.main_processor run_shell str_format config checks wakeups
      all_checks in
  let go := suspends config (_idle_since s) timestamp just_woke_up active
              raw in
  (go = true ->
   Partial.suspend_commands str_format config (adjusted self raw)
   = Some commands) ->
  let d := decide self timestamp just_woke_up active (adjusted self raw) s in
  let ran :=
    run_commands run_shell (if go then commands else []) (system s) in
  outcome d = Returned tt /\
  _idle_since (store d)
  = transition self (_idle_since s) timestamp just_woke_up active raw /\
  check_calls (events d) = fst ran /\
  system (store d) = snd ran.
Proof.
  intros self go Hc. cbv zeta. unfold go in *. clear go.
  unfold transition, suspends in *.
  destruct just_woke_up.
  { rewrite decide_woke. cbn. repeat split. }
  destruct active.
  { rewrite decide_active. cbn. repeat split. }
  cbn [negb andb] in Hc |- *.
  cbn [_idle_time _min_sleep_time _wakeup_delta self
       Partial.main_processor] in Hc |- *.
  change (match _idle_since s with Some i => i | None => timestamp end)
    with (anchor timestamp s) in Hc |- *.
  destruct (Z_lt_le_dec (idle_time config) (timestamp - anchor timestamp s))
    as [Hlt|Hle].
  - replace (_ <=? idle_time config) with false
      by (symmetry; apply Z.leb_gt; lia).
    replace (idle_time config <? _) with true in Hc |- *
      by (symmetry; apply Z.ltb_lt; lia).
    destruct raw as [raw|]; cbn [adjusted] in Hc |- *.
    + cbn [_wakeup_delta self Partial.main_processor] in Hc |- *.
      destruct (Z_lt_le_dec (raw - wakeup_delta config - timestamp)
                  (min_sleep_time config)) as [Hmin|Hmin].
      * rewrite decide_too_close by assumption.
        replace (_ <? min_sleep_time config) with true
          by (symmetry; apply Z.ltb_lt; lia).
        cbn [outcome store events fst snd _idle_since system negb
             run_commands].
        rewrite !check_calls_app, check_calls_anchoring.
        repeat split.
      * rewrite decide_suspend_wakeup by assumption.
        replace (_ <? min_sleep_time config) with false in Hc |- *
          by (symmetry; apply Z.ltb_ge; lia).
        cbn [negb andb] in Hc |- *.
        destruct (partial_suspend_commands_wakeup config _ commands
                    (Hc eq_refl)) as (command & rest & Hf & -> & Hrest).
        cbv zeta. cbn [_wakeup_fn self Partial.main_processor].
        rewrite partial_schedule_wakeup_eq, Hf.
        cbn [outcome store events fst snd].
        destruct (partial_main_suspending config checks wakeups all_checks
                    (Some (raw - wakeup_delta config))
                    (snd (run_shell command (system s))) rest Hrest)
          as (Hso & Hsi & Hsc & Hss).
        cbv zeta in Hso, Hsi, Hsc, Hss. fold self in Hso, Hsi, Hsc, Hss.
        rewrite Hso, Hsi, Hss, run_commands_cons. cbn [fst snd].
        split; [reflexivity|]. split; [reflexivity|].
        split; [|reflexivity].
        rewrite !check_calls_app, check_calls_anchoring, Hsc.
        cbn [app idle_logs check_calls].
        rewrite check_calls_command_trace. reflexivity.
    + rewrite decide_suspend_plain by assumption.
      cbn [negb andb] in Hc |- *.
      destruct (partial_main_suspending config checks wakeups all_checks
                  None (system s) commands
                  (partial_suspend_commands_plain config commands
                     (Hc eq_refl)))
        as (Hso & Hsi & Hsc & Hss).
      cbv zeta in Hso, Hsi, Hsc, Hss |- *. fold self in Hso, Hsi, Hsc, Hss.
      cbn [outcome store events fst snd].
      rewrite Hso, Hsi, Hss.
      split; [reflexivity|]. split; [reflexivity|].
      split; [|reflexivity].
      rewrite !check_calls_app, check_calls_anchoring.
      cbn [app idle_logs check_calls]. exact Hsc.
  - rewrite decide_wait by assumption.
    replace (_ <=? idle_time config) with true
      by (symmetry; apply Z.leb_le; lia).
    replace (idle_time config <? _) with false
      by (symmetry; apply Z.ltb_ge; lia).
    cbn [outcome store events fst snd _idle_since system andb run_commands].
    rewrite !check_calls_app, check_calls_anchoring.
    repeat split.
Qed.

(** C9. The failure of a command is swallowed, whatever the shell answers.
    Each dispatcher hands its command to the shell, returns whatever the exit
    status, logging a warning when it is not zero, and leaves the system as
    the command leaves it; [notify_and_suspend] runs the suspend command
    after the notification, on the system the notification leaves, whatever
    the exit status of the notification.  And an iteration of the processor
    [main] builds, the delta being taken off and the templates of the tick
    being accepted by [str.format], returns, leaves the [_idle_since] the
    state machine prescribes from the probes alone, and has run all the
    commands of its decision through the shell, in order, each on the system
    its predecessor left: those of a suspension when it suspends, none
    otherwise. *)
Theorem command_failures_swallowed (config : Config)
    (checks : list (Activity Env)) (wakeups : list (Wakeup Env))
    (all_checks : bool) :
  let self :=
    Partial.main_processor run_shell str_format config checks wakeups
      all_checks in
  (forall command wakeup_at env,
     execute_suspend run_shell command wakeup_at env =
     (Returned tt, snd (run_shell command env),
      command_trace "Suspending using command: %s"
        "Unable to execute suspend command: %s" command
        (fst (run_shell command env)))) /\
  (forall template at_ command env,
     str_format template at_ = Returned command ->
     Partial.schedule_wakeup run_shell str_format template at_ env =
     (Returned tt, snd (run_shell command env),
      command_trace "Scheduling wakeup using command: %s"
        "Unable to execute wakeup scheduling command: %s" command
        (fst (run_shell command env)))) /\
  (forall wakeup_at command env,
     Partial.notification str_format config wakeup_at
     = Returned (Some command) ->
     Partial.notify_suspend run_shell str_format (notify_cmd_wakeup config)
       (notify_cmd_no_wakeup config) wakeup_at env =
     (Returned tt, snd (run_shell command env),
      command_trace "Notifying using command: %s"
        "Unable to execute notification command: %s" command
        (fst (run_shell command env))) /\
     Partial.notify_and_suspend run_shell str_format (suspend_cmd config)
       (notify_cmd_wakeup config) (notify_cmd_no_wakeup config) wakeup_at
       env =
     (Returned tt,
      snd (run_shell (suspend_cmd config) (snd (run_shell command env))),
      command_trace "Notifying using command: %s"
        "Unable to execute notification command: %s" command
        (fst (run_shell command env))
      ++ command_trace "Suspending using command: %s"
           "Unable to execute suspend command: %s" (suspend_cmd config)
           (fst (run_shell (suspend_cmd config)
                   (snd (run_shell command env)))))) /\
  (forall timestamp just_woke_up s active raw w commands,
     outcome (activity_phase self s) = Returned active ->
     outcome (wakeup_phase self timestamp s) = Returned raw ->
     Partial.adjust limits self raw = Returned w ->
     let go :=
       suspends config (_idle_since s) timestamp just_woke_up active raw in
     (go = true ->
      Partial.suspend_commands str_format config w = Some commands) ->
     let r := Partial.iteration limits self timestamp just_woke_up s in
     let ran :=
       run_commands run_shell (if go then commands else [])
         (store (wakeup_phase self timestamp s)) in
     outcome r = Returned tt /\
     _idle_since (store r)
     = transition self (_idle_since s) timestamp just_woke_up active raw /\
     check_calls (events r) = fst ran /\
     system (store r) = snd ran).
Proof.
  cbv zeta. split; [|split; [|split]].
  - intros command wakeup_at env. apply execute_suspend_eq.
  - intros template at_ command env Hf.
    rewrite partial_schedule_wakeup_eq, Hf. reflexivity.
  - intros wakeup_at command env Hn.
    rewrite partial_notify_suspend_eq, partial_notify_and_suspend_eq, Hn.
    split; reflexivity.
  - intros timestamp just_woke_up s active raw w commands Ha Hw Hadj Hc.
    set (self := Partial.main_processor run_shell str_format config checks
                   wakeups all_checks) in *.
    rewrite (partial_iteration_computed self timestamp just_woke_up s raw w
               Hw Hadj).
    rewrite (partial_adjust_computed self raw w Hadj) in Hc.
    rewrite (iteration_phases self timestamp just_woke_up s active raw Ha Hw).
    cbv zeta. cbn [outcome store events fst snd].
    destruct (partial_main_decide config checks wakeups all_checks timestamp
                just_woke_up active raw (probed self timestamp s) commands
                Hc) as (Ho & Hi & Hcc & Hs).
    cbv zeta in Ho, Hi, Hcc, Hs. fold self in Ho, Hi, Hcc, Hs.
    split; [exact Ho|]. split; [exact Hi|]. split; [|exact Hs].
    cbn [check_calls]. rewrite check_calls_app.
    rewrite (check_calls_none _ (activity_phase_events self s)).
    cbn [app check_calls]. rewrite check_calls_app.
    rewrite (check_calls_none _ (wakeup_phase_events self timestamp s)).
    cbn [app check_calls]. exact Hcc.
Qed.

(** X9. What [notify_suspend] runs.  It runs at most one command: with a
    wake-up, the wake-up template filled in, if there is one and it is not
    the empty string; without a wake-up, the other command, if there is one
    and it is not the empty string.  Neither stands in for the other: with a
    wake-up and no template nothing is run, whatever the other command is.
    It returns whatever the exit status of the command; only a template
    [str.format] rejects makes it raise, before anything is run or
    logged. *)
Theorem notify_suspend_commands (command_wakeup_template : option string)
    (command_no_wakeup : option string) (wakeup_at : option Z) (env : Env) :
  let r :=
    Partial.notify_suspend run_shell str_format command_wakeup_template
      command_no_wakeup wakeup_at env in
  let runs_only command :=
    outcome r = Returned tt /\
    check_calls (events r) = [(command, fst (run_shell command env))] /\
    store r = snd (run_shell command env) in
  let runs_nothing :=
    outcome r = Returned tt /\ check_calls (events r) = [] /\ store r = env in
  match wakeup_at with
  | Some at_ =>
      match command_wakeup_template with
      | Some template =>
          if (template =? "")%string then runs_nothing
          else
            match str_format template at_ with
            | Returned command => runs_only command
            | Raised e => r = (Raised e, env, [])
            end
      | None => runs_nothing
      end
  | None =>
      match command_no_wakeup with
      | Some command =>
          if (command =? "")%string then runs_nothing else runs_only command
      | None => runs_nothing
      end
  end.
Proof.
  cbv zeta. unfold Partial.notify_suspend, truthy.
  assert (Hcmd : forall command,
            outcome (safe_exec run_shell command env) = Returned tt /\
            check_calls (events (safe_exec run_shell command env))
            = [(command, fst (run_shell command env))] /\
            store (safe_exec run_shell command env)
            = snd (run_shell command env)).
  { intros command. rewrite safe_exec_eq. cbn [outcome store events fst snd].
    split; [reflexivity|]. split; [|reflexivity].
    apply check_calls_command_trace. }
  destruct wakeup_at as [at_|].
  - destruct command_wakeup_template as [template|].
    + destruct (template =? "")%string.
      * destruct command_no_wakeup as [c|]; [destruct (c =? "")%string|];
          repeat split.
      * unfold bind, Partial.format.
        destruct (str_format template at_) as [command|e]; [|reflexivity].
        specialize (Hcmd command).
        destruct (safe_exec run_shell command env) as [[o s1] l1].
        cbn [outcome store events fst snd] in Hcmd |- *.
        rewrite app_nil_l. exact Hcmd.
    + destruct command_no_wakeup as [c|]; [destruct (c =? "")%string|];
        repeat split.
  - destruct command_no_wakeup as [c|].
    + destruct (c =? "")%string.
      * destruct command_wakeup_template as [template|];
          [destruct (template =? "")%string|]; repeat split.
      * destruct command_wakeup_template as [template|];
          [destruct (template =? "")%string|]; apply Hcmd.
    + destruct command_wakeup_template as [template|];
        [destruct (template =? "")%string|]; repeat split.
Qed.

Lemma decide_ext (p q : Processor Env) timestamp just_woke_up active
    wakeup_at (s : Store Env) :
  _idle_time p = _idle_time q ->
  _min_sleep_time p = _min_sleep_time q ->
  (forall at_ env, _wakeup_fn p at_ env = _wakeup_fn q at_ env) ->
  (forall env, _sleep_fn p wakeup_at env = _sleep_fn q wakeup_at env) ->
  decide p timestamp just_woke_up active wakeup_at s
  = decide q timestamp just_woke_up active wakeup_at s.
Proof.
  intros Hi Hm Hwf Hsf.
  destruct just_woke_up; [reflexivity|]. destruct active; [reflexivity|].
  assert (Hsusp : forall env,
            suspending p wakeup_at env = suspending q wakeup_at env).
  { intros env. unfold suspending. rewrite Hsf. reflexivity. }
  destruct (Z_lt_le_dec (_idle_time p) (timestamp - anchor timestamp s))
    as [Hlt|Hle].
  - destruct wakeup_at as [at_|].
    + destruct (Z_lt_le_dec (at_ - timestamp) (_min_sleep_time p))
        as [Hmin|Hmin].
      * rewrite (decide_too_close p timestamp at_ s Hlt Hmin).
        rewrite Hi in Hlt. rewrite Hm in Hmin.
        rewrite (decide_too_close q timestamp at_ s Hlt Hmin).
        rewrite Hm. reflexivity.
      * rewrite (decide_suspend_wakeup p timestamp at_ s Hlt Hmin).
        rewrite Hi in Hlt. rewrite Hm in Hmin.
        rewrite (decide_suspend_wakeup q timestamp at_ s Hlt Hmin).
        cbv zeta. rewrite Hwf, Hsusp. reflexivity.
    + rewrite (decide_suspend_plain p timestamp s Hlt).
      rewrite Hi in Hlt.
      rewrite (decide_suspend_plain q timestamp s Hlt).
      cbv zeta. rewrite Hsusp. reflexivity.
  - rewrite (decide_wait p timestamp wakeup_at s Hle).
    rewrite Hi in Hle.
    rewrite (decide_wait q timestamp wakeup_at s Hle).
    rewrite Hi. reflexivity.
Qed.

(** X20. The dispatchers and the templates.  On a template [str.format]
    accepts, [Partial.schedule_wakeup] and [Partial.notify_suspend] are
    [schedule_wakeup] and [notify_suspend] with the command it gives; on one
    it rejects they raise its exception before a record is logged or a
    command run; without a wake-up no template is formatted.  So when the templates of the configuration are accepted
    and the delta can be taken off, an iteration of the processor [main]
    builds is the one on a time line without ends, with the commands so
    formatted. *)
Theorem dispatch_with_accepted_templates (config : Config)
    (checks : list (Activity Env)) (wakeups : list (Wakeup Env))
    (all_checks : bool) :
  (forall template at_ env,
     (str_format template at_ = Returned (format_command template at_) ->
      Partial.schedule_wakeup run_shell str_format template at_ env
      = schedule_wakeup run_shell format_command template at_ env) /\
     (forall e,
        str_format template at_ = Raised e ->
        Partial.schedule_wakeup run_shell str_format template at_ env
        = (Raised e, env, []))) /\
  (forall template command_no_wakeup at_ env,
     truthy (Some template) = Some template ->
     (str_format template at_ = Returned (format_command template at_) ->
      Partial.notify_suspend run_shell str_format (Some template)
        command_no_wakeup (Some at_) env
      = notify_suspend run_shell format_command (Some template)
          command_no_wakeup (Some at_) env) /\
     (forall e,
        str_format template at_ = Raised e ->
        Partial.notify_suspend run_shell str_format (Some template)
          command_no_wakeup (Some at_) env
        = (Raised e, env, []))) /\
  (forall command_wakeup_template command_no_wakeup env,
     Partial.notify_suspend run_shell str_format command_wakeup_template
       command_no_wakeup None env =
     notify_suspend run_shell format_command command_wakeup_template
       command_no_wakeup None env) /\
  ((forall template at_,
      template = wakeup_cmd config \/
      truthy (notify_cmd_wakeup config) = Some template ->
      str_format template at_ = Returned (format_command template at_)) ->
   forall timestamp just_woke_up s raw w,
     outcome
       (wakeup_phase
          (Partial.main_processor run_shell str_format config checks wakeups
             all_checks) timestamp s) = Returned raw ->
     Partial.adjust limits
       (Partial.main_processor run_shell str_format config checks wakeups
          all_checks) raw = Returned w ->
     Partial.iteration limits
       (Partial.main_processor run_shell str_format config checks wakeups
          all_checks) timestamp just_woke_up s
     = iteration
         (main_processor run_shell format_command config checks wakeups
            all_checks) timestamp just_woke_up s).
Proof.
  split; [|split; [|split]].
  - intros template at_ env. rewrite partial_schedule_wakeup_eq. split.
    + intros ->. rewrite schedule_wakeup_eq. reflexivity.
    + intros e ->. reflexivity.
  - intros template command_no_wakeup at_ env Ht.
    unfold Partial.notify_suspend, notify_suspend. rewrite Ht.
    unfold bind, Partial.format. split.
    + intros ->.
      destruct (safe_exec run_shell (format_command template at_) env)
        as [[o s1] l1]. reflexivity.
    + intros e ->. reflexivity.
  - intros a b env. unfold Partial.notify_suspend, notify_suspend.
    destruct (truthy a), (truthy b); reflexivity.
  - intros Hfmt timestamp just_woke_up s raw w Hw Hadj.
    set (p := Partial.main_processor run_shell str_format config checks
                wakeups all_checks) in *.
    set (q := main_processor run_shell format_command config checks wakeups
                all_checks).
    rewrite (partial_iteration_computed p timestamp just_woke_up s raw w Hw
               Hadj).
    destruct (activity_phase_returns p s) as [active Ha].
    rewrite (iteration_phases p timestamp just_woke_up s active raw Ha Hw).
    rewrite (iteration_phases q timestamp just_woke_up s active raw Ha Hw).
    assert (Hwf : forall at_ env, _wakeup_fn p at_ env = _wakeup_fn q at_ env).
    { intros at_ env. cbn [_wakeup_fn p q Partial.main_processor
                               main_processor].
      rewrite partial_schedule_wakeup_eq, schedule_wakeup_eq.
      rewrite (Hfmt (wakeup_cmd config) at_ (or_introl eq_refl)).
      reflexivity. }
    assert (Hsf : forall wakeup_at env,
              _sleep_fn p wakeup_at env = _sleep_fn q wakeup_at env).
    { intros wakeup_at env. cbn [_sleep_fn p q Partial.main_processor
                                   main_processor].
      unfold Partial.notify_and_suspend, notify_and_suspend, bind.
      rewrite partial_notify_suspend_eq, notify_suspend_eq.
      unfold Partial.notification, notification.
      destruct wakeup_at as [at_|],
        (truthy (notify_cmd_wakeup config)) as [template|] eqn:Ht,
        (truthy (notify_cmd_no_wakeup config)) as [command|];
        try rewrite (Hfmt template at_ (or_intror eq_refl));
        rewrite ?safe_exec_eq; reflexivity. }
    cbv zeta.
    rewrite (decide_ext p q timestamp just_woke_up active (adjusted p raw)
               (probed p timestamp s) eq_refl eq_refl Hwf
               (Hsf (adjusted p raw))).
    reflexivity.
Qed.

End PartialProcessor.

End PartialIteration.

(** * Further properties of the aggregators *)

Lemma bind_assoc {S A B C : Type} (m : M S A) (f : A -> M S B)
    (g : B -> M S C) (s : S) :
  bind (bind m f) g s = bind m (fun a => bind (f a) g) s.
Proof.
  unfold bind. destruct (m s) as [[[a|e] s1] l1]; [|reflexivity].
  destruct (f a s1) as [[[b|e] s2] l2]; [|reflexivity].
  destruct (g b s2) as [[o s3] l3]. rewrite app_assoc. reflexivity.
Qed.

Lemma bind_ext {S A B : Type} (m : M S A) (f g : A -> M S B) (s : S) :
  (forall a s', f a s' = g a s') -> bind m f s = bind m g s.
Proof.
  intros H. unfold bind. destruct (m s) as [[[a|e] s1] l1]; [|reflexivity].
  rewrite H. reflexivity.
Qed.

Lemma execute_checks_loop_sticky (checks : list (Activity Env)) all_checks
    logger env :
  outcome (execute_checks_loop checks all_checks logger true env)
  = Returned true.
Proof.
  destruct (execute_checks_loop_spec checks all_checks logger true env)
    as [Ho _].
  exact Ho.
Qed.

Lemma all_checks_loop (checks : list (Activity Env)) logger :
  forall matched env,
    let every := execute_checks_loop checks true logger matched env in
    let first := execute_checks_loop checks false logger matched env in
    outcome every = outcome first /\
    exists more,
      checks_called (events every) = checks_called (events first) ++ more.
Proof.
  induction checks as [|check rest IH]; intros matched env; cbv zeta.
  - split; [reflexivity|]. exists []. reflexivity.
  - destruct (activity_check check env) as [[[reason|]|] env'] eqn:Hc.
    + rewrite !execute_checks_loop_match with (1 := Hc).
      cbn [outcome events fst snd]. split.
      * apply execute_checks_loop_sticky.
      * rewrite checks_called_app. cbn. eexists. reflexivity.
    + rewrite !execute_checks_loop_quiet with (1 := Hc).
      cbv zeta. cbn [outcome events fst snd].
      destruct (IH matched env') as [Ho [more Hm]]. split; [exact Ho|].
      rewrite !checks_called_app, Hm. cbn. exists more. reflexivity.
    + rewrite !execute_checks_loop_failed with (1 := Hc).
      cbv zeta. cbn [outcome events fst snd].
      destruct (IH matched env') as [Ho [more Hm]]. split; [exact Ho|].
      rewrite !checks_called_app, Hm. cbn. exists more. reflexivity.
Qed.

(** X1. The flag [all_checks] never changes the answer of [execute_checks]:
    for probes of any behaviour, on any system, both settings return the same
    value, and the probes invoked without the flag, with their results, are
    the first of those invoked with it. *)
Theorem all_checks_same_answer (checks : list (Activity Env))
    (logger : Logger) (env : Env) :
  let every := execute_checks checks true logger env in
  let first := execute_checks checks false logger env in
  outcome every = outcome first /\
  exists more,
    checks_called (events every) = checks_called (events first) ++ more.
Proof. apply all_checks_loop. Qed.

(** The earlier of two optional instants. *)
Lemma earlier_step timestamp a b r :
  wakeup_step timestamp (earlier a b) r
  = earlier a (wakeup_step timestamp b r).
Proof.
  destruct r as [[this_at|]|]; cbn; try reflexivity.
  destruct (this_at <=? timestamp); [reflexivity|].
  destruct a as [x|], b as [y|]; cbn; f_equal; lia.
Qed.

Lemma execute_wakeups_loop_turn (wakeup : Wakeup Env) rest timestamp logger
    wakeup_at env r env' :
  wakeup_check wakeup timestamp env = (r, env') ->
  execute_wakeups_loop (wakeup :: rest) timestamp logger wakeup_at env =
  let r' := execute_wakeups_loop rest timestamp logger
              (wakeup_step timestamp wakeup_at r) env' in
  (outcome r', store r',
   WakeupCalled (wakeup_name wakeup) timestamp r
   :: wakeup_logs logger (wakeup_name wakeup) timestamp r ++ events r').
Proof.
  intros H.
  cbn [execute_wakeups_loop].
  unfold bind, try_except, call_wakeup, log, emit, ret, outcome, store, events,
    wakeup_logs.
  rewrite H.
  destruct r as [[this_at|]|]; cbn.
  - destruct (this_at <=? timestamp) eqn:Hle; cbn.
    + destruct (execute_wakeups_loop rest timestamp logger wakeup_at env')
        as [[o s] l]. reflexivity.
    + destruct wakeup_at as [current|]; cbn;
        match goal with
        | |- context [execute_wakeups_loop rest timestamp logger ?a env'] =>
            destruct (execute_wakeups_loop rest timestamp logger a env')
              as [[o s] l]
        end; reflexivity.
  - destruct (execute_wakeups_loop rest timestamp logger wakeup_at env')
      as [[o s] l]. reflexivity.
  - destruct (execute_wakeups_loop rest timestamp logger wakeup_at env')
      as [[o s] l]. reflexivity.
Qed.

Lemma execute_wakeups_loop_from (wakeups : list (Wakeup Env)) timestamp
    logger :
  forall wakeup_at env,
    let r := execute_wakeups_loop wakeups timestamp logger wakeup_at env in
    let r0 := execute_wakeups_loop wakeups timestamp logger None env in
    store r = store r0 /\ events r = events r0 /\
    exists b, outcome r0 = Returned b /\
              outcome r = Returned (earlier wakeup_at b).
Proof.
  induction wakeups as [|wakeup rest IH]; intros wakeup_at env; cbv zeta.
  - cbn. split; [reflexivity|]. split; [reflexivity|].
    exists None. split; [reflexivity|].
    destruct wakeup_at; reflexivity.
  - destruct (wakeup_check wakeup timestamp env) as [r env'] eqn:Hc.
    rewrite !execute_wakeups_loop_turn with (1 := Hc).
    cbv zeta. cbn [outcome store events fst snd].
    destruct (IH (wakeup_step timestamp wakeup_at r) env')
      as (Hs & He & b & Hb & Ho).
    destruct (IH (wakeup_step timestamp None r) env')
      as (Hs0 & He0 & b0 & Hb0 & Ho0).
    rewrite Hb in Hb0. injection Hb0 as <-.
    rewrite Hs, He, Hs0, He0.
    split; [reflexivity|]. split; [reflexivity|].
    exists (earlier (wakeup_step timestamp None r) b).
    split; [exact Ho0|]. rewrite Ho.
    replace wakeup_at with (earlier wakeup_at None) at 1
      by (destruct wakeup_at; reflexivity).
    rewrite earlier_step.
    destruct wakeup_at as [x|], (wakeup_step timestamp None r) as [y|],
      b as [z|]; cbn; try reflexivity; do 2 f_equal; lia.
Qed.

Lemma execute_wakeups_loop_app (l1 l2 : list (Wakeup Env)) timestamp logger :
  forall wakeup_at env,
    execute_wakeups_loop (l1 ++ l2) timestamp logger wakeup_at env =
    bind (execute_wakeups_loop l1 timestamp logger wakeup_at)
      (fun a => execute_wakeups_loop l2 timestamp logger a) env.
Proof.
  induction l1 as [|wakeup rest IH]; intros wakeup_at env.
  - cbn [app execute_wakeups_loop]. unfold bind, ret.
    destruct (execute_wakeups_loop l2 timestamp logger wakeup_at env)
      as [[o s] l]. reflexivity.
  - cbn [app execute_wakeups_loop].
    rewrite bind_assoc. apply bind_ext. intros a s'. apply IH.
Qed.

(** X2. [execute_wakeups] composes over concatenation: running the probes of
    [l1 ++ l2] is running those of [l1] and then, on the system they leave,
    those of [l2]; the traces follow each other and the result is the earlier
    of the two results.  So when [l1] alone asks for a wake-up, adding probes
    can only bring it forward. *)
Theorem execute_wakeups_app (l1 l2 : list (Wakeup Env)) (timestamp : Z)
    (logger : Logger) (env : Env) :
  let r1 := execute_wakeups l1 timestamp logger env in
  let r2 := execute_wakeups l2 timestamp logger (store r1) in
  let r := execute_wakeups (l1 ++ l2) timestamp logger env in
  store r = store r2 /\
  events r = events r1 ++ events r2 /\
  (exists a b,
     outcome r1 = Returned a /\ outcome r2 = Returned b /\
     outcome r = Returned (earlier a b)) /\
  forall m,
    outcome r1 = Returned (Some m) ->
    exists m', outcome r = Returned (Some m') /\ m' <= m.
Proof.
  cbv zeta. unfold execute_wakeups.
  rewrite execute_wakeups_loop_app. unfold bind.
  destruct (execute_wakeups_loop_spec l1 timestamp logger None env []
              eq_refl) as [(a & Ha & _) _].
  destruct (execute_wakeups_loop l1 timestamp logger None env)
    as [[o1 s1] ev1] eqn:E1.
  cbn [outcome store events fst snd] in *. subst o1.
  destruct (execute_wakeups_loop_from l2 timestamp logger a s1)
    as (Hs & He & b & Hb & Ho).
  destruct (execute_wakeups_loop l2 timestamp logger a s1)
    as [[o s] ev] eqn:E.
  cbn [outcome store events fst snd] in *. subst o.
  split; [exact Hs|]. split; [rewrite He; reflexivity|]. split.
  - exists a, b. auto.
  - intros m Hm. injection Hm as ->.
    destruct b as [y|]; cbn; eexists; split; try reflexivity; lia.
Qed.

Lemma matched_in_app l1 l2 :
  matched_in (l1 ++ l2) = matched_in l1 || matched_in l2.
Proof. apply existsb_app. Qed.

Lemma execute_checks_loop_app (l1 l2 : list (Activity Env)) all_checks
    logger :
  forall matched env,
    let r1 := execute_checks_loop l1 all_checks logger matched env in
    let seen := matched_in (checks_called (events r1)) in
    execute_checks_loop (l1 ++ l2) all_checks logger matched env =
    if negb all_checks && seen then r1
    else
      let r2 := execute_checks_loop l2 all_checks logger (matched || seen)
                  (store r1) in
      (outcome r2, store r2, events r1 ++ events r2).
Proof.
  induction l1 as [|check rest IH]; intros matched env; cbv zeta.
  - cbn. rewrite andb_false_r, orb_false_r.
    destruct (execute_checks_loop l2 all_checks logger matched env)
      as [[o s] l]. reflexivity.
  - cbn [app].
    destruct (activity_check check env) as [[[reason|]|] env'] eqn:Hc.
    + rewrite !execute_checks_loop_match with (1 := Hc).
      destruct all_checks; [|reflexivity].
      cbv zeta. cbn [negb andb outcome store events fst snd].
      specialize (IH true env'). cbv zeta in IH. cbn [negb andb orb] in IH.
      rewrite IH. cbn [outcome store events fst snd].
      rewrite checks_called_app, matched_in_app. cbn [checks_called].
      cbn. rewrite orb_true_r. reflexivity.
    + rewrite !execute_checks_loop_quiet with (1 := Hc).
      cbv zeta. cbn [outcome store events fst snd].
      rewrite checks_called_app, matched_in_app. cbn.
      specialize (IH matched env'). cbv zeta in IH. rewrite IH.
      destruct (negb all_checks &&
                matched_in
                  (checks_called
                     (events
                        (execute_checks_loop rest all_checks logger matched
                           env')))); reflexivity.
    + rewrite !execute_checks_loop_failed with (1 := Hc).
      cbv zeta. cbn [outcome store events fst snd].
      rewrite checks_called_app, matched_in_app. cbn.
      specialize (IH matched env'). cbv zeta in IH. rewrite IH.
      destruct (negb all_checks &&
                matched_in
                  (checks_called
                     (events
                        (execute_checks_loop rest all_checks logger matched
                           env')))); reflexivity.
Qed.

Lemma execute_checks_loop_from (checks : list (Activity Env)) all_checks
    logger :
  forall matched env,
    let r := execute_checks_loop checks all_checks logger matched env in
    let r0 := execute_checks_loop checks all_checks logger false env in
    store r = store r0 /\ events r = events r0.
Proof.
  induction checks as [|check rest IH]; intros matched env; cbv zeta.
  - split; reflexivity.
  - destruct (activity_check check env) as [[[reason|]|] env'] eqn:Hc.
    + rewrite !execute_checks_loop_match with (1 := Hc).
      destruct all_checks; split; reflexivity.
    + rewrite !execute_checks_loop_quiet with (1 := Hc).
      cbv zeta. cbn [outcome store events fst snd].
      destruct (IH matched env') as [-> ->]. split; reflexivity.
    + rewrite !execute_checks_loop_failed with (1 := Hc).
      cbv zeta. cbn [outcome store events fst snd].
      destruct (IH matched env') as [-> ->]. split; reflexivity.
Qed.

(** X3. [execute_checks] composes over concatenation, with its short cut.
    When the probes of [l1] report activity and [all_checks] is off, running
    [l1 ++ l2] is running [l1]: the same result, system and trace, no probe
    of [l2] being invoked.  Otherwise it is running [l1] and then, on the
    system they leave, [l2]: the traces follow each other and the result is
    the disjunction of the two results.  Either way, adding probes never
    turns an active system into an inactive one. *)
Theorem execute_checks_app (l1 l2 : list (Activity Env)) (all_checks : bool)
    (logger : Logger) (env : Env) :
  let r1 := execute_checks l1 all_checks logger env in
  let r2 := execute_checks l2 all_checks logger (store r1) in
  let r := execute_checks (l1 ++ l2) all_checks logger env in
  exists a b,
    outcome r1 = Returned a /\ outcome r2 = Returned b /\
    (if negb all_checks && a then r = r1
     else store r = store r2 /\ events r = events r1 ++ events r2 /\
          outcome r = Returned (a || b)) /\
    (a = true -> outcome r = Returned true).
Proof.
  cbv zeta. unfold execute_checks.
  rewrite execute_checks_loop_app. cbv zeta.
  destruct (execute_checks_loop_spec l1 all_checks logger false env)
    as [Ha _].
  set (r1 := execute_checks_loop l1 all_checks logger false env) in *.
  set (a := matched_in (checks_called (events r1))) in *.
  cbn [orb] in Ha |- *.
  destruct (execute_checks_loop_spec l2 all_checks logger false (store r1))
    as [Hb _].
  destruct (execute_checks_loop_spec l2 all_checks logger a (store r1))
    as [Hab _].
  destruct (execute_checks_loop_from l2 all_checks logger a (store r1))
    as [Hs He].
  cbn [orb] in Hb.
  exists a. eexists. split; [exact Ha|]. split; [exact Hb|].
  destruct (negb all_checks && a) eqn:Hcut.
  - split; [reflexivity|]. intros E. rewrite Ha, E. reflexivity.
  - cbn [outcome store events fst snd].
    rewrite Hs, He. repeat split.
    + rewrite Hab, He. reflexivity.
    + intros ->. rewrite Hab. reflexivity.
Qed.


(** * Further properties of the processor [main] builds *)

Lemma command_trace_no_probe announce failure command code :
  filter is_probe_call (command_trace announce failure command code) = [].
Proof. unfold command_trace. destruct (code =? 0); reflexivity. Qed.

Lemma main_suspending_no_probe (config : Config) checks wakeups all_checks
    wakeup_at env :
  filter is_probe_call
    (events (suspending
               (main_processor run_shell format_command config checks
                  wakeups all_checks) wakeup_at env)) = [].
Proof.
  unfold suspending. cbn [_sleep_fn main_processor events snd].
  destruct (notify_and_suspend_eq config wakeup_at env) as (-> & _).
  cbn [events snd]. rewrite notify_suspend_eq.
  destruct (notification format_command config wakeup_at) as [command|].
  - rewrite safe_exec_eq. cbn [events snd app filter is_probe_call].
    rewrite !filter_app, !command_trace_no_probe. reflexivity.
  - cbn [events snd app filter is_probe_call].
    rewrite command_trace_no_probe. reflexivity.
Qed.

Lemma main_decide_no_probe (config : Config) checks wakeups all_checks
    timestamp just_woke_up active wakeup_at (s : Store Env) :
  filter is_probe_call
    (events (decide
               (main_processor run_shell format_command config checks
                  wakeups all_checks)
               timestamp just_woke_up active wakeup_at s)) = [].
Proof.
  set (self := main_processor run_shell format_command config checks wakeups
                 all_checks).
  assert (Hanch : forall l,
            filter is_probe_call l = [] ->
            filter is_probe_call (anchoring timestamp s ++ l) = []).
  { intros l Hl. rewrite filter_app, Hl. unfold anchoring.
    destruct (_idle_since s); reflexivity. }
  destruct just_woke_up; [reflexivity|]. destruct active; [reflexivity|].
  destruct (Z_lt_le_dec (_idle_time self) (timestamp - anchor timestamp s))
    as [Hlt|Hle].
  - destruct wakeup_at as [at_|].
    + destruct (Z_lt_le_dec (at_ - timestamp) (_min_sleep_time self))
        as [Hmin|Hmin].
      * rewrite decide_too_close by assumption. apply Hanch. reflexivity.
      * rewrite decide_suspend_wakeup by assumption. cbv zeta.
        cbn [_wakeup_fn self main_processor].
        rewrite schedule_wakeup_eq. cbn [outcome store events fst snd].
        rewrite <- app_assoc. apply Hanch.
        cbn [idle_logs app filter is_probe_call].
        rewrite !filter_app, command_trace_no_probe.
        apply main_suspending_no_probe.
    + rewrite decide_suspend_plain by assumption. cbv zeta.
      cbn [events snd]. apply Hanch.
      cbn [idle_logs app filter is_probe_call].
      apply main_suspending_no_probe.
  - rewrite decide_wait by assumption. apply Hanch. reflexivity.
Qed.

Lemma no_probe_calls (l : list Event) :
  filter is_probe_call l = [] ->
  checks_called l = [] /\ wakeups_called l = [].
Proof.
  induction l as [|e l IH]; [split; reflexivity|].
  destruct e; cbn; try discriminate; exact IH.
Qed.

(** X7. Every tick polls the probes once.  Whatever the flag, the state and
    the decision, an iteration of the processor [main] builds invokes the
    activity probes exactly as its call of [execute_checks] does, in order
    and each at most once, and every wake probe exactly once, in order, with
    the instant of the tick; nothing after the aggregation invokes a
    probe. *)
Theorem probes_polled_once (config : Config) (checks : list (Activity Env))
    (wakeups : list (Wakeup Env)) (all_checks : bool) (timestamp : Z)
    (just_woke_up : bool) (s : Store Env) :
  let self :=
    main_processor run_shell format_command config checks wakeups
      all_checks in
  let r := iteration self timestamp just_woke_up s in
  checks_called (events r) = checks_called (events (activity_phase self s)) /\
  wakeups_called (events r)
  = wakeups_called (events (wakeup_phase self timestamp s)) /\
  (exists k,
     map fst (checks_called (events r))
     = firstn k (map (@activity_name Env) checks)) /\
  map fst (wakeups_called (events r))
  = map (fun w => (wakeup_name w, timestamp)) wakeups.
Proof.
  cbv zeta.
  set (self := main_processor run_shell format_command config checks wakeups
                 all_checks).
  destruct (activity_phase_returns self s) as [active Ha].
  destruct (wakeup_phase_returns self timestamp s) as [wakeup_at Hw].
  rewrite (iteration_phases self timestamp just_woke_up s active wakeup_at
             Ha Hw). cbv zeta. cbn [events snd].
  destruct (no_probe_calls _
              (main_decide_no_probe config checks wakeups all_checks
                 timestamp just_woke_up active (adjusted self wakeup_at)
                 (probed self timestamp s))) as [Hdc Hdw].
  fold self in Hdc, Hdw.
  assert (Hc : checks_called
                 (Log processor_logger INFO "Starting new check iteration" []
                  :: events (activity_phase self s)
                  ++ Log processor_logger DEBUG
                       "All activity checks have been executed. Active: %s"
                       [ABool active]
                  :: events (wakeup_phase self timestamp s)
                  ++ Log processor_logger DEBUG
                       "Checks report, system should wake up at %s"
                       [ATime wakeup_at]
                  :: Log processor_logger DEBUG
                       "With delta, system should wake up at %s"
                       [ATime (adjusted self wakeup_at)]
                  :: events (decide self timestamp just_woke_up active
                               (adjusted self wakeup_at)
                               (probed self timestamp s)))
               = checks_called (events (activity_phase self s))).
  { cbn [checks_called]. rewrite checks_called_app. cbn [checks_called].
    rewrite checks_called_app. cbn [checks_called]. rewrite Hdc.
    unfold wakeup_phase, execute_wakeups.
    rewrite (execute_wakeups_loop_no_checks (_wakeups self) timestamp
               processor_logger None (store (activity_phase self s))).
    rewrite app_nil_r. reflexivity. }
  assert (Hwk : wakeups_called
                 (Log processor_logger INFO "Starting new check iteration" []
                  :: events (activity_phase self s)
                  ++ Log processor_logger DEBUG
                       "All activity checks have been executed. Active: %s"
                       [ABool active]
                  :: events (wakeup_phase self timestamp s)
                  ++ Log processor_logger DEBUG
                       "Checks report, system should wake up at %s"
                       [ATime wakeup_at]
                  :: Log processor_logger DEBUG
                       "With delta, system should wake up at %s"
                       [ATime (adjusted self wakeup_at)]
                  :: events (decide self timestamp just_woke_up active
                               (adjusted self wakeup_at)
                               (probed self timestamp s)))
               = wakeups_called (events (wakeup_phase self timestamp s))).
  { cbn [wakeups_called]. rewrite wakeups_called_app.
    unfold activity_phase at 1, execute_checks.
    rewrite execute_checks_loop_no_wakeups. cbn [app wakeups_called].
    rewrite wakeups_called_app. cbn [wakeups_called]. rewrite Hdw.
    rewrite app_nil_r. reflexivity. }
  rewrite Hc, Hwk. split; [reflexivity|]. split; [reflexivity|]. split.
  - unfold activity_phase, execute_checks.
    apply (execute_checks_loop_spec (_activities self)
             (_all_activities self) processor_logger false (system s)).
  - unfold wakeup_phase, execute_wakeups.
    apply (execute_wakeups_loop_spec (_wakeups self) timestamp
             processor_logger None _ [] eq_refl).
Qed.


(** * The polling loop *)

Section LoopProperties.

Variable limits : Limits.
Variable now : Env -> Z * Env.
Variable isfile : string -> Env -> bool.
Variable remove : string -> Env -> Env.
Variable sleep : Z -> Env -> Env.

Lemma loop_body_eq (self : Processor Env) (interval : Z)
    (woke_up_file : string) (s : Store Env) :
  let found := isfile woke_up_file (system s) in
  let env0 :=
    if found then remove woke_up_file (system s) else system s in
  let it :=
    Partial.iteration limits self (fst (now env0)) found
      {| _idle_since := _idle_since s; system := snd (now env0) |} in
  loop_body limits now isfile remove sleep self interval woke_up_file s =
  match outcome it with
  | Returned _ =>
      if interval <? 0
      then (Raised sleep_ValueError, store it, events it)
      else
        (Returned tt,
         {| _idle_since := _idle_since (store it);
            system := sleep interval (system (store it)) |},
         events it)
  | Raised e => (Raised e, store it, events it)
  end.
Proof.
  cbv zeta. unfold loop_body, bind, lift, os_isfile, os_remove, os_now,
    time_sleep, ret, raise, outcome, store, events.
  cbn [system _idle_since].
  destruct (isfile woke_up_file (system s)); cbn [system _idle_since];
    match goal with
    | |- context [now ?e] => destruct (now e) as [t env1]
    end; cbn [fst snd];
    match goal with
    | |- context [Partial.iteration limits self ?tm ?b ?st] =>
        destruct (Partial.iteration limits self tm b st)
          as [[[[]|e] [idle env2]] l]
    end; cbn [fst snd]; try reflexivity;
    destruct (interval <? 0); cbn; rewrite ?app_nil_r; reflexivity.
Qed.

(** X10. One poll of [loop].  The marker file is looked for first and
    removed if found; the instant is read after that; the iteration runs at
    that instant, with the flag telling whether the marker was found, on the
    system so left, and its trace is the trace of the poll.  The sleep
    follows an iteration that returns, and only such a one: an iteration that
    raises ends the poll with its exception, and after an iteration that
    returns a negative interval ends it with the [ValueError] of
    [time.sleep], the state being as the iteration left it.  A poll that
    finds the marker hands no action out. *)
Theorem loop_body_is_iteration (self : Processor Env) (interval : Z)
    (woke_up_file : string) (s : Store Env) :
  let found := isfile woke_up_file (system s) in
  let env0 :=
    if found then remove woke_up_file (system s) else system s in
  let it :=
    Partial.iteration limits self (fst (now env0)) found
      {| _idle_since := _idle_since s; system := snd (now env0) |} in
  let r :=
    loop_body limits now isfile remove sleep self interval woke_up_file s in
  events r = events it /\
  _idle_since (store r) = _idle_since (store it) /\
  (outcome it = Returned tt -> 0 <= interval ->
   outcome r = Returned tt /\
   system (store r) = sleep interval (system (store it))) /\
  (outcome it = Returned tt -> interval < 0 ->
   outcome r = Raised sleep_ValueError /\ store r = store it) /\
  (forall e,
     outcome it = Raised e -> outcome r = Raised e /\ store r = store it) /\
  (found = true -> actions (events r) = []).
Proof.
  cbv zeta. rewrite loop_body_eq. cbv zeta.
  set (it := Partial.iteration limits self _ _ _).
  split; [|split; [|split; [|split; [|split]]]].
  - destruct (outcome it); [destruct (interval <? 0)|]; reflexivity.
  - destruct (outcome it); [destruct (interval <? 0)|]; reflexivity.
  - intros -> Hi.
    replace (interval <? 0) with false by (symmetry; apply Z.ltb_ge; lia).
    split; reflexivity.
  - intros -> Hi.
    replace (interval <? 0) with true by (symmetry; apply Z.ltb_lt; lia).
    split; reflexivity.
  - intros e ->. split; reflexivity.
  - intros Hfound.
    assert (Ha : actions (events it) = []).
    { unfold it. rewrite Hfound.
      match goal with
      | |- context [Partial.iteration limits self ?t true ?st] =>
          destruct (wakeup_phase_returns self t st) as [raw Hw];
          destruct (partial_adjust_cases limits self raw) as [Hadj|Hadj];
          [rewrite (partial_iteration_computed limits self t true st raw _
                      Hw Hadj);
           apply reset_on_wake_state
          |destruct (partial_iteration_overflow limits self t true st raw _
                       Hw Hadj) as (_ & _ & Hf);
           apply Hf; exact no_action_in_probes]
      end. }
    destruct (outcome it); [destruct (interval <? 0)|]; exact Ha.
Qed.

Lemma loop_while_unbounded (self : Processor Env) (interval : Z)
    (woke_up_file : string) (start_time : Z) :
  forall fuel s,
    outcome (loop_while limits now isfile remove sleep fuel self interval
               None woke_up_file start_time s) <> Returned (Some tt).
Proof.
  induction fuel as [|fuel IH]; intros s; [discriminate|].
  cbn [loop_while]. unfold bind at 1. unfold ret at 1.
  unfold bind.
  destruct (loop_body limits now isfile remove sleep self interval
              woke_up_file s) as [[[[]|e] s1] l1]; [|discriminate].
  specialize (IH s1).
  destruct (loop_while limits now isfile remove sleep fuel self interval
              None woke_up_file start_time s1) as [[o s2] l2].
  exact IH.
Qed.

(** X11. Without [run_for] the loop does not return: however many polls it
    is given, it is either still running after them or has been ended by an
    exception. *)
Theorem unbounded_loop_never_returns (fuel : nat) (self : Processor Env)
    (interval : Z) (woke_up_file : string) (s : Store Env) :
  let r := loop limits now isfile remove sleep fuel self interval None
             woke_up_file s in
  outcome r <> Returned (Some tt) /\
  (outcome r = Returned None \/ exists e, outcome r = Raised e).
Proof.
  cbv zeta. unfold loop, bind, lift, os_now.
  destruct (now (system s)) as [t0 env0].
  pose proof (loop_while_unbounded self interval woke_up_file t0 fuel
                {| _idle_since := _idle_since s; system := env0 |}) as H.
  destruct (loop_while limits now isfile remove sleep fuel self interval
              None woke_up_file t0
              {| _idle_since := _idle_since s; system := env0 |})
    as [[[[[]|]|e] s1] l1]; cbn in *.
  - congruence.
  - split; [discriminate|]. left. reflexivity.
  - split; [discriminate|]. right. eauto.
Qed.

(** X12. With a [run_for] that is not positive and that can be added to the
    instant the loop starts at, and a clock that does not run backwards
    between two readings, the loop returns at once: no poll is made, nothing
    is emitted, the marker file is not looked for and [_idle_since] is left
    as it was. *)
Theorem loop_without_time (fuel : nat) (self : Processor Env) (interval : Z)
    (run_for : Z) (woke_up_file : string) (s : Store Env) :
  run_for <= 0 ->
  fst (now (system s)) <= fst (now (snd (now (system s)))) ->
  timedelta_min limits <= run_for <= timedelta_max limits ->
  datetime_min limits <= fst (now (system s)) + run_for
  <= datetime_max limits ->
  loop limits now isfile remove sleep (S fuel) self interval (Some run_for)
    woke_up_file s =
  (Returned (Some tt),
   {| _idle_since := _idle_since s;
      system := snd (now (snd (now (system s)))) |},
   []).
Proof.
  intros Hrun Hclock Htd Hdt.
  unfold loop. cbn [loop_while].
  unfold Partial.timedelta, Partial.datetime_add.
  unfold bind, lift, os_now, ret, raise.
  destruct (now (system s)) as [t0 env0]. cbn [system _idle_since fst snd] in *.
  destruct (now env0) as [t1 env1]. cbn [fst snd] in *.
  replace (timedelta_min limits <=? run_for) with true
    by (symmetry; apply Z.leb_le; lia).
  replace (run_for <=? timedelta_max limits) with true
    by (symmetry; apply Z.leb_le; lia).
  cbn.
  replace (datetime_min limits <=? t0 + run_for) with true
    by (symmetry; apply Z.leb_le; lia).
  replace (t0 + run_for <=? datetime_max limits) with true
    by (symmetry; apply Z.leb_le; lia).
  cbn.
  replace (t1 <? t0 + run_for) with false
    by (symmetry; apply Z.ltb_ge; lia).
  reflexivity.
Qed.

End LoopProperties.

End Properties.

(** * The start-up *)

Section SetUpProperties.

Variable Env : Type.
Variable Cfg : Type.
Variable sections : Cfg -> list string.
Variable has_option : Cfg -> string -> string -> bool.
Variable get : Cfg -> string -> string -> string.
Variable getboolean : Cfg -> string -> string -> bool -> option bool.
Variable items : Cfg -> string -> list (string * string).
Variable import_ : string -> string -> Imported Env Cfg.

Lemma string_app_assoc (a b c : string) :
  ((a ++ b) ++ c = a ++ b ++ c)%string.
Proof. induction a as [|x a IH]; [reflexivity|]. cbn. f_equal. exact IH. Qed.

Lemma startswith_drop (p : string) :
  forall s, startswith s p = true -> s = (p ++ drop (String.length p) s)%string.
Proof.
  induction p as [|c p IH]; intros s H; [reflexivity|].
  destruct s as [|d s]; [discriminate H|].
  cbn in H. apply andb_prop in H. destruct H as [Hc Hp].
  apply Ascii.eqb_eq in Hc. subst d. cbn. f_equal. apply IH. exact Hp.
Qed.

Lemma rsplit_dot_none_inv (s : string) :
  rsplit_dot s = None -> has_dot s = false.
Proof.
  induction s as [|c s IH]; [reflexivity|]. cbn.
  destruct (rsplit_dot s) as [[b a]|]; [discriminate|].
  destruct (Ascii.eqb c "."); [discriminate|]. intros _. auto.
Qed.

Lemma rsplit_dot_some (s : string) :
  forall before after,
    rsplit_dot s = Some (before, after) ->
    s = (before ++ "." ++ after)%string /\ has_dot after = false.
Proof.
  induction s as [|c s IH]; intros before after H; [discriminate H|].
  cbn in H. destruct (rsplit_dot s) as [[b a]|] eqn:E.
  - injection H as <- <-. destruct (IH b a eq_refl) as (-> & Ha).
    split; [reflexivity|exact Ha].
  - destruct (Ascii.eqb c ".") eqn:Hc; [|discriminate H].
    injection H as <- <-. apply Ascii.eqb_eq in Hc. subst c.
    split; [reflexivity|]. apply rsplit_dot_none_inv. exact E.
Qed.

(** X13. The module and the class a class name stands for.  A name with a dot
    is split at its last dot: the module is what stands before it, the class
    what stands after it, and the class has no dot.  A name without dot is a
    class of the internal module [autosuspend.checks.<internal_module>]. *)
Theorem resolve_splits_at_last_dot (class_name internal_module : string) :
  let module := fst (resolve class_name internal_module) in
  let class_ := snd (resolve class_name internal_module) in
  has_dot class_ = false /\
  (has_dot class_name = true ->
   class_name = (module ++ "." ++ class_)%string) /\
  (has_dot class_name = false ->
   module = ("autosuspend.checks." ++ internal_module)%string /\
   class_ = class_name).
Proof.
  cbv zeta. unfold resolve.
  destruct (has_dot class_name) eqn:Hd.
  - destruct (rsplit_dot class_name) as [[m c]|] eqn:E.
    + destruct (rsplit_dot_some class_name m c E) as (Hs & Hc).
      cbn [fst snd]. split; [exact Hc|]. split; [auto|discriminate].
    + apply rsplit_dot_none_inv in E. congruence.
  - cbn [fst snd]. split; [exact Hd|]. split; [discriminate|]. auto.
Qed.

Local Notation "'set_up_loop'" :=
  (set_up_checks_loop has_option get getboolean items import_).
Local Notation "'set_up'" :=
  (set_up_checks sections has_option get getboolean items import_).
Local Notation "'is_enabled'" := (enabled getboolean).
Local Notation "'class_of'" := (section_class has_option get).
Local Notation "'is_made_from'" := (made_from has_option get import_).

Lemma set_up_checks_loop_spec (config : Cfg) (prefix internal_module : string)
    (target_class : CheckClass) :
  forall check_section configured_checks,
    let r := set_up_loop config prefix internal_module target_class
               check_section configured_checks in
    (forall c n section,
       In (Create c n section) (snd r) ->
       In section check_section /\ is_enabled config section = true /\
       n = section_name prefix section /\
       c = snd (resolve (class_of config prefix section) internal_module)) /\
    (forall m c,
       In (Import m c) (snd r) ->
       exists section,
         In section check_section /\ is_enabled config section = true /\
         resolve (class_of config prefix section) internal_module = (m, c)) /\
    (forall checks,
       fst r = Ok checks ->
       exists new,
         checks = configured_checks ++ new /\
         Forall (fun check => isinstance check target_class = true) new /\
         Forall2 (is_made_from config prefix internal_module)
           (filter (is_enabled config) check_section) new /\
         Forall (fun section =>
                   getboolean config section "enabled" false <> None)
           check_section).
Proof.
  induction check_section as [|section rest IH]; intros acc; cbv zeta.
  - cbn. split; [intros c n s []|]. split; [intros m c []|].
    intros checks H. injection H as <-. exists [].
    rewrite app_nil_r. repeat split; constructor.
  - cbn [set_up_checks_loop].
    fold (section_name prefix section).
    fold (class_of config prefix section).
    destruct (getboolean config section "enabled" false) as [[|]|] eqn:Hen.
    + (* enabled *)
      cbn [wbind wret negb].
      destruct (resolve (class_of config prefix section) internal_module)
        as [m c] eqn:Hres.
      unfold wlog, wemit. cbn [wbind].
      assert (Hhere : is_enabled config section = true)
        by (unfold enabled; rewrite Hen; reflexivity).
      assert (Himp : forall m' c' (l : list (SetupEvent Env)),
                (forall m0 c0, In (Import m0 c0) l ->
                   exists s, In s rest /\ is_enabled config s = true /\
                     resolve (class_of config prefix s) internal_module
                     = (m0, c0)) ->
                In (Import m' c') (Import m c :: l) ->
                exists s, In s (section :: rest) /\
                  is_enabled config s = true /\
                  resolve (class_of config prefix s) internal_module
                  = (m', c')).
      { intros m' c' l Hl [H|H].
        - injection H as <- <-. exists section. cbn. auto.
        - destruct (Hl _ _ H) as (s & Hs & He & Hr). exists s. cbn. auto. }
      destruct (import_ m c) as [| |create] eqn:Hi; cbn [wbind wret wraise].
      * split; [intros c0 n s [H|[H|[]]]; discriminate H|].
        split; [|discriminate].
        intros m' c' [H|H]; [discriminate H|].
        apply (Himp m' c' []); [intros ? ? []|exact H].
      * split; [intros c0 n s [H|[H|[]]]; discriminate H|].
        split; [|discriminate].
        intros m' c' [H|H]; [discriminate H|].
        apply (Himp m' c' []); [intros ? ? []|exact H].
      * destruct (create (section_name prefix section) config section)
          as [check|e] eqn:Hcr; cbn [wbind wret wraise].
        2:{ split.
            - intros c0 n s [H|[H|[H|[]]]]; try discriminate H.
              injection H as <- <- <-. cbn. rewrite Hres. auto.
            - split; [|discriminate].
              intros m' c' [H|H]; [discriminate H|].
              apply (Himp m' c' [Create c (section_name prefix section)
                                   section]); [|exact H].
              intros ? ? [H0|[]]; discriminate H0. }
        destruct (isinstance check target_class) eqn:Hinst;
          cbn [negb wbind wret wraise].
        2:{ split.
            - intros c0 n s [H|[H|[H|[]]]]; try discriminate H.
              injection H as <- <- <-. cbn. rewrite Hres. auto.
            - split; [|discriminate].
              intros m' c' [H|H]; [discriminate H|].
              apply (Himp m' c' [Create c (section_name prefix section)
                                   section]); [|exact H].
              intros ? ? [H0|[]]; discriminate H0. }
        specialize (IH (acc ++ [check])). cbv zeta in IH.
        destruct (set_up_loop config prefix internal_module target_class
                    rest (acc ++ [check])) as [res evs].
        cbn [fst snd app] in IH |- *.
        destruct IH as (Hc & Hm & Hok).
        split; [|split].
        -- intros c0 n s [H|[H|[H|[H|H]]]]; try discriminate H.
           ++ injection H as <- <- <-. cbn. rewrite Hres. auto.
           ++ destruct (Hc _ _ _ H) as (? & ? & ? & ?). cbn. auto.
        -- intros m' c' [H|H]; [discriminate H|].
           apply (Himp m' c'
                    (Create c (section_name prefix section) section
                     :: SetupLog DEBUG
                          "Created check instance {} with options {}"
                          [SCheck check; SOptions check] :: evs));
             [|exact H].
           intros m0 c0 [H0|[H0|H0]]; try discriminate H0.
           apply Hm. exact H0.
        -- intros checks Hr. destruct (Hok checks Hr)
             as (new & -> & Hinst' & Hmade & Hbool).
           exists (check :: new). rewrite <- app_assoc.
           split; [reflexivity|]. split; [constructor; assumption|].
           cbn [filter]. rewrite Hhere. split.
           ++ constructor; [|exact Hmade].
              exists create. rewrite Hres. cbn [fst snd]. auto.
           ++ constructor; [congruence|exact Hbool].
    + (* disabled *)
      cbn [wbind wret negb]. unfold wlog, wemit. cbn [wbind].
      specialize (IH acc). cbv zeta in IH.
      destruct (set_up_loop config prefix internal_module target_class rest
                  acc) as [res evs].
      cbn [fst snd app] in IH |- *.
      destruct IH as (Hc & Hm & Hok).
      assert (Hhere : is_enabled config section = false)
        by (unfold enabled; rewrite Hen; reflexivity).
      split; [|split].
      * intros c0 n s [H|H]; [discriminate H|].
        destruct (Hc _ _ _ H) as (? & ? & ? & ?). cbn. auto.
      * intros m' c' [H|H]; [discriminate H|].
        destruct (Hm _ _ H) as (s & ? & ? & ?). exists s. cbn. auto.
      * intros checks Hr. destruct (Hok checks Hr)
          as (new & -> & Hinst' & Hmade & Hbool).
        exists new. split; [reflexivity|]. split; [assumption|].
        cbn [filter]. rewrite Hhere. split; [exact Hmade|].
        constructor; [congruence|exact Hbool].
    + (* [enabled] is no boolean *)
      cbn [wbind wraise]. split; [intros c n s []|].
      split; [intros m c []|discriminate].
Qed.

Lemma set_up_checks_loop_created (config : Cfg)
    (prefix internal_module : string) (target_class : CheckClass) :
  forall check_section configured_checks,
    let r := set_up_loop config prefix internal_module target_class
               check_section configured_checks in
    forall c n section,
      In (Create c n section) (snd r) ->
      In (Import
            (fst (resolve (class_of config prefix section) internal_module))
            c) (snd r).
Proof.
  induction check_section as [|section rest IH]; intros acc; cbv zeta;
    [intros c n s []|].
  cbn [set_up_checks_loop].
  fold (section_name prefix section).
  fold (class_of config prefix section).
  destruct (getboolean config section "enabled" false) as [[|]|] eqn:Hen.
  - cbn [wbind wret negb].
    destruct (resolve (class_of config prefix section) internal_module)
      as [m c] eqn:Hres.
    unfold wlog, wemit. cbn [wbind].
    destruct (import_ m c) as [| |create] eqn:Hi; cbn [wbind wret wraise];
      try (intros c0 n s [H|[H|[]]]; discriminate H).
    destruct (create (section_name prefix section) config section)
      as [check|e] eqn:Hcr; cbn [wbind wret wraise].
    2:{ intros c0 n s [H|[H|[H|[]]]]; try discriminate H.
        injection H as <- <- <-. rewrite Hres. cbn. auto. }
    destruct (isinstance check target_class) eqn:Hinst;
      cbn [negb wbind wret wraise].
    2:{ intros c0 n s [H|[H|[H|[]]]]; try discriminate H.
        injection H as <- <- <-. rewrite Hres. cbn. auto. }
    specialize (IH (acc ++ [check])). cbv zeta in IH.
    destruct (set_up_loop config prefix internal_module target_class rest
                (acc ++ [check])) as [res evs].
    cbn [fst snd app] in IH |- *.
    intros c0 n s [H|[H|[H|[H|H]]]]; try discriminate H.
    + injection H as <- <- <-. rewrite Hres. cbn. auto.
    + do 4 right. apply (IH _ _ _ H).
  - cbn [wbind wret negb]. unfold wlog, wemit. cbn [wbind].
    specialize (IH acc). cbv zeta in IH.
    destruct (set_up_loop config prefix internal_module target_class rest
                acc) as [res evs].
    cbn [fst snd app] in IH |- *.
    intros c0 n s [H|H]; [discriminate H|]. right. apply (IH _ _ _ H).
  - cbn [wbind wraise]. intros c n s [].
Qed.

Lemma set_up_checks_loop_ordered (config : Cfg)
    (prefix internal_module : string) (target_class : CheckClass) :
  forall check_section configured_checks,
    let r := set_up_loop config prefix internal_module target_class
               check_section configured_checks in
    forall before c n section after,
      snd r = before ++ Create c n section :: after ->
      exists earlier,
        before =
        earlier
        ++ [Import
              (fst (resolve (class_of config prefix section)
                      internal_module))
              c].
Proof.
  induction check_section as [|section rest IH]; intros acc; cbv zeta.
  { intros before c n s after H. destruct before; discriminate H. }
  cbn [set_up_checks_loop].
  fold (section_name prefix section).
  fold (class_of config prefix section).
  destruct (getboolean config section "enabled" false) as [[|]|] eqn:Hen.
  - cbn [wbind wret negb].
    destruct (resolve (class_of config prefix section) internal_module)
      as [m c] eqn:Hres.
    unfold wlog, wemit. cbn [wbind].
    destruct (import_ m c) as [| |create] eqn:Hi; cbn [wbind wret wraise];
      try (intros before c0 n s after H;
           destruct before as [|b1 [|b2 [|b3 before]]];
           discriminate H).
    destruct (create (section_name prefix section) config section)
      as [check|e] eqn:Hcr; cbn [wbind wret wraise].
    2:{ intros before c0 n s after H.
        destruct before as [|b1 [|b2 [|b3 [|b4 before]]]];
          try discriminate H.
        injection H as E1 E2 E3 E4 E5 _. subst.
        eexists [_]. rewrite Hres. reflexivity. }
    destruct (isinstance check target_class) eqn:Hinst;
      cbn [negb wbind wret wraise].
    2:{ intros before c0 n s after H.
        destruct before as [|b1 [|b2 [|b3 [|b4 before]]]];
          try discriminate H.
        injection H as E1 E2 E3 E4 E5 _. subst.
        eexists [_]. rewrite Hres. reflexivity. }
    specialize (IH (acc ++ [check])). cbv zeta in IH.
    destruct (set_up_loop config prefix internal_module target_class rest
                (acc ++ [check])) as [res evs].
    cbn [fst snd app] in IH |- *.
    intros before c0 n s after H.
    destruct before as [|b1 [|b2 [|b3 [|b4 before]]]];
      try discriminate H.
    + injection H as E1 E2 E3 E4 E5 _. subst.
      eexists [_]. rewrite Hres. reflexivity.
    + injection H as E1 E2 E3 E4 H. subst b1 b2 b3 b4.
      destruct (IH before c0 n s after H) as [earlier ->].
      eexists (_ :: _ :: _ :: _ :: earlier). reflexivity.
  - cbn [wbind wret negb]. unfold wlog, wemit. cbn [wbind].
    specialize (IH acc). cbv zeta in IH.
    destruct (set_up_loop config prefix internal_module target_class rest
                acc) as [res evs].
    cbn [fst snd app] in IH |- *.
    intros before c0 n s after H.
    destruct before as [|b1 before]; [discriminate H|].
    injection H as E1 H. subst b1.
    destruct (IH before c0 n s after H) as [earlier ->].
    eexists (_ :: earlier). reflexivity.
  - cbn [wbind wraise]. intros before c n s after H.
    destruct before; discriminate H.
Qed.

Lemma set_up_checks_loop_disabled (config : Cfg)
    (prefix internal_module : string) (target_class : CheckClass) :
  forall check_section configured_checks,
    (forall section,
       In section check_section ->
       getboolean config section "enabled" false = Some false) ->
    set_up_loop config prefix internal_module target_class check_section
      configured_checks
    = (Ok configured_checks, map (skipped prefix) check_section).
Proof.
  induction check_section as [|section rest IH]; intros acc H;
    [reflexivity|].
  cbn [set_up_checks_loop map]. rewrite (H section (or_introl eq_refl)).
  cbn [wbind wret negb]. unfold wlog, wemit. cbn [wbind].
  rewrite IH by (intros s Hs; apply H; right; exact Hs).
  reflexivity.
Qed.

Lemma check_sections_named (config : Cfg) (prefix section : string) :
  In section (check_sections sections config prefix) ->
  In section (sections config) /\
  section = (prefix ++ "." ++ section_name prefix section)%string.
Proof.
  unfold check_sections. intros H. apply filter_In in H.
  destruct H as [Hin Hp]. split; [exact Hin|].
  apply startswith_drop in Hp. unfold section_name.
  rewrite <- string_app_assoc. exact Hp.
Qed.

Lemma set_up_checks_instances (config : Cfg)
    (prefix internal_module : string) (target_class : CheckClass)
    (error_none : bool) (checks : list (Check Env)) :
  fst (set_up config prefix internal_module target_class error_none)
  = Ok checks ->
  fst (set_up_loop config prefix internal_module target_class
         (check_sections sections config prefix) []) = Ok checks /\
  Forall (fun check => isinstance check target_class = true) checks /\
  (error_none = true -> checks <> []).
Proof.
  unfold set_up_checks. fold (check_sections sections config prefix).
  destruct (set_up_checks_loop_spec config prefix internal_module
              target_class (check_sections sections config prefix) [])
    as (_ & _ & Hok).
  destruct (set_up_loop config prefix internal_module target_class
              (check_sections sections config prefix) [])
    as [[configured|e] evs]; cbn [wbind fst snd] in *; [|discriminate].
  intros H.
  assert (Hc : configured = checks /\ (error_none = true -> checks <> [])).
  { destruct configured as [|c cs].
    - destruct error_none; cbn in H; [discriminate H|].
      injection H as <-. split; [reflexivity|discriminate].
    - cbn in H. injection H as <-. split; [reflexivity|discriminate]. }
  destruct Hc as [-> Hne].
  destruct (Hok checks eq_refl) as (new & Hnew & Hinst & _).
  cbn [app] in Hnew. subst new. auto.
Qed.

(** X14. What [set_up_checks] returns.  When it returns, the checks are
    those the classes of the enabled sections with the prefix created, one a
    section, in the order of the configuration; each is an instance of the
    class asked for; each of those sections is named [prefix.name]; none has
    an [enabled] that is no boolean; and with [error_none] there is at least
    one check. *)
Theorem set_up_checks_returns (config : Cfg) (prefix internal_module : string)
    (target_class : CheckClass) (error_none : bool)
    (checks : list (Check Env)) :
  fst (set_up config prefix internal_module target_class error_none)
  = Ok checks ->
  Forall2 (is_made_from config prefix internal_module)
    (filter (is_enabled config) (check_sections sections config prefix))
    checks /\
  Forall (fun check => isinstance check target_class = true) checks /\
  Forall (fun section =>
            section = (prefix ++ "." ++ section_name prefix section)%string
            /\ getboolean config section "enabled" false <> None)
    (check_sections sections config prefix) /\
  (error_none = true -> checks <> []).
Proof.
  intros H.
  destruct (set_up_checks_instances config prefix internal_module
              target_class error_none checks H) as (Hloop & Hinst & Hne).
  destruct (set_up_checks_loop_spec config prefix internal_module
              target_class (check_sections sections config prefix) [])
    as (_ & _ & Hok).
  destruct (Hok checks Hloop) as (new & Hnew & _ & Hmade & Hbool).
  cbn [app] in Hnew. subst new.
  split; [exact Hmade|]. split; [exact Hinst|]. split; [|exact Hne].
  apply Forall_forall. intros section Hin. split.
  - apply (check_sections_named config prefix section Hin).
  - rewrite Forall_forall in Hbool. apply Hbool. exact Hin.
Qed.

(** X15. [set_up_checks] touches the enabled sections with the prefix only.
    However it ends, each class it looks up and each check it creates is that
    of a section of the configuration that is named [prefix.name] and whose
    [enabled] is true; the check is created under that [name], and right
    after its class was looked up: in the trace the creation comes
    immediately after that import.  A section without the prefix, a disabled
    one and one without [enabled] have no class looked up. *)
Theorem set_up_checks_enabled_only (config : Cfg)
    (prefix internal_module : string) (target_class : CheckClass)
    (error_none : bool) :
  let r := set_up config prefix internal_module target_class error_none in
  (forall import_module import_class,
     In (Import import_module import_class) (snd r) ->
     exists section,
       In section (sections config) /\
       section = (prefix ++ "." ++ section_name prefix section)%string /\
       getboolean config section "enabled" false = Some true /\
       resolve (class_of config prefix section) internal_module
       = (import_module, import_class)) /\
  (forall import_class name section,
     In (Create import_class name section) (snd r) ->
     In section (sections config) /\
     section = (prefix ++ "." ++ name)%string /\
     getboolean config section "enabled" false = Some true /\
     In (Import
           (fst (resolve (class_of config prefix section) internal_module))
           import_class)
        (snd r)) /\
  (forall before import_class name section after,
     snd r = before ++ Create import_class name section :: after ->
     exists earlier,
       before =
       earlier
       ++ [Import
             (fst (resolve (class_of config prefix section)
                     internal_module))
             import_class]).
Proof.
  cbv zeta. unfold set_up_checks.
  fold (check_sections sections config prefix).
  pose proof (set_up_checks_loop_spec config prefix internal_module
                target_class (check_sections sections config prefix) [])
    as Hspec.
  pose proof (set_up_checks_loop_created config prefix internal_module
                target_class (check_sections sections config prefix) [])
    as Hcreated.
  pose proof (set_up_checks_loop_ordered config prefix internal_module
                target_class (check_sections sections config prefix) [])
    as Hordered.
  cbv zeta in Hspec, Hcreated, Hordered.
  assert (Hsame : snd (wbind
                         (set_up_loop config prefix internal_module
                            target_class
                            (check_sections sections config prefix) [])
                         (fun configured_checks =>
                            match configured_checks with
                            | [] =>
                                if error_none
                                then wraise
                                       (ConfigurationError
                                          "No checks enabled" [])
                                else wret configured_checks
                            | _ :: _ => wret configured_checks
                            end))
                  = snd (set_up_loop config prefix internal_module
                           target_class
                           (check_sections sections config prefix) [])).
  { destruct (set_up_loop config prefix internal_module target_class
                (check_sections sections config prefix) [])
      as [[[|c cs]|e] evs]; cbn; [destruct error_none; cbn| |];
      rewrite ?app_nil_r; reflexivity. }
  rewrite Hsame. destruct Hspec as (Hc & Hm & _).
  assert (Hen : forall section,
            is_enabled config section = true ->
            getboolean config section "enabled" false = Some true).
  { unfold enabled. intros section.
    destruct (getboolean config section "enabled" false) as [[|]|];
      congruence. }
  split; [|split].
  - intros m c H. destruct (Hm m c H) as (section & Hin & He & Hr).
    exists section.
    destruct (check_sections_named config prefix section Hin) as [H1 H2].
    auto.
  - intros c n section H. destruct (Hc c n section H) as (Hin & He & -> & ->).
    destruct (check_sections_named config prefix section Hin) as [H1 H2].
    split; [exact H1|]. split; [exact H2|]. split; [auto|].
    apply (Hcreated _ _ _ H).
  - exact Hordered.
Qed.

(** X16. With nothing enabled there are no checks.  When every section with
    the prefix has an [enabled] that is false or missing (and so too when no
    section has the prefix), [set_up_checks] logs one record a section and
    looks no class up; it then returns the empty list, or, with
    [error_none], raises [ConfigurationError]. *)
Theorem set_up_checks_nothing_enabled (config : Cfg)
    (prefix internal_module : string) (target_class : CheckClass)
    (error_none : bool) :
  (forall section,
     In section (check_sections sections config prefix) ->
     getboolean config section "enabled" false = Some false) ->
  set_up config prefix internal_module target_class error_none =
  (if error_none
   then Fail (ConfigurationError "No checks enabled" [])
   else Ok [],
   map (skipped prefix) (check_sections sections config prefix)).
Proof.
  intros H. unfold set_up_checks.
  fold (check_sections sections config prefix).
  rewrite set_up_checks_loop_disabled by exact H.
  cbn [wbind]. destruct error_none; cbn; rewrite app_nil_r; reflexivity.
Qed.

End SetUpProperties.

Section MainProperties.

Variable Env : Type.
Variable run_shell : string -> Env -> Z * Env.
Variable format_command : string -> Z -> string.
Variable Cfg : Type.
Variable sections : Cfg -> list string.
Variable has_option : Cfg -> string -> string -> bool.
Variable get : Cfg -> string -> string -> string.
Variable getboolean : Cfg -> string -> string -> bool -> option bool.
Variable items : Cfg -> string -> list (string * string).
Variable import_ : string -> string -> Imported Env Cfg.
Variable getfloat : Cfg -> string -> string -> Z -> option Z.
Variable get_required : Cfg -> string -> string -> option string.
Variable get_or_none : Cfg -> string -> string -> option string.
Variable get_or : Cfg -> string -> string -> string -> string.

Local Notation "'set_up'" :=
  (set_up_checks sections has_option get getboolean items import_).
Local Notation "'start_up'" :=
  (main_setup run_shell format_command sections has_option get getboolean
     items import_ getfloat get_required get_or_none get_or).

Lemma activities_of_instances (checks : list (Check Env)) :
  Forall (fun check => isinstance check ActivityClass = true) checks ->
  map (@ActivityCheck Env) (activities_of checks) = checks.
Proof.
  induction 1 as [|check checks Hc _ IH]; [reflexivity|].
  destruct check; try discriminate Hc. cbn. rewrite IH. reflexivity.
Qed.

Lemma wakeups_of_instances (checks : list (Check Env)) :
  Forall (fun check => isinstance check WakeupClass = true) checks ->
  map (@WakeupCheck Env) (wakeups_of checks) = checks.
Proof.
  induction 1 as [|check checks Hc _ IH]; [reflexivity|].
  destruct check; try discriminate Hc. cbn. rewrite IH. reflexivity.
Qed.

(** X17. What the start-up of [main] guarantees to [loop].  When the
    start-up returns, the processor it built polls at least one activity
    probe; its activity probes and its wake probes are the checks
    [set_up_checks] returned for the sections [check.*] and [wakeup.*]; the
    options [suspend_cmd] and [wakeup_cmd] of [general] are both there, the
    latter even when no wake probe is configured, and its callbacks are
    [notify_and_suspend] and [schedule_wakeup] on them; and its numbers are
    those [getfloat] read. *)
Theorem main_setup_returns (all_checks : bool) (run_for : option Z)
    (config : Cfg) (daemon : Daemon Env) :
  fst (start_up all_checks run_for config) = Ok daemon ->
  exists checks wakeups idle min_sleep delta suspend wakeup,
    fst (set_up config "check" "activity" ActivityClass true) = Ok checks /\
    fst (set_up config "wakeup" "wakeup" WakeupClass false) = Ok wakeups /\
    map (@ActivityCheck Env) (_activities (daemon_processor daemon))
    = checks /\
    map (@WakeupCheck Env) (_wakeups (daemon_processor daemon)) = wakeups /\
    _activities (daemon_processor daemon) <> [] /\
    getfloat config "general" "idle_time" 300 = Some idle /\
    getfloat config "general" "min_sleep_time" 1200 = Some min_sleep /\
    getfloat config "general" "wakeup_delta" 30 = Some delta /\
    get_required config "general" "suspend_cmd" = Some suspend /\
    get_required config "general" "wakeup_cmd" = Some wakeup /\
    getfloat config "general" "interval" 60
    = Some (daemon_interval daemon) /\
    daemon_run_for daemon = run_for /\
    daemon_woke_up_file daemon
    = get_or config "general" "woke_up_file"
        "/var/run/autosuspend-just-woke-up" /\
    daemon_processor daemon =
    main_processor run_shell format_command
      {| idle_time := idle;
         min_sleep_time := min_sleep;
         wakeup_delta := delta;
         suspend_cmd := suspend;
         notify_cmd_wakeup :=
           get_or_none config "general" "notify_cmd_wakeup";
         notify_cmd_no_wakeup :=
           get_or_none config "general" "notify_cmd_no_wakeup";
         wakeup_cmd := wakeup |}
      (activities_of checks) (wakeups_of wakeups) all_checks.
Proof.
  unfold main_setup, config_getfloat, config_get.
  pose proof (set_up_checks_instances Env Cfg sections has_option get
                getboolean items import_ config "check" "activity"
                ActivityClass true) as Hchecks.
  pose proof (set_up_checks_instances Env Cfg sections has_option get
                getboolean items import_ config "wakeup" "wakeup"
                WakeupClass false) as Hwakeups.
  destruct (set_up config "check" "activity" ActivityClass true)
    as [[checks|e] evs1]; cbn [wbind fst]; [|discriminate].
  destruct (set_up config "wakeup" "wakeup" WakeupClass false)
    as [[wakeups|e] evs2]; cbn [wbind fst]; [|discriminate].
  destruct (getfloat config "general" "idle_time" 300) as [idle|];
    cbn [wbind wret wraise fst]; [|discriminate].
  destruct (getfloat config "general" "min_sleep_time" 1200)
    as [min_sleep|]; cbn [wbind wret wraise fst]; [|discriminate].
  destruct (getfloat config "general" "wakeup_delta" 30) as [delta|];
    cbn [wbind wret wraise fst]; [|discriminate].
  destruct (get_required config "general" "suspend_cmd") as [suspend|];
    cbn [wbind wret wraise fst]; [|discriminate].
  destruct (get_required config "general" "wakeup_cmd") as [wakeup|];
    cbn [wbind wret wraise fst]; [|discriminate].
  destruct (getfloat config "general" "interval" 60) as [interval|];
    cbn [wbind wret wraise fst]; [|discriminate].
  intros H. injection H as <-.
  destruct (Hchecks checks eq_refl) as (_ & Hinst & Hne).
  destruct (Hwakeups wakeups eq_refl) as (_ & Hinstw & _).
  exists checks, wakeups, idle, min_sleep, delta, suspend, wakeup.
  cbn [daemon_processor daemon_interval daemon_run_for daemon_woke_up_file
       _activities _wakeups main_processor fst].
  rewrite (activities_of_instances checks Hinst),
          (wakeups_of_instances wakeups Hinstw).
  repeat split; try reflexivity.
  intros Hnil. apply (Hne eq_refl).
  rewrite <- (activities_of_instances checks Hinst), Hnil. reflexivity.
Qed.

(** X18. Without an enabled activity check the start-up of [main] fails.
    When every section [check.*] has an [enabled] that is false or missing,
    the start-up ends with [ConfigurationError] whatever else is configured,
    so that [main] raises it before it builds a processor and calls [loop]:
    setting the checks up has logged one record for each of those sections
    and looked no class up, and neither the wake-up sections nor the options
    of [general] have been read. *)
Theorem main_needs_activity_check (all_checks : bool) (run_for : option Z)
    (config : Cfg) :
  (forall section,
     In section (check_sections sections config "check") ->
     getboolean config section "enabled" false = Some false) ->
  start_up all_checks run_for config =
  (Fail (ConfigurationError "No checks enabled" []),
   map (skipped "check") (check_sections sections config "check")).
Proof.
  intros H. unfold main_setup, set_up_checks.
  fold (check_sections sections config "check").
  rewrite (set_up_checks_loop_disabled Env Cfg has_option get getboolean
             items import_ config "check" "activity" ActivityClass
             (check_sections sections config "check") [] H).
  cbn [wbind wraise]. rewrite app_nil_r. reflexivity.
Qed.

End MainProperties.

(** * Concrete runs *)

Import Example.

(** C1 at work, two users being logged in: the broken probe fails, the next
    one matches, and the loop stops there; the answer is [True]. *)
Lemma execute_checks_is_or_witness :
  let checks := [broken; users; silent] in
  let r := execute_checks checks false processor_logger 2%nat in
  outcome r = Returned true /\
  checks_called (events r)
  = [("Broken", Transient); ("Users", Answer (Some "users logged in"))] /\
  store r = 2%nat.
Proof.
  cbv zeta.
  destruct (execute_checks_is_or System [broken; users; silent] false
              processor_logger 2%nat) as (Ho & _ & Hc & Hs & _).
  split; [exact Ho|]. split; [exact Hc|]. rewrite Hs, Hc. reflexivity.
Defined.

(** C2 at work: of a wake-up in an hour, a failure, no wake-up, one at the
    query instant and one in ten minutes, the last is the earliest. *)
Lemma execute_wakeups_is_min_witness :
  let wakeups :=
    [timer "a" 3600; broken_timer; no_timer; timer "b" 0; timer "c" 600] in
  let r := execute_wakeups wakeups 100 processor_logger 0%nat in
  outcome r = Returned (Some 700) /\
  wakeups_called (events r)
  = [("a", 100, Answer (Some 3700)); ("BrokenTimer", 100, Transient);
     ("None", 100, Answer None); ("b", 100, Answer (Some 100));
     ("c", 100, Answer (Some 700))] /\
  candidates 100 (wakeups_called (events r)) = [3700; 700] /\
  forall c,
    In c (candidates 100 (wakeups_called (events r))) -> 700 <= c.
Proof.
  cbv zeta.
  destruct (execute_wakeups_is_min System
              [timer "a" 3600; broken_timer; no_timer; timer "b" 0;
               timer "c" 600]
              100 processor_logger 0%nat)
    as (Hc & _ & _ & _ & result & Ho & _ & Hmin).
  assert (E : result = Some 700) by (vm_compute in Ho; congruence).
  subst result.
  split; [exact Ho|]. split; [exact Hc|]. rewrite Hc.
  split; [reflexivity|]. exact (proj2 (Hmin 700 eq_refl)).
Defined.


(** C4, the claim at a concrete tick: with an [idle_time] of [-1] the
    threshold is passed on the very tick that finds [_idle_since] at [None];
    the wake-up 500 after the tick, 470 once the delta is off, is closer than
    the 1200 of [min_sleep_time]; nothing is dispatched, and [_idle_since] is
    not left as it was: the tick sets it to its own instant. *)
Lemma guard_anchors_at_tick_example :
  let self :=
    partial_processor working_shell (-1) 1200 30 [users] [timer "a" 500] in
  let s := {| _idle_since := None; system := 0%nat |} in
  let r := Partial.iteration limits self 100 false s in
  outcome (activity_phase self s) = Returned false /\
  outcome (wakeup_phase self 100 s) = Returned (Some 600) /\
  Partial.adjust limits self (Some 600) = Returned (Some 570) /\
  _idle_time self < 100 - anchor 100 s /\
  570 - 100 < _min_sleep_time self /\
  outcome r = Returned tt /\
  actions (events r) = [] /\
  assignments (events r) = [SetIdleSince (Some 100)] /\
  _idle_since s = None /\
  _idle_since (store r) = Some 100 /\
  _idle_since (store r) <> _idle_since s.
Proof. repeat split; try reflexivity; discriminate. Qed.

(** C4 at work: a wake-up 500 after the tick, 470 once the delta is off, is
    closer than the 1200 of [min_sleep_time]. *)
Lemma minimum_sleep_guard_witness :
  let self :=
    partial_processor working_shell 300 1200 30 [users] [timer "a" 500] in
  let s := idle_store 0 in
  let r := Partial.iteration limits self 301 false s in
  (outcome (activity_phase self s) = Returned false /\
   outcome (wakeup_phase self 301 s) = Returned (Some 801) /\
   Partial.adjust limits self (Some 801) = Returned (Some 771) /\
   _idle_time self < 301 - anchor 301 s /\
   771 - 301 < _min_sleep_time self) /\
  outcome r = Returned tt /\
  actions (events r) = [] /\
  assignments (events r) = [] /\
  _idle_since (store r) = Some 0 /\
  forall later, anchor later (store r) = anchor 301 s.
Proof.
  cbv zeta. split.
  - repeat split; reflexivity.
  - destruct (minimum_sleep_guard System limits
                (partial_processor working_shell 300 1200 30 [users]
                   [timer "a" 500])
                301 (idle_store 0) 801 771 eq_refl eq_refl eq_refl eq_refl
                eq_refl)
      as (_ & Ho & Ha & _ & Hasg & Hi & _ & _ & Hl).
    split; [exact Ho|]. split; [exact Ha|]. split; [exact Hasg|].
    split; [exact Hi|exact Hl].
Defined.

(** C5 at work: three quiet polls at 10, 20 and 30 leave idleness anchored
    at 10. *)
Lemma idle_anchoring_witness :
  let self := processor working_shell 300 1200 30 [users] [] in
  let ticks := [tick_at 10; tick_at 20; tick_at 30] in
  quiet_run self None ticks /\
  fst (polls self None ticks) = Some 10 /\
  map assignments (snd (polls self None ticks))
  = [[SetIdleSince (Some 10)]; []; []] /\
  (_idle_since (store (poll self None (tick_at 10))) <> None <->
   quiet self None (tick_at 10)).
Proof.
  cbv zeta.
  assert (Hq : quiet_run (processor working_shell 300 1200 30 [users] [])
                 None [tick_at 10; tick_at 20; tick_at 30])
    by (repeat split; reflexivity).
  split; [exact Hq|].
  destruct (idle_anchoring System
              (processor working_shell 300 1200 30 [users] []))
    as [Hrun Hiff].
  destruct (Hrun (tick_at 10) [tick_at 20; tick_at 30] Hq) as [Hf Ht].
  split; [exact Hf|]. split; [exact Ht|].
  apply Hiff. reflexivity.
Defined.

(** C6, the claim at a concrete tick, instants being seconds from the epoch:
    with a [wakeup_delta] of 100000000000 seconds, the wake-up an hour after
    the tick has no [datetime] that much earlier; the subtraction raises
    before the flag is looked at, and [_idle_since] is not [None] after the
    tick. *)
Lemma reset_skipped_on_overflow_example :
  let self :=
    partial_processor working_shell 300 1200 100000000000 [users]
      [timer "a" 3600] in
  let s := idle_store 0 in
  let r := Partial.iteration limits self 301 true s in
  outcome (wakeup_phase self 301 s) = Returned (Some 3901) /\
  (datetime_min limits <= 3901 <= datetime_max limits) /\
  (timedelta_min limits <= _wakeup_delta self <= timedelta_max limits) /\
  3901 - _wakeup_delta self < datetime_min limits /\
  outcome r = Raised OverflowError /\
  _idle_since (store r) = Some 0 /\
  _idle_since (store r) <> None.
Proof. repeat split; try reflexivity; discriminate. Qed.

(** C6 at work: a resume while the system has been idle long enough to
    suspend. *)
Lemma reset_on_wake_witness :
  let self :=
    partial_processor working_shell 300 1200 30 [users] [timer "a" 3600] in
  let s := idle_store 0 in
  let r := Partial.iteration limits self 301 true s in
  (outcome (wakeup_phase self 301 s) = Returned (Some 3901) /\
   Partial.adjust limits self (Some 3901) = Returned (Some 3871)) /\
  outcome r = Returned tt /\
  _idle_since (store r) = None /\
  actions (events r) = [].
Proof.
  cbv zeta. split; [split; reflexivity|].
  destruct (reset_on_wake System limits
              (partial_processor working_shell 300 1200 30 [users]
                 [timer "a" 3600])
              301 (idle_store 0)) as (Ha & H & _).
  destruct (H (Some 3901) (Some 3871) eq_refl eq_refl) as (Ho & Hi & _).
  split; [exact Ho|]. split; [exact Hi|exact Ha].
Defined.



(** C8, the claim at a concrete tick: with [just_woke_up] the activity probe
    and the wake probe are both invoked. *)
Lemma probes_invoked_on_wake_example :
  let self :=
    partial_processor working_shell 300 1200 30 [users] [timer "a" 3600] in
  let r := Partial.iteration limits self 301 true (idle_store 0) in
  probe_calls (events r) =
    [CheckCalled "Users" (Answer None);
     WakeupCalled "a" 301 (Answer (Some 3901))] /\
  probe_calls (events r) <> [].
Proof. split; [reflexivity|discriminate]. Qed.

(** C8 at work. *)
Lemma probes_run_before_reset_witness :
  let self :=
    partial_processor working_shell 300 1200 30 [users] [timer "a" 3600] in
  let r := Partial.iteration limits self 301 true (idle_store 0) in
  (outcome (wakeup_phase self 301 (idle_store 0)) = Returned (Some 3901) /\
   Partial.adjust limits self (Some 3901) = Returned (Some 3871)) /\
  checks_called (events r) = [("Users", Answer None)] /\
  wakeups_called (events r) = [("a", 301, Answer (Some 3901))] /\
  outcome r = Returned tt /\
  _idle_since (store r) = None.
Proof.
  cbv zeta. split; [split; reflexivity|].
  destruct (probes_run_before_reset System limits
              (partial_processor working_shell 300 1200 30 [users]
                 [timer "a" 3600])
              301 (idle_store 0)) as (_ & Hc & Hw & _ & _ & _ & H).
  split; [exact Hc|]. split; [exact Hw|].
  exact (H (Some 3901) (Some 3871) eq_refl eq_refl).
Defined.

(** C9 at work, every command failing with status 1: a tick that suspends
    still returns, resets, and runs its three commands. *)
Lemma command_failures_swallowed_witness :
  let self :=
    Partial.main_processor failing_shell accepting (config 300 1200 30)
      [users] [timer "a" 3600] false in
  let s := idle_store 0 in
  let r := Partial.iteration limits self 301 false s in
  (outcome (activity_phase self s) = Returned false /\
   outcome (wakeup_phase self 301 s) = Returned (Some 3901) /\
   Partial.adjust limits self (Some 3901) = Returned (Some 3871) /\
   suspends (config 300 1200 30) (_idle_since s) 301 false false (Some 3901)
   = true /\
   Partial.suspend_commands accepting (config 300 1200 30) (Some 3871)
   = Some ["rtcwake"; "notify wakeup"; "systemctl suspend"]) /\
  outcome r = Returned tt /\
  _idle_since (store r) = None /\
  check_calls (events r)
  = [("rtcwake", 1); ("notify wakeup", 1); ("systemctl suspend", 1)].
Proof.
  cbv zeta. split; [repeat split; reflexivity|].
  destruct (command_failures_swallowed System failing_shell limits accepting
              (config 300 1200 30) [users] [timer "a" 3600] false)
    as (_ & _ & _ & H).
  destruct (H 301 false (idle_store 0) false (Some 3901) (Some 3871)
              ["rtcwake"; "notify wakeup"; "systemctl suspend"]
              eq_refl eq_refl eq_refl (fun _ => eq_refl))
    as (Ho & Hi & Hc & _).
  split; [exact Ho|]. split; [exact Hi|exact Hc].
Defined.

(** C10, the claim at a concrete tick: the raw wake-up lies exactly
    [wakeup_delta] after the tick, so the adjusted one is the tick itself and
    not in the future; [min_sleep_time] is zero; and the tick suspends. *)
Lemma suspends_at_delta_example :
  let self :=
    partial_processor working_shell 300 0 30 [users] [timer "a" 30] in
  let s := idle_store 0 in
  let r := Partial.iteration limits self 301 false s in
  outcome (activity_phase self s) = Returned false /\
  outcome (wakeup_phase self 301 s) = Returned (Some 331) /\
  Partial.adjust limits self (Some 331) = Returned (Some 301) /\
  331 - 301 <= _wakeup_delta self /\
  0 <= _min_sleep_time self /\
  _idle_time self < 301 - anchor 301 s /\
  0 <= _idle_time self /\
  actions (events r) =
    [CallWakeupFn 301; CheckCall "rtcwake" 0; CallSleepFn (Some 301);
     CheckCall "notify wakeup" 0; CheckCall "systemctl suspend" 0] /\
  _idle_since (store r) = None /\
  _idle_since (store r) <> _idle_since s.
Proof. repeat split; try reflexivity; discriminate. Qed.

(** C10 at work: a raw wake-up 20 after the tick, with a delta of 30 and a
    [min_sleep_time] of zero. *)
Lemma delta_adjusted_guard_witness :
  let self :=
    partial_processor working_shell 300 0 30 [users] [timer "a" 20] in
  let s := idle_store 0 in
  let r := Partial.iteration limits self 301 false s in
  (outcome (activity_phase self s) = Returned false /\
   outcome (wakeup_phase self 301 s) = Returned (Some 321) /\
   Partial.adjust limits self (Some 321) = Returned (Some 291) /\
   _idle_time self < 301 - anchor 301 s /\
   321 - 301 < _wakeup_delta self /\
   0 <= _min_sleep_time self) /\
  outcome r = Returned tt /\ actions (events r) = [] /\
  _idle_since (store r) = Some 0.
Proof.
  cbv zeta. split.
  - repeat split; try reflexivity; cbn; lia.
  - destruct (delta_adjusted_guard System limits
                (partial_processor working_shell 300 0 30 [users]
                   [timer "a" 20])
                301 (idle_store 0) 321 291 eq_refl eq_refl eq_refl eq_refl)
      as (_ & _ & _ & _ & _ & H & _).
    destruct H as (Ho & Ha & _ & Hi & _); [reflexivity|cbn; lia|].
    split; [exact Ho|]. split; [exact Ha|exact Hi].
Defined.

(** * Concrete runs of the further properties *)

(** X2 at work: a wake-up in an hour, then one in ten minutes added. *)
Lemma execute_wakeups_app_witness :
  let l1 := [timer "a" 3600] in
  let l2 := [broken_timer; timer "c" 600] in
  outcome (execute_wakeups l1 100 processor_logger 0%nat)
  = Returned (Some 3700) /\
  exists m',
    outcome (execute_wakeups (l1 ++ l2) 100 processor_logger 0%nat)
    = Returned (Some m') /\ m' <= 3700.
Proof.
  cbv zeta. split; [reflexivity|].
  destruct (execute_wakeups_app System [timer "a" 3600]
              [broken_timer; timer "c" 600] 100 processor_logger 0%nat)
    as (_ & _ & _ & H).
  exact (H 3700 eq_refl).
Defined.

(** X3 at work: the first probe matches, the added one is not run. *)
Lemma execute_checks_app_witness :
  let l1 := [broken; users] in
  let l2 := [silent] in
  outcome (execute_checks l1 false processor_logger 2%nat) = Returned true /\
  execute_checks (l1 ++ l2) false processor_logger 2%nat
  = execute_checks l1 false processor_logger 2%nat.
Proof.
  cbv zeta. split; [reflexivity|].
  destruct (execute_checks_app System [broken; users] [silent] false
              processor_logger 2%nat) as (a & b & Ha & _ & H & _).
  assert (E : a = true) by (vm_compute in Ha; congruence).
  rewrite E in H. exact H.
Defined.

(** X4 at work: users are logged in. *)
Lemma activity_resets_witness :
  let self :=
    partial_processor working_shell 300 1200 30 [users] [timer "a" 3600] in
  let s := {| _idle_since := Some 0; system := 2%nat |} in
  let r := Partial.iteration limits self 301 false s in
  outcome (activity_phase self s) = Returned true /\
  actions (events r) = [] /\
  outcome r = Returned tt /\
  _idle_since (store r) = None.
Proof.
  cbv zeta. split; [reflexivity|].
  destruct (activity_resets System limits
              (partial_processor working_shell 300 1200 30 [users]
                 [timer "a" 3600])
              301 {| _idle_since := Some 0; system := 2%nat |} eq_refl)
    as (Ha & _ & wakeup_at & Hw & H).
  split; [exact Ha|].
  assert (E : wakeup_at = Some 3901) by (vm_compute in Hw; congruence).
  subst wakeup_at.
  change (Partial.adjust limits
            (partial_processor working_shell 300 1200 30 [users]
               [timer "a" 3600]) (Some 3901))
    with (Returned (Some 3871) : Outcome (option Z)) in H.
  destruct H as (Ho & Hi & _). split; [exact Ho|exact Hi].
Defined.

(** X5 at work: [wakeup_fn] raises, and the state is not reset. *)
Lemma iteration_raises_only_callbacks_witness :
  let self := ExampleDaemon.raising in
  let s := {| _idle_since := Some 0;
              system := {| ExampleDaemon.clock := 301;
                           ExampleDaemon.marker := false;
                           ExampleDaemon.sessions := 0 |} |} in
  let r := Partial.iteration limits self 301 false s in
  let e := CalledProcessError "rtcwake" 1 in
  let env := store (wakeup_phase self 301 s) in
  outcome r = Raised e /\
  exists raw,
    outcome (wakeup_phase self 301 s) = Returned raw /\
    ((Partial.adjust limits self raw = Raised e /\
      e = OverflowError /\
      store r = {| _idle_since := _idle_since s; system := env |} /\
      actions (events r) = [] /\
      assignments (events r) = []) \/
     (exists at_ before,
        Partial.adjust limits self raw = Returned (Some at_) /\
        outcome (_wakeup_fn self at_ env) = Raised e /\
        store r = {| _idle_since := Some (anchor 301 s);
                     system := store (_wakeup_fn self at_ env) |} /\
        events r
        = before ++ CallWakeupFn at_ :: events (_wakeup_fn self at_ env) /\
        actions before = [] /\
        filter is_reset before = []) \/
     (exists w before,
        Partial.adjust limits self raw = Returned w /\
        let env' :=
          match w with
          | Some at_ => store (_wakeup_fn self at_ env)
          | None => env
          end in
        outcome (_sleep_fn self w env') = Raised e /\
        store r = {| _idle_since := None;
                     system := store (_sleep_fn self w env') |} /\
        events r
        = before ++ SetIdleSince None :: CallSleepFn w
                 :: events (_sleep_fn self w env'))).
Proof.
  cbv zeta. split; [reflexivity|].
  apply (iteration_raises_only_callbacks ExampleDaemon.Machine limits
           ExampleDaemon.raising 301 false).
  reflexivity.
Defined.

(** X6 at work: a tick that suspends, and the tick a minute later. *)
Lemma no_action_after_reset_witness :
  let self := partial_processor working_shell 300 1200 30 [users] [] in
  let r := Partial.iteration limits self 301 false (idle_store 0) in
  (0 <= _idle_time self /\
   outcome r = Returned tt /\
   filter is_sleep_call (events r) <> []) /\
  _idle_since (store r) = None /\
  actions
    (events (Partial.iteration limits self 361 false
               {| _idle_since := _idle_since (store r); system := 0%nat |}))
  = [].
Proof.
  cbv zeta.
  assert (Hsane : 0 <= _idle_time
                         (partial_processor working_shell 300 1200 30
                            [users] [])) by (cbn; lia).
  assert (Hsl : filter is_sleep_call
                  (events (Partial.iteration limits
                             (partial_processor working_shell 300 1200 30
                                [users] [])
                             301 false (idle_store 0))) <> [])
    by discriminate.
  split; [split; [exact Hsane|split; [reflexivity|exact Hsl]]|].
  destruct (no_action_after_reset System limits
              (partial_processor working_shell 300 1200 30 [users] [])
              301 false (idle_store 0) Hsane) as [_ H].
  destruct (H eq_refl (or_intror (or_intror Hsl))) as [Hi Hnext].
  split; [exact Hi|]. exact (Hnext 361 false 0%nat).
Defined.


(** X9 at work: a template with a field [str.format] has no value for, and
    one without fields whose command fails. *)
Lemma notify_suspend_commands_witness :
  Partial.notify_suspend failing_shell rejecting (Some "notify {when}")
    (Some "notify") (Some 100) 0%nat
  = (Raised KeyError, 0%nat, []) /\
  let r :=
    Partial.notify_suspend failing_shell rejecting (Some "notify wakeup")
      (Some "notify") (Some 100) 0%nat in
  outcome r = Returned tt /\
  check_calls (events r) = [("notify wakeup", 1)].
Proof.
  cbv zeta. split.
  - exact (notify_suspend_commands System failing_shell rejecting
             (Some "notify {when}") (Some "notify") (Some 100) 0%nat).
  - destruct (notify_suspend_commands System failing_shell rejecting
                (Some "notify wakeup") (Some "notify") (Some 100) 0%nat)
      as (Ho & Hc & _).
    split; [exact Ho|exact Hc].
Defined.

(** X10 at work: the machine has just resumed. *)
Lemma loop_body_is_iteration_witness :
  let self :=
    Partial.main_processor ExampleDaemon.shell accepting
      (config 300 1200 30) [ExampleDaemon.users] [ExampleDaemon.hourly]
      false in
  let s := {| _idle_since := Some 0; system := ExampleDaemon.resumed |} in
  let it :=
    Partial.iteration limits self 43200 true
      {| _idle_since := Some 0;
         system := {| ExampleDaemon.clock := 43201;
                      ExampleDaemon.marker := false;
                      ExampleDaemon.sessions := 0 |} |} in
  let r :=
    loop_body limits ExampleDaemon.now ExampleDaemon.isfile
      ExampleDaemon.remove ExampleDaemon.sleep self 60
      ExampleDaemon.marker_file s in
  (ExampleDaemon.isfile ExampleDaemon.marker_file (system s) = true /\
   outcome it = Returned tt /\ 0 <= 60) /\
  outcome r = Returned tt /\
  events r = events it /\
  actions (events r) = [] /\
  ExampleDaemon.clock (system (store r)) = 43261.
Proof.
  cbv zeta. split; [split; [reflexivity|split; [reflexivity|lia]]|].
  destruct (loop_body_is_iteration ExampleDaemon.Machine limits
              ExampleDaemon.now ExampleDaemon.isfile ExampleDaemon.remove
              ExampleDaemon.sleep
              (Partial.main_processor ExampleDaemon.shell accepting
                 (config 300 1200 30) [ExampleDaemon.users]
                 [ExampleDaemon.hourly] false)
              60 ExampleDaemon.marker_file
              {| _idle_since := Some 0; system := ExampleDaemon.resumed |})
    as (Hev & _ & Hret & _ & _ & Hfound).
  destruct (Hret eq_refl ltac:(lia)) as [Ho Hs].
  split; [exact Ho|]. split; [exact Hev|]. split; [exact (Hfound eq_refl)|].
  rewrite Hs. reflexivity.
Defined.

(** X12 at work: a run for no time at all. *)
Lemma loop_without_time_witness :
  let self :=
    Partial.main_processor ExampleDaemon.shell accepting
      (config 300 1200 30) [ExampleDaemon.users] [] false in
  let s := {| _idle_since := None; system := ExampleDaemon.resumed |} in
  (0 <= 0 /\
   fst (ExampleDaemon.now (system s))
   <= fst (ExampleDaemon.now (snd (ExampleDaemon.now (system s)))) /\
   timedelta_min limits <= 0 <= timedelta_max limits /\
   datetime_min limits <= fst (ExampleDaemon.now (system s)) + 0
   <= datetime_max limits) /\
  loop limits ExampleDaemon.now ExampleDaemon.isfile ExampleDaemon.remove
    ExampleDaemon.sleep 5 self 60 (Some 0) ExampleDaemon.marker_file s
  = (Returned (Some tt),
     {| _idle_since := None;
        system := {| ExampleDaemon.clock := 43202;
                     ExampleDaemon.marker := true;
                     ExampleDaemon.sessions := 0 |} |},
     []).
Proof.
  cbv zeta. split; [cbn; lia|].
  apply (loop_without_time ExampleDaemon.Machine limits ExampleDaemon.now
           ExampleDaemon.isfile ExampleDaemon.remove ExampleDaemon.sleep
           4); cbn; lia.
Defined.

(** X13 at work: an external class and an internal one. *)
Lemma resolve_splits_at_last_dot_witness :
  has_dot "site.timers.Hourly" = true /\
  resolve "site.timers.Hourly" "wakeup" = ("site.timers", "Hourly") /\
  "site.timers.Hourly"
  = (fst (resolve "site.timers.Hourly" "wakeup") ++ "."
     ++ snd (resolve "site.timers.Hourly" "wakeup"))%string /\
  has_dot "Users" = false /\
  fst (resolve "Users" "activity") = "autosuspend.checks.activity".
Proof.
  split; [reflexivity|]. split; [reflexivity|].
  destruct (resolve_splits_at_last_dot "site.timers.Hourly" "wakeup")
    as (_ & H1 & _).
  destruct (resolve_splits_at_last_dot "Users" "activity") as (_ & _ & H2).
  split; [exact (H1 eq_refl)|]. split; [reflexivity|].
  exact (proj1 (H2 eq_refl)).
Defined.

(** X14 at work: of the two activity sections, the enabled one gives the
    check. *)
Lemma set_up_checks_returns_witness :
  let r := ExampleDaemon.set_up ExampleDaemon.conf "check" "activity"
             ActivityClass true in
  fst r = Ok [ActivityCheck ExampleDaemon.users] /\
  Forall (fun check => isinstance check ActivityClass = true)
    [ActivityCheck ExampleDaemon.users] /\
  ([ActivityCheck ExampleDaemon.users] : list (Check ExampleDaemon.Machine))
  <> [].
Proof.
  cbv zeta. split; [reflexivity|].
  destruct (set_up_checks_returns ExampleDaemon.Machine ExampleDaemon.Conf
              ExampleDaemon.sections ExampleDaemon.has_option
              ExampleDaemon.get ExampleDaemon.getboolean
              ExampleDaemon.items ExampleDaemon.import_ ExampleDaemon.conf
              "check" "activity" ActivityClass true
              [ActivityCheck ExampleDaemon.users] eq_refl)
    as (_ & Hinst & _ & Hne).
  split; [exact Hinst|exact (Hne eq_refl)].
Defined.

(** X15 at work: the class of the external wake-up check is looked up, and
    the check is created right after that. *)
Lemma set_up_checks_enabled_only_witness :
  let r := ExampleDaemon.set_up ExampleDaemon.conf "wakeup" "wakeup"
             WakeupClass false in
  In (Create "Hourly" "Timer" "wakeup.Timer") (snd r) /\
  In "wakeup.Timer" (ExampleDaemon.sections ExampleDaemon.conf) /\
  ExampleDaemon.getboolean ExampleDaemon.conf "wakeup.Timer" "enabled" false
  = Some true /\
  In (Import "site.timers" "Hourly") (snd r) /\
  forall before after,
    snd r = before ++ Create "Hourly" "Timer" "wakeup.Timer" :: after ->
    exists earlier, before = earlier ++ [Import "site.timers" "Hourly"].
Proof.
  cbv zeta.
  assert (Hin : In (Create "Hourly" "Timer" "wakeup.Timer")
                  (snd (ExampleDaemon.set_up ExampleDaemon.conf "wakeup"
                          "wakeup" WakeupClass false)))
    by (vm_compute; tauto).
  split; [exact Hin|].
  destruct (set_up_checks_enabled_only ExampleDaemon.Machine
              ExampleDaemon.Conf ExampleDaemon.sections
              ExampleDaemon.has_option ExampleDaemon.get
              ExampleDaemon.getboolean ExampleDaemon.items
              ExampleDaemon.import_ ExampleDaemon.conf "wakeup" "wakeup"
              WakeupClass false) as (_ & H & Hord).
  destruct (H "Hourly" "Timer" "wakeup.Timer" Hin) as (H1 & _ & H3 & H4).
  split; [exact H1|]. split; [exact H3|]. split; [exact H4|].
  intros before after Hsplit.
  exact (Hord before "Hourly" "Timer" "wakeup.Timer" after Hsplit).
Defined.

(** X16 at work: the one activity section is disabled. *)
Lemma set_up_checks_nothing_enabled_witness :
  (forall section,
     In section
       (check_sections ExampleDaemon.sections ExampleDaemon.conf_disabled
          "check") ->
     ExampleDaemon.getboolean ExampleDaemon.conf_disabled section "enabled"
       false = Some false) /\
  ExampleDaemon.set_up ExampleDaemon.conf_disabled "check" "activity"
    ActivityClass true
  = (Fail (ConfigurationError "No checks enabled" []),
     [skipped "check" "check.Users"]).
Proof.
  assert (H : forall section,
            In section
              (check_sections ExampleDaemon.sections
                 ExampleDaemon.conf_disabled "check") ->
            ExampleDaemon.getboolean ExampleDaemon.conf_disabled section
              "enabled" false = Some false)
    by (intros section [<-|[]]; reflexivity).
  split; [exact H|].
  exact (set_up_checks_nothing_enabled ExampleDaemon.Machine
           ExampleDaemon.Conf ExampleDaemon.sections
           ExampleDaemon.has_option ExampleDaemon.get
           ExampleDaemon.getboolean ExampleDaemon.items
           ExampleDaemon.import_ ExampleDaemon.conf_disabled "check"
           "activity" ActivityClass true H).
Defined.

(** X17 at work: the start-up of the example configuration. *)
Lemma main_setup_returns_witness :
  exists daemon,
    fst (ExampleDaemon.start_up false None ExampleDaemon.conf) = Ok daemon /\
    _activities (daemon_processor daemon) = [ExampleDaemon.users] /\
    _activities (daemon_processor daemon) <> [] /\
    _idle_time (daemon_processor daemon) = 600 /\
    daemon_interval daemon = 60.
Proof.
  eexists. split; [reflexivity|].
  destruct (main_setup_returns ExampleDaemon.Machine ExampleDaemon.shell
              plain_format ExampleDaemon.Conf ExampleDaemon.sections
              ExampleDaemon.has_option ExampleDaemon.get
              ExampleDaemon.getboolean ExampleDaemon.items
              ExampleDaemon.import_ ExampleDaemon.getfloat
              ExampleDaemon.get_required ExampleDaemon.get_or_none
              ExampleDaemon.get_or false None ExampleDaemon.conf _ eq_refl)
    as (checks & wakeups & idle & min_sleep & delta & suspend & wakeup &
        _ & _ & _ & _ & Hne & _).
  split; [reflexivity|]. split; [exact Hne|]. split; reflexivity.
Defined.

(** X18 at work: the start-up with the activity check disabled. *)
Lemma main_needs_activity_check_witness :
  (forall section,
     In section
       (check_sections ExampleDaemon.sections ExampleDaemon.conf_disabled
          "check") ->
     ExampleDaemon.getboolean ExampleDaemon.conf_disabled section "enabled"
       false = Some false) /\
  ExampleDaemon.start_up false None ExampleDaemon.conf_disabled
  = (Fail (ConfigurationError "No checks enabled" []),
     [skipped "check" "check.Users"]).
Proof.
  assert (H : forall section,
            In section
              (check_sections ExampleDaemon.sections
                 ExampleDaemon.conf_disabled "check") ->
            ExampleDaemon.getboolean ExampleDaemon.conf_disabled section
              "enabled" false = Some false)
    by (intros section [<-|[]]; reflexivity).
  split; [exact H|].
  exact (main_needs_activity_check ExampleDaemon.Machine ExampleDaemon.shell
           plain_format ExampleDaemon.Conf ExampleDaemon.sections
           ExampleDaemon.has_option ExampleDaemon.get
           ExampleDaemon.getboolean ExampleDaemon.items
           ExampleDaemon.import_ ExampleDaemon.getfloat
           ExampleDaemon.get_required ExampleDaemon.get_or_none
           ExampleDaemon.get_or false None ExampleDaemon.conf_disabled H).
Defined.

(** X19 at work: a wake-up in an hour, with a delta of thirty seconds and
    with one of 100000000000 seconds. *)
Lemma iteration_within_limits_witness :
  let self :=
    partial_processor working_shell 300 1200 30 [users] [timer "a" 3600] in
  let far :=
    partial_processor working_shell 300 1200 100000000000 [users]
      [timer "a" 3600] in
  let s := idle_store 0 in
  (outcome (activity_phase self s) = Returned false /\
   outcome (wakeup_phase self 301 s) = Returned (Some 3901) /\
   (timedelta_min limits <= _wakeup_delta self <= timedelta_max limits /\
    datetime_min limits <= 3901 - _wakeup_delta self <= datetime_max limits) /\
   ~ (timedelta_min limits <= _wakeup_delta far <= timedelta_max limits /\
      datetime_min limits <= 3901 - _wakeup_delta far
      <= datetime_max limits)) /\
  Partial.iteration limits self 301 false s = iteration self 301 false s /\
  outcome (Partial.iteration limits far 301 false s) = Raised OverflowError.
Proof.
  cbv zeta.
  assert (Hin : timedelta_min limits
                <= _wakeup_delta
                     (partial_processor working_shell 300 1200 30 [users]
                        [timer "a" 3600]) <= timedelta_max limits /\
                datetime_min limits
                <= 3901 - _wakeup_delta
                            (partial_processor working_shell 300 1200 30
                               [users] [timer "a" 3600])
                <= datetime_max limits) by (cbn; lia).
  assert (Hout : ~ (timedelta_min limits
                    <= _wakeup_delta
                         (partial_processor working_shell 300 1200
                            100000000000 [users] [timer "a" 3600])
                    <= timedelta_max limits /\
                    datetime_min limits
                    <= 3901 - _wakeup_delta
                                (partial_processor working_shell 300 1200
                                   100000000000 [users] [timer "a" 3600])
                    <= datetime_max limits)) by (cbn; lia).
  split; [split; [reflexivity|split; [reflexivity|split; assumption]]|].
  split.
  - exact (proj1 (iteration_within_limits System limits
                    (partial_processor working_shell 300 1200 30 [users]
                       [timer "a" 3600])
                    301 false (idle_store 0) false (Some 3901) eq_refl
                    eq_refl) Hin).
  - rewrite (proj2 (iteration_within_limits System limits
                      (partial_processor working_shell 300 1200 100000000000
                         [users] [timer "a" 3600])
                      301 false (idle_store 0) false (Some 3901) eq_refl
                      eq_refl) Hout).
    reflexivity.
Defined.

(** X20 at work: templates without fields, which [str.format] leaves as
    they are. *)
Lemma dispatch_with_accepted_templates_witness :
  let config := config 300 1200 30 in
  (forall template at_,
     template = wakeup_cmd config \/
     truthy (notify_cmd_wakeup config) = Some template ->
     accepting template at_ = Returned (plain_format template at_)) /\
  Partial.iteration limits
    (Partial.main_processor failing_shell accepting config [users]
       [timer "a" 3600] false) 301 false (idle_store 0)
  = iteration
      (main_processor failing_shell plain_format config [users]
         [timer "a" 3600] false) 301 false (idle_store 0).
Proof.
  cbv zeta.
  assert (H : forall template at_,
            template = wakeup_cmd (config 300 1200 30) \/
            truthy (notify_cmd_wakeup (config 300 1200 30)) = Some template ->
            accepting template at_ = Returned (plain_format template at_))
    by reflexivity.
  split; [exact H|].
  destruct (dispatch_with_accepted_templates System failing_shell
              plain_format limits accepting (config 300 1200 30) [users]
              [timer "a" 3600] false) as (_ & _ & _ & Hit).
  exact (Hit H 301 false (idle_store 0) (Some 3901) (Some 3871) eq_refl
           eq_refl).
Defined.
